(** * Tag-enrichment lambdas for OpenSearch preprocessing

    A shallow embedding of the three lambda functions of the repository

      - [lambda_functions/transform_cloudwatch_lambda.py]  (module [Cloudwatch])
      - [lambda_functions/transform_lambda.py]             (module [Metrics])
      - [lambda_functions/add_cloudwatch_subscrition.py]   (module [Subscription])

    Python code is embedded in a state-and-exception monad: a computation
    takes the process state (memoisation caches, the dictionaries living on
    the heap, the calls made so far to AWS, the logger output) and gives back
    a value or a raised exception together with the new state.  The state
    survives a raised exception, as it does in Python. *)

From stdpp Require Import base strings list gmap pretty.
From Stdlib Require Import ZArith Ascii.

Local Open Scope string_scope.
Local Open Scope list_scope.

(** ** Python prelude *)

Module Py.

(** Exception classes the three files can meet.  [JSONDecodeError],
    [UnicodeDecodeError] and [BinasciiError] are subclasses of [ValueError];
    [ResourceAlreadyExistsException] is a modelled service exception of
    botocore's CloudWatch Logs client; [NoSuchTagSet] is an error code of S3
    that its service model does not declare as an exception class. *)
Inductive exn_class :=
| KeyError | IndexError | TypeError | AttributeError
| ValueError | JSONDecodeError | UnicodeDecodeError | BinasciiError
| RuntimeError | OSError
| ClientError | NoSuchTagSet | ResourceAlreadyExistsException
| NoRegionError.

Record exn := Exn { exn_cls : exn_class; exn_msg : string }.

Global Instance exn_class_eq_dec : EqDecision exn_class.
Proof. solve_decision. Defined.

(** [isinstance(e, ValueError)] *)
Definition is_ValueError (e : exn) : bool :=
  match exn_cls e with
  | ValueError | JSONDecodeError | UnicodeDecodeError | BinasciiError => true
  | _ => false
  end.

Definition is_class (c : exn_class) (e : exn) : bool := bool_decide (exn_cls e = c).

Inductive result (A : Type) :=
| Ok (a : A)
| Raise (e : exn).
Global Arguments Ok {A} a.
Global Arguments Raise {A} e.

(** The monad: state passing, with the state kept when an exception is raised. *)
Definition M (S A : Type) : Type := S → result A * S.

Global Instance M_ret {S} : MRet (M S) := λ A a s, (Ok a, s).
Global Instance M_bind {S} : MBind (M S) := λ A B f m s,
  match m s with
  | (Ok a, s') => f a s'
  | (Raise e, s') => (Raise e, s')
  end.

Definition raise {S A} (e : exn) : M S A := λ s, (Raise e, s).

Definition lift {S A} (r : result A) : M S A := λ s, (r, s).

Definition gets {S A} (f : S → A) : M S A := λ s, (Ok (f s), s).

Definition modify {S} (f : S → S) : M S unit := λ s, (Ok tt, f s).

(** [try: body except <classes matched by handler>: ...]; a handler that
    answers [None] does not match and the exception goes on. *)
Definition try_except {S A} (body : M S A) (handler : exn → option (M S A)) : M S A :=
  λ s, match body s with
       | (Ok a, s') => (Ok a, s')
       | (Raise e, s') =>
           match handler e with
           | Some h => h s'
           | None => (Raise e, s')
           end
       end.

(** [except Exception as e: h e] *)
Definition except_Exception {S A} (body : M S A) (h : exn → M S A) : M S A :=
  try_except body (λ e, Some (h e)).

(** A [for] loop that carries what it has built so far; the first exception
    leaves the loop. *)
Fixpoint foldM {S A B} (f : B → A → M S B) (b : B) (l : list A) : M S B :=
  match l with
  | [] => mret b
  | x :: l' => b' ← f b x; foldM f b' l'
  end.

(** A [for] loop that appends one result per element. *)
Fixpoint mapM {S A B} (f : A → M S B) (l : list A) : M S (list B) :=
  match l with
  | [] => mret []
  | x :: l' => y ← f x; ys ← mapM f l'; mret (y :: ys)
  end.

(** *** Values

    What [json.loads] can return and what the dictionaries of the program
    hold.  A [dict] keeps its insertion order, so it is an association list
    with distinct keys; a float is carried as its [repr], so that a zero is
    [0.0] or [-0.0]. *)
#[warnings="-register-all"]
Inductive value :=
| VNone
| VBool (b : bool)
| VInt (n : Z)
| VFloat (lit : string)
| VStr (s : string)
| VList (l : list value)
| VDict (d : list (string * value)).

Abbreviation dict := (list (string * value)).

(** [d.get(k)] *)
Fixpoint dict_get (k : string) (d : dict) : option value :=
  match d with
  | [] => None
  | (k', v) :: d' => if decide (k = k') then Some v else dict_get k d'
  end.

(** [d[k] = v]: an existing key keeps its place, a new key goes last. *)
Fixpoint dict_set (k : string) (v : value) (d : dict) : dict :=
  match d with
  | [] => [(k, v)]
  | (k', v') :: d' =>
      if decide (k = k') then (k, v) :: d' else (k', v') :: dict_set k v d'
  end.

(** [d.pop(k, None)], the popped value dropped *)
Fixpoint dict_pop (k : string) (d : dict) : dict :=
  match d with
  | [] => []
  | (k', v') :: d' => if decide (k = k') then d' else (k', v') :: dict_pop k d'
  end.

(** [k in d] *)
Definition dict_mem (k : string) (d : dict) : bool :=
  match dict_get k d with Some _ => true | None => false end.

(** [{tag["Key"]: tag["Value"] for tag in tag_list}] *)
Definition dict_of_tags (tag_list : list (string * string)) : dict :=
  foldl (λ d kv, dict_set kv.1 (VStr kv.2) d) [] tag_list.

(** Truth value of a dict ([if d:], [len(d.keys()) > 0]) *)
Definition dict_nonempty (d : dict) : bool :=
  match d with [] => false | _ => true end.

(** [type(v).__name__], as error messages quote it *)
Definition type_name (v : value) : string :=
  match v with
  | VNone => "NoneType"
  | VBool _ => "bool"
  | VInt _ => "int"
  | VFloat _ => "float"
  | VStr _ => "str"
  | VList _ => "list"
  | VDict _ => "dict"
  end.

(** The [AttributeError] of [v.attr] for a value without that attribute *)
Definition no_attribute (v : value) (attr : string) : exn :=
  Exn AttributeError
      ("'" +:+ type_name v +:+ "' object has no attribute '" +:+ attr +:+ "'").

(** The [TypeError] of an operation that the type of [v] does not support *)
Definition unsupported (v : value) (what : string) : exn :=
  Exn TypeError ("'" +:+ type_name v +:+ "' object " +:+ what).

(** [KeyError(k)]: its [str] is the [repr] of the key; the keys of the three
    files are literals without quote or backslash. *)
Definition key_error (k : string) : exn := Exn KeyError ("'" +:+ k +:+ "'").

(** [v[k]] for a string subscript [k] *)
Definition subscript (v : value) (k : string) : result value :=
  match v with
  | VDict d =>
      match dict_get k d with
      | Some x => Ok x
      | None => Raise (key_error k)
      end
  | VList _ => Raise (Exn TypeError "list indices must be integers or slices, not str")
  | VStr _ => Raise (Exn TypeError "string indices must be integers, not 'str'")
  | _ => Raise (unsupported v "is not subscriptable")
  end.

(** [v.get(k)] and [v.get(k, default)]; only a dict has [get]. *)
Definition method_get (v : value) (k : string) (dflt : value) : result value :=
  match v with
  | VDict d => Ok (default dflt (dict_get k d))
  | _ => Raise (no_attribute v "get")
  end.

(** [for x in v]: the elements of a list, the keys of a dict, the characters
    of a string. *)
Definition iterate (v : value) : result (list value) :=
  match v with
  | VList l => Ok l
  | VDict d => Ok (map (λ kv, VStr kv.1) d)
  | VStr s => Ok (map (λ c, VStr (String c "")) (String.list_ascii_of_string s))
  | _ => Raise (unsupported v "is not iterable")
  end.

(** *** Strings and bytes ([str] and [bytes] are both [string] here) *)

(** [s.startswith(p)] *)
Definition startswith (s p : string) : bool := String.prefix p s.

(** [sub in s] *)
Fixpoint str_in (sub s : string) : bool :=
  String.prefix sub s ||
  match s with
  | EmptyString => false
  | String _ s' => str_in sub s'
  end.

(** [s.split(sep)] for a one-character separator *)
Fixpoint split_aux (sep : ascii) (cur : string) (s : string) : list string :=
  match s with
  | EmptyString => [cur]
  | String c s' =>
      if decide (c = sep) then cur :: split_aux sep "" s'
      else split_aux sep (cur +:+ String c "") s'
  end.
Definition split (sep : ascii) (s : string) : list string := split_aux sep "" s.

(** [v.split("/")]; only a [str] has it. *)
Definition method_split (v : value) : result (list string) :=
  match v with
  | VStr s => Ok (split "/" s)
  | _ => Raise (no_attribute v "split")
  end.

(** [v.startswith(p)]; only a [str] has it. *)
Definition method_startswith (v : value) (p : string) : result bool :=
  match v with
  | VStr s => Ok (startswith s p)
  | _ => Raise (no_attribute v "startswith")
  end.

(** [v == s] for a string literal [s] *)
Definition eq_str (v : value) (s : string) : bool :=
  match v with
  | VStr s' => bool_decide (s' = s)
  | _ => false
  end.

(** The line feed *)
Definition LF : string := String (ascii_of_nat 10) "".

(** [l[i]] on a list *)
Definition index {A} (l : list A) (i : nat) : result A :=
  match l !! i with
  | Some x => Ok x
  | None => Raise (Exn IndexError "list index out of range")
  end.

(** [repr(b)] of a [bytes] object, which is what an f-string prints for it:
    the letter b and the bytes between single quotes, or between double
    quotes when the bytes hold a single quote and no double quote.  The
    quote in use and the backslash are escaped with a backslash; tab, line
    feed and carriage return are written as backslash and [t], [n], [r];
    every other byte outside the printable ASCII range is written as
    backslash, [x] and two hexadecimal digits. *)
Definition backslash : ascii := ascii_of_nat 92.
Definition single_quote : ascii := ascii_of_nat 39.
Definition double_quote : ascii := ascii_of_nat 34.

Definition hex_digit (n : nat) : ascii :=
  nth n (String.list_ascii_of_string "0123456789abcdef") "0"%char.

Definition bytes_repr_char (quote c : ascii) : string :=
  let n := nat_of_ascii c in
  if decide (c = quote) then String backslash (String c "")
  else if decide (c = backslash) then String backslash (String c "")
  else if decide (n = 9) then String backslash "t"
  else if decide (n = 10) then String backslash "n"
  else if decide (n = 13) then String backslash "r"
  else if bool_decide (n < 32)%nat || bool_decide (127 ≤ n)%nat then
    String backslash
      (String "x" (String (hex_digit (n / 16)) (String (hex_digit (n mod 16)) "")))
  else String c "".

Definition bytes_repr (b : string) : string :=
  let cs := String.list_ascii_of_string b in
  let has (q : ascii) := existsb (λ c, bool_decide (c = q)) cs in
  let quote := if has single_quote && negb (has double_quote)
               then double_quote else single_quote in
  String "b"
    (String quote
       (String.concat "" (map (bytes_repr_char quote) cs) +:+ String quote "")).

(** ASCII whitespace, as [bytes.strip()] sees it *)
Definition is_space (c : ascii) : bool :=
  let n := nat_of_ascii c in
  bool_decide (n = 32 ∨ n = 9 ∨ n = 10 ∨ n = 13 ∨ n = 11 ∨ n = 12).

Fixpoint lstrip (s : string) : string :=
  match s with
  | EmptyString => ""
  | String c s' => if is_space c then lstrip s' else s
  end.

Definition strip (s : string) : string :=
  String.rev (lstrip (String.rev (lstrip s))).

(** [bytes.splitlines()]: lines end at LF, CR or CRLF; no empty last line. *)
Fixpoint splitlines_aux (cur : string) (s : string) : list string :=
  match s with
  | EmptyString => if decide (cur = "") then [] else [cur]
  | String c s' =>
      if decide (nat_of_ascii c = 10) then cur :: splitlines_aux "" s'
      else if decide (nat_of_ascii c = 13) then
        match s' with
        | String c' s'' =>
            if decide (nat_of_ascii c' = 10) then cur :: splitlines_aux "" s''
            else cur :: splitlines_aux "" s'
        | EmptyString => [cur]
        end
      else splitlines_aux (cur +:+ String c "") s'
  end.
Definition splitlines (s : string) : list string := splitlines_aux "" s.

(** *** [functools.lru_cache(maxsize)]

    The wrapper keeps its entries from the most to the least recently used
    and counts hits and misses.  A miss is counted before the wrapped
    function runs; a call that raises stores nothing; a stored result pushes
    the least recently used entry out when the cache is full. *)
Record lru (K V : Type) := Lru {
  entries : list (K * V);
  hits : nat;
  misses : nat
}.
Global Arguments Lru {K V} _ _ _.
Global Arguments entries {K V} _.
Global Arguments hits {K V} _.
Global Arguments misses {K V} _.

Definition lru_empty {K V} : lru K V := Lru [] 0 0.

Section lru_cache.
Context {K V S : Type} `{EqDecision K}.

Fixpoint cache_get (key : K) (l : list (K * V)) : option V :=
  match l with
  | [] => None
  | (k, v) :: l' => if decide (key = k) then Some v else cache_get key l'
  end.

Fixpoint cache_remove (key : K) (l : list (K * V)) : list (K * V) :=
  match l with
  | [] => []
  | (k, v) :: l' => if decide (key = k) then l' else (k, v) :: cache_remove key l'
  end.

Definition lru_cache (maxsize : nat)
    (get : S → lru K V) (set : lru K V → S → S)
    (key : K) (user_function : M S V) : M S V :=
  λ s,
    let c := get s in
    match cache_get key (entries c) with
    | Some v =>
        (Ok v, set (Lru ((key, v) :: cache_remove key (entries c))
                        (Datatypes.S (hits c)) (misses c)) s)
    | None =>
        let s1 := set (Lru (entries c) (hits c) (Datatypes.S (misses c))) s in
        match user_function s1 with
        | (Raise e, s2) => (Raise e, s2)
        | (Ok v, s2) =>
            let c2 := get s2 in
            match cache_get key (entries c2) with
            | Some _ => (Ok v, s2)
            | None =>
                (Ok v, set (Lru (take maxsize ((key, v) :: entries c2))
                                (hits c2) (misses c2)) s2)
            end
        end
    end.
End lru_cache.

(** *** The logger *)
Inductive level := INFO | WARNING | ERROR.
Abbreviation log_record := (level * string)%type.

(** *** AWS, as the lambdas see it

    Clients are told apart by identity (they are cache keys); what a call
    answers is fixed by the environment the lambda runs in. *)
Definition client := nat.

Record tag_response := { TagList : option (list (string * string)) }.
Record tagset_response := { TagSet : option (list (string * string)) }.
Record db_instance := { AllocatedStorage : option Z }.
Record describe_response := { DBInstances : option (list db_instance) }.

Record put_object_request := {
  Bucket : string; Key : string; Body : string;
  ContentType : string; ContentEncoding : string; ServerSideEncryption : string
}.

Record subscription_request := {
  logGroupName : string; filterName : string; filterPattern : string;
  destinationArn : string; roleArn : string
}.

Inductive api_call :=
| ListTagsForResource (c : client) (ResourceName : string)
| ListTags (c : client) (ARN : string)
| GetBucketTagging (c : client) (bucket : string)
| DescribeDBInstances (c : client) (DBInstanceIdentifier : string)
| PutObject (c : client) (req : put_object_request)
| PutSubscriptionFilter (c : client) (req : subscription_request).

Record aws := {
  (** [boto3.Session().region_name] *)
  session_region : option string;
  (** [boto3.client(service, region_name=region)] *)
  boto3_client : string → option string → result client;
  list_tags_for_resource : client → string → result tag_response;
  list_tags : client → string → result tag_response;
  get_bucket_tagging : client → string → result tagset_response;
  (** [client.exceptions.NoSuchTagSet]: the service model of S3 declares no
      such exception and botocore answers the lookup with an
      [AttributeError]; this is its message. *)
  exceptions_NoSuchTagSet : client → string;
  describe_db_instances : client → string → result describe_response;
  put_object : client → put_object_request → result unit;
  put_subscription_filter : client → subscription_request → result unit;
  (** [datetime.now().strftime('%Y/%m/%d/%H')] and [int(time.time())] *)
  now_hour : string;
  now_epoch : Z
}.

(** The codecs of the standard library the lambdas call. *)
Record codecs := {
  b64decode : string → result string;
  b64encode : string → string;
  gzip_decompress : string → result string;
  gzip_compress : string → string;
  json_loads : string → result value;
  json_dumps : value → string;
  (** [str(v)], as an f-string prints a value *)
  str : value → string
}.

(** A Firehose record, in and out. *)
Record record := { recordId : string; data : string }.

Inductive disposition := ResultOk | Dropped | ProcessingFailed.

Record output_record := {
  out_recordId : string;
  out_result : disposition;
  out_data : string
}.

End Py.

(** ** [transform_cloudwatch_lambda.py]: RDS log records *)

Module Cloudwatch.
Import Py.

(** The process state: the [lru_cache] of [get_tags_from_arn], the calls made
    to AWS (oldest first) and what the logger wrote.  No dictionary is
    changed after it is built in this file, so the cache holds the
    dictionaries themselves; [Metrics], where a tag dictionary is updated in
    place, keeps them on a heap. *)
Record state := State {
  tags_cache : lru (string * client) dict;
  calls : list api_call;
  logged : list log_record
}.

Definition initial_state : state := State lru_empty [] [].

Definition set_tags_cache (c : lru (string * client) dict) (s : state) : state :=
  State c (calls s) (logged s).

Definition logger (lv : level) (msg : string) : M state unit :=
  modify (λ s, State (tags_cache s) (calls s) (logged s ++ [(lv, msg)])).

(** A call to AWS: noted, then answered. *)
Definition call {A} (c : api_call) (answer : result A) : M state A :=
  λ s, (answer, State (tags_cache s) (calls s ++ [c]) (logged s)).

Definition environment_suffixes : list (string * string) :=
  [("production", "prod"); ("staging", "stage"); ("development", "dev")].

(** What [initialise] hands to the record loop. *)
Record config := Config {
  region : string;
  bucket : string;
  account_id : string;
  rds_prefix : string;
  s3_client : client;
  rds_client : client
}.

Section lambda.
Variable W : aws.
Variable C : codecs.
(** [os.environ] *)
Variable environ : gmap string string.

(** [make_prefixes()] *)
Definition make_prefixes : result string :=
  match environ !! "ENVIRONMENT" with
  | None => Raise (Exn RuntimeError "ENVIRONMENT is required")
  | Some environment =>
      if decide (environment = "") then
        Raise (Exn RuntimeError "ENVIRONMENT is required")
      else
        match list_find (λ kv, kv.1 = environment) environment_suffixes with
        | None => Raise (Exn RuntimeError ("Invalid ENVIRONMENT: " +:+ environment))
        | Some (_, (_, suffix)) => Ok ("cg-aws-broker-" +:+ suffix)
        end
  end.

(** The body of [get_tags_from_arn], under its [lru_cache].  [tags] is
    still [{}] when the [except] branch is reached. *)
Definition get_tags_from_arn_body (arn : string) (client : client) : M state dict :=
  if str_in ":db:" arn then
    except_Exception
      (response ← call (ListTagsForResource client arn)
                       (list_tags_for_resource W client arn);
       let tags := dict_of_tags (default [] (TagList response)) in
       if dict_mem "Organization GUID" tags then mret tags
       else
         logger WARNING ("Organization GUID tag missing for ARN: " +:+ arn);;
         mret [])
      (λ e,
         logger ERROR ("Could not fetch tags for ARN " +:+ arn +:+ ": " +:+ exn_msg e);;
         mret [])
  else mret [].

(** [@lru_cache(maxsize=256) def get_tags_from_arn(arn, client)] *)
Definition get_tags_from_arn (arn : string) (client : client) : M state dict :=
  lru_cache 256 tags_cache set_tags_cache (arn, client)
    (get_tags_from_arn_body arn client).

(** [get_resource_tags_from_log(resource_name, client, region, account_id, rds_prefix)] *)
Definition get_resource_tags_from_log
    (resource_name : string) (client : client)
    (region account_id rds_prefix : string) : M state dict :=
  except_Exception
    (if startswith resource_name rds_prefix then
       let arn := "arn:aws-us-gov:rds:" +:+ region +:+ ":" +:+ account_id
                  +:+ ":db:" +:+ resource_name in
       get_tags_from_arn arn client
     else mret [])
    (λ e,
       logger ERROR ("Error getting tags for resource " +:+ resource_name
                     +:+ ": " +:+ exn_msg e);;
       mret []).

(** [process_logs(logs, client, region, account_id, rds_prefix)]: [None]
    or the list of enriched entries. *)
Definition process_logs (logs : value) (client : client)
    (region account_id rds_prefix : string) : M state (option (list value)) :=
  except_Exception
    (logGroup ← lift (subscript logs "logGroup");
     parts ← lift (method_split logGroup);
     resource_name ← lift (index parts 4);
     tags ← get_resource_tags_from_log resource_name client region account_id rds_prefix;
     if dict_nonempty tags then
       logEvents ← lift (subscript logs "logEvents");
       events ← lift (iterate logEvents);
       return_logs ← mapM (λ event,
           lg ← lift (subscript logs "logGroup");
           ls ← lift (subscript logs "logStream");
           message ← lift (subscript event "message");
           timestamp ← lift (subscript event "timestamp");
           mret (VDict [("logGroup", lg); ("logStream", ls);
                        ("message", message); ("timestamp", timestamp);
                        ("Tags", VDict tags)])) events;
       mret (Some return_logs)
     else mret None)
    (λ e, logger ERROR ("Could not process logs: " +:+ exn_msg e);; mret None).

(** The first [try] of [lambda_handler]: configuration and clients. *)
Definition initialise : M state config :=
  let region :=
    match session_region W with
    | Some r => if decide (r = "") then environ !! "AWS_REGION" else Some r
    | None => environ !! "AWS_REGION"
    end in
  let truthy (o : option string) : option string :=
    match o with
    | Some x => if decide (x = "") then None else Some x
    | None => None
    end in
  match truthy region with
  | None =>
      raise (Exn ValueError "AWS_REGION environment variable or session region is required")
  | Some region =>
      match truthy (environ !! "S3_BUCKET_NAME") with
      | None =>
          logger ERROR "S3_BUCKET_NAME environment variable not set.";;
          raise (Exn ValueError "S3_BUCKET_NAME environment variable must be set.")
      | Some bucket =>
          match truthy (environ !! "ACCOUNT_ID") with
          | None => raise (Exn ValueError "ACCOUNT_ID environment variable is required")
          | Some account_id =>
              rds_prefix ← lift make_prefixes;
              s3_client ← lift (boto3_client W "s3" (Some region));
              rds_client ← lift (boto3_client W "rds" (Some region));
              mret (Config region bucket account_id rds_prefix s3_client rds_client)
          end
      end
  end.

(** One line of a record: the inner [try] of the line loop.  Only
    [json.JSONDecodeError] is handled here; [line] is a [bytes] object, and
    the f-string of the log record prints its [repr]. *)
Definition process_line (cfg : config) (processed_logs : list value) (line : string)
    : M state (list value) :=
  try_except
    (logs ← lift (json_loads C line);
     log_results ← process_logs logs (rds_client cfg) (region cfg)
                                (account_id cfg) (rds_prefix cfg);
     match log_results with
     | Some (x :: l) => mret (processed_logs ++ x :: l)
     | _ => mret processed_logs
     end)
    (λ e,
       if is_class JSONDecodeError e then
         Some (logger ERROR ("Error decoding JSON: " +:+ exn_msg e
                             +:+ ". Line: " +:+ bytes_repr line);;
               mret processed_logs)
       else None).

(** One record: the body of the record loop, on the pair
    [(output_records, s3_output)]. *)
Definition process_record (cfg : config)
    (acc : list output_record * list value) (record : record)
    : M state (list output_record * list value) :=
  let '(output_records, s3_output) := acc in
  except_Exception
    (compressed_data ← lift (b64decode C (data record));
     pre_json_value ← lift (gzip_decompress C compressed_data);
     processed_logs ← foldM (process_line cfg) [] (splitlines (strip pre_json_value));
     match processed_logs with
     | _ :: _ =>
         mret (output_records ++
                 [{| out_recordId := recordId record; out_result := ResultOk;
                     out_data := b64encode C "" |}],
               s3_output ++ processed_logs)
     | [] =>
         mret (output_records ++
                 [{| out_recordId := recordId record; out_result := Dropped;
                     out_data := data record |}],
               s3_output)
     end)
    (λ e,
       logger ERROR ("Error processing record " +:+ recordId record
                     +:+ ": " +:+ exn_msg e);;
       mret (output_records ++
               [{| out_recordId := recordId record; out_result := ProcessingFailed;
                   out_data := data record |}],
             s3_output)).

(** The write of the collected logs to S3, after the record loop. *)
Definition push_to_s3 (cfg : config) (s3_output : list value) : M state unit :=
  match s3_output with
  | [] => mret tt
  | _ :: _ =>
      except_Exception
        (let compressed_data :=
           gzip_compress C
             (String.concat "" (map (λ log, json_dumps C log +:+ LF) s3_output)) in
         let s3_key := now_hour W +:+ "/batch-" +:+ pretty (now_epoch W)
                       +:+ ".json.gz" in
         call (PutObject (s3_client cfg)
                 {| Bucket := bucket cfg; Key := s3_key; Body := compressed_data;
                    ContentType := "application/gzip"; ContentEncoding := "gzip";
                    ServerSideEncryption := "AES256" |})
              (put_object W (s3_client cfg)
                 {| Bucket := bucket cfg; Key := s3_key; Body := compressed_data;
                    ContentType := "application/gzip"; ContentEncoding := "gzip";
                    ServerSideEncryption := "AES256" |});;
         logger INFO ("Successfully pushed " +:+ pretty (length s3_output)
                      +:+ " logs to S3: " +:+ s3_key))
        (λ e,
           logger ERROR ("Unexpected error pushing to S3: " +:+ exn_msg e);;
           raise e)
  end.

(** [lambda_handler(event, context)], on [event["records"]]; the answer is
    the list under ["records"]. *)
Definition lambda_handler (event : list record) : M state (list output_record) :=
  cfg ← try_except (cfg ← initialise; mret (Some cfg))
          (λ e,
             if is_ValueError e then
               Some (logger ERROR ("Configuration error: " +:+ exn_msg e);; mret None)
             else
               Some (logger ERROR ("Initialization error: " +:+ exn_msg e);; mret None));
  match cfg with
  | None => mret []
  | Some cfg =>
      '(output_records, s3_output) ← foldM (process_record cfg) ([], []) event;
      push_to_s3 cfg s3_output;;
      mret output_records
  end.
End lambda.

End Cloudwatch.

(** ** [transform_lambda.py]: metric records *)

Module Metrics.
Import Py.

(** Tag dictionaries are objects: the caches hold references to them, and
    [dict.update] changes the object a reference points to.  The heap maps
    an address to the dictionary that lives there. *)
Definition loc := nat.

Record state := State {
  heap : list dict;
  (** [lru_cache] of [get_tags_from_arn], keyed by [(arn, client)] *)
  arn_cache : lru (string * client) loc;
  (** [lru_cache] of [get_tags_from_name], keyed by [(name, type, client)] *)
  name_cache : lru (string * string * client) loc;
  (** [lru_cache] of [get_rds_description], keyed by [(rds_client, db_name)] *)
  rds_cache : lru (client * string) value;
  calls : list api_call;
  logged : list log_record
}.

Definition initial_state : state := State [] lru_empty lru_empty lru_empty [] [].

Definition set_arn_cache (c : lru (string * client) loc) (s : state) : state :=
  State (heap s) c (name_cache s) (rds_cache s) (calls s) (logged s).
Definition set_name_cache (c : lru (string * string * client) loc) (s : state) : state :=
  State (heap s) (arn_cache s) c (rds_cache s) (calls s) (logged s).
Definition set_rds_cache (c : lru (client * string) value) (s : state) : state :=
  State (heap s) (arn_cache s) (name_cache s) c (calls s) (logged s).
Definition set_heap (h : list dict) (s : state) : state :=
  State h (arn_cache s) (name_cache s) (rds_cache s) (calls s) (logged s).

Definition logger (lv : level) (msg : string) : M state unit :=
  modify (λ s, State (heap s) (arn_cache s) (name_cache s) (rds_cache s)
                     (calls s) (logged s ++ [(lv, msg)])).

Definition call {A} (c : api_call) (answer : result A) : M state A :=
  λ s, (answer, State (heap s) (arn_cache s) (name_cache s) (rds_cache s)
                      (calls s ++ [c]) (logged s)).

(** A new dictionary object: [{}], a comprehension, [d.copy()] *)
Definition alloc (d : dict) : M state loc :=
  λ s, (Ok (length (heap s)), set_heap (heap s ++ [d]) s).

(** The dictionary a reference points to *)
Definition deref (l : loc) : M state dict :=
  gets (λ s, default [] (heap s !! l)).

(** [d.copy()] *)
Definition copy (l : loc) : M state loc := d ← deref l; alloc d.

(** [d.update({k: v})], in place *)
Definition update (l : loc) (k : string) (v : value) : M state unit :=
  modify (λ s, set_heap (alter (dict_set k v) l (heap s)) s).

Definition default_keys_to_remove : list string :=
  ["metric_stream_name"; "account_id"; "region"].
Definition EXPECTED_NAMESPACES : list string := ["AWS/S3"; "AWS/ES"; "AWS/RDS"].

(** [v.pop(k, None)], the popped value dropped *)
Definition method_pop (v : value) (k : string) : result value :=
  match v with
  | VDict d => Ok (VDict (dict_pop k d))
  | VList _ => Raise (Exn TypeError "pop expected at most 1 argument, got 2")
  | _ => Raise (no_attribute v "pop")
  end.

(** [v[k] = x] *)
Definition setitem (v : value) (k : string) (x : value) : result value :=
  match v with
  | VDict d => Ok (VDict (dict_set k x d))
  | VList _ => Raise (Exn TypeError "list indices must be integers or slices, not str")
  | _ => Raise (unsupported v "does not support item assignment")
  end.

(** [f"{o}"] for a value of [os.environ.get] *)
Definition fmt (o : option string) : string := default "None" o.

Section lambda.
Variable W : aws.
Variable C : codecs.
Variable environ : gmap string string.

(** [make_prefixes()]: [(rds_prefix, s3_prefix, domain_prefix)].  The
    [RuntimeError] of the first test is built and thrown away. *)
Definition make_prefixes : result (string * string * string) :=
  let environment := environ !! "ENVIRONMENT" in
  let env_is (name : string) := bool_decide (environment = Some name) in
  let s3_prefix :=
    if env_is "development" || env_is "staging" then fmt environment +:+ "-cg-" else "cg-" in
  let domain_prefix := "cg-broker-" in
  let domain_prefix := if env_is "production" then domain_prefix +:+ "prd-" else domain_prefix in
  let domain_prefix := if env_is "staging" then domain_prefix +:+ "stg-" else domain_prefix in
  let domain_prefix := if env_is "development" then domain_prefix +:+ "dev-" else domain_prefix in
  let rds_prefix := "cg-aws-broker-" in
  let rds_prefix := if env_is "production" then rds_prefix +:+ "prod" else rds_prefix in
  let rds_prefix := if env_is "staging" then rds_prefix +:+ "stage" else rds_prefix in
  let rds_prefix := if env_is "development" then rds_prefix +:+ "dev" else rds_prefix in
  Ok (rds_prefix, s3_prefix, domain_prefix).

(** [@lru_cache(maxsize=256) def get_rds_description(rds_client, db_name)]:
    the [except] branch falls off the end of the function, which is
    [return None]. *)
Definition get_rds_description_body (rds_client : client) (db_name : string)
    : M state value :=
  except_Exception
    (size ← call (DescribeDBInstances rds_client db_name)
                 (describe_db_instances W rds_client db_name);
     instances ← lift (match DBInstances size with
                       | Some l => Ok l
                       | None => Raise (key_error "DBInstances")
                       end);
     instance ← lift (index instances 0);
     match AllocatedStorage instance with
     | Some n => mret (VInt n)
     | None => raise (key_error "AllocatedStorage")
     end)
    (λ e,
       logger ERROR ("Error with getting rds_description: " +:+ exn_msg e);;
       mret VNone).

Definition get_rds_description (rds_client : client) (db_name : string)
    : M state value :=
  lru_cache 256 rds_cache set_rds_cache (rds_client, db_name)
    (get_rds_description_body rds_client db_name).

(** [@lru_cache(maxsize=256) def get_tags_from_name(name, type, client)].
    When the body of the [try] raises, Python evaluates the expression of
    the [except] clause, [client.exceptions.NoSuchTagSet], to match the
    exception against it.  That lookup raises an [AttributeError], which
    leaves the function in place of the first exception: no exception is
    matched and the [logger.error] of the handler is never reached. *)
Definition get_tags_from_name_body (name type : string) (client : client)
    : M state loc :=
  if decide (type = "S3") then
    try_except
      (response ← call (GetBucketTagging client name)
                       (get_bucket_tagging W client name);
       alloc (dict_of_tags (default [] (TagSet response))))
      (λ e, Some (raise (Exn AttributeError (exceptions_NoSuchTagSet W client))))
  else alloc [].

Definition get_tags_from_name (name type : string) (client : client) : M state loc :=
  lru_cache 256 name_cache set_name_cache (name, type, client)
    (get_tags_from_name_body name type client).

(** [@lru_cache(maxsize=256) def get_tags_from_arn(arn, client)]: the
    dictionary it answers is a new object, which the cache then holds. *)
Definition get_tags_from_arn_body (arn : string) (client : client) : M state loc :=
  tags ← (if str_in ":domain/" arn then
            except_Exception
              (response ← call (ListTags client arn) (list_tags W client arn);
               mret (dict_of_tags (default [] (TagList response))))
              (λ e, logger ERROR ("Could not fetch tags: " +:+ exn_msg e);; mret [])
          else mret []);
  tags ← (if str_in ":db:" arn then
            except_Exception
              (response ← call (ListTagsForResource client arn)
                               (list_tags_for_resource W client arn);
               let tags := dict_of_tags (default [] (TagList response)) in
               if dict_mem "Organization GUID" tags then mret tags
               else mret [])
              (λ e, logger ERROR ("Could not fetch tags: " +:+ exn_msg e);; mret tags)
          else mret tags);
  alloc tags.

Definition get_tags_from_arn (arn : string) (client : client) : M state loc :=
  lru_cache 256 arn_cache set_arn_cache (arn, client)
    (get_tags_from_arn_body arn client).

(** [get_resource_tags_from_metric(metric, ...)]: a reference to the tag
    dictionary.  [tags] is still the first [{}] when the [except] branch is
    reached. *)
Definition get_resource_tags_from_metric (metric : value) (region : option string)
    (s3_client : client) (s3_prefix : string)
    (es_client : client) (domain_prefix : string)
    (rds_client : client) (rds_prefix : string)
    (account_id : option string) : M state loc :=
  tags ← alloc [];
  except_Exception
    (namespace ← lift (method_get metric "namespace" VNone);
     dimensions ← lift (method_get metric "dimensions" (VDict []));
     if eq_str namespace "AWS/S3" then
       bucket_name ← lift (method_get dimensions "BucketName" VNone);
       matches ← lift (method_startswith bucket_name s3_prefix);
       match matches, bucket_name with
       | true, VStr bucket_name => get_tags_from_name bucket_name "S3" s3_client
       | _, _ => mret tags
       end
     else if eq_str namespace "AWS/ES" then
       domain_name ← lift (method_get dimensions "DomainName" VNone);
       matches ← lift (method_startswith domain_name domain_prefix);
       match matches, domain_name with
       | true, VStr domain_name =>
           let arn := "arn:aws-us-gov:es:" +:+ fmt region +:+ ":" +:+ fmt account_id
                      +:+ ":domain/" +:+ domain_name in
           get_tags_from_arn arn es_client
       | _, _ => mret tags
       end
     else if eq_str namespace "AWS/RDS" then
       db_name ← lift (method_get dimensions "DBInstanceIdentifier" VNone);
       match db_name with
       | VNone => mret tags
       | _ =>
           matches ← lift (method_startswith db_name rds_prefix);
           match matches, db_name with
           | true, VStr db_name =>
               let arn := "arn:aws-us-gov:rds:" +:+ fmt region +:+ ":" +:+ fmt account_id
                          +:+ ":db:" +:+ db_name in
               cached ← get_tags_from_arn arn rds_client;
               result_tags ← copy cached;
               d ← deref result_tags;
               metric_name ← lift (method_get metric "metric_name" VNone);
               if dict_nonempty d && eq_str metric_name "FreeStorageSpace" then
                 size ← get_rds_description rds_client db_name;
                 update result_tags "db_size" size;;
                 mret result_tags
               else mret result_tags
           | _, _ => mret tags
           end
       end
     else mret tags)
    (λ e,
       logger ERROR ("Error with getting tags for resource: " +:+ exn_msg e);;
       mret tags).

(** [process_metric(metric, ...)]: [None], or the metric with its ["Tags"]. *)
Definition process_metric (metric : value) (region : option string)
    (s3_client : client) (s3_prefix : string)
    (es_client : client) (domain_prefix : string)
    (rds_client : client) (rds_prefix : string)
    (account_id : option string) : M state (option value) :=
  except_Exception
    (namespace ← lift (method_get metric "namespace" VNone);
     if negb (existsb (eq_str namespace) EXPECTED_NAMESPACES) then
       logger ERROR ("Hello developer, you need to add the following metric to the lambda function: "
                     +:+ str C namespace);;
       mret None
     else
       tags ← get_resource_tags_from_metric metric region s3_client s3_prefix
                es_client domain_prefix rds_client rds_prefix account_id;
       d ← deref tags;
       if dict_nonempty d then
         metric ← lift (setitem metric "Tags" (VDict d));
         mret (Some metric)
       else mret None)
    (λ e, logger ERROR ("Could not process metric: " +:+ exn_msg e);; mret None).

(** What the head of [lambda_handler] sets up before its [try]. *)
Record config := Config {
  region : option string;
  rds_prefix : string;
  s3_prefix : string;
  domain_prefix : string;
  account_id : option string;
  s3_client : client;
  es_client : client;
  rds_client : client
}.

Definition initialise : M state config :=
  let region :=
    match session_region W with
    | Some r => if decide (r = "") then environ !! "AWS_REGION" else Some r
    | None => environ !! "AWS_REGION"
    end in
  '(rds_prefix, s3_prefix, domain_prefix) ← lift make_prefixes;
  let account_id := environ !! "ACCOUNT_ID" in
  s3_client ← lift (boto3_client W "s3" region);
  es_client ← lift (boto3_client W "es" region);
  rds_client ← lift (boto3_client W "rds" region);
  mret (Config region rds_prefix s3_prefix domain_prefix account_id
               s3_client es_client rds_client).

(** One line of a record: the body of the line loop. *)
Definition process_line (cfg : config) (processed_metrics : list value) (line : string)
    : M state (list value) :=
  metric ← lift (json_loads C line);
  metric ← foldM (λ metric key, lift (method_pop metric key)) metric
             default_keys_to_remove;
  metric_results ← process_metric metric (region cfg) (s3_client cfg) (s3_prefix cfg)
                     (es_client cfg) (domain_prefix cfg)
                     (rds_client cfg) (rds_prefix cfg) (account_id cfg);
  match metric_results with
  | Some metric_results =>
      dimensions ← lift (subscript metric_results "dimensions");
      dimensions ← lift (method_pop dimensions "ClientId");
      metric_results ← lift (setitem metric_results "dimensions" dimensions);
      mret (processed_metrics ++ [metric_results])
  | None => mret processed_metrics
  end.

(** One record: the body of the record loop. *)
Definition process_record (cfg : config) (output_records : list output_record)
    (record : record) : M state (list output_record) :=
  pre_json_value ← lift (b64decode C (data record));
  processed_metrics ← foldM (process_line cfg) [] (splitlines (strip pre_json_value));
  let output_records :=
    match processed_metrics with
    | _ :: _ =>
        let output_data :=
          String.concat LF (map (json_dumps C) processed_metrics) +:+ LF in
        output_records ++
          [{| out_recordId := recordId record; out_result := ResultOk;
              out_data := b64encode C output_data |}]
    | [] =>
        output_records ++
          [{| out_recordId := recordId record; out_result := Dropped;
              out_data := data record |}]
    end in
  logger INFO ("Processed record with " +:+ pretty (length processed_metrics)
               +:+ " metrics");;
  mret output_records.

(** [lambda_handler(event, context)], on [event["records"]]. *)
Definition lambda_handler (event : list record) : M state (list output_record) :=
  cfg ← initialise;
  except_Exception
    (foldM (process_record cfg) [] event)
    (λ e, logger ERROR ("Error processing metrics: " +:+ exn_msg e);; raise e).
End lambda.

End Metrics.

(** ** [add_cloudwatch_subscrition.py]: the subscription provisioner *)

Module Subscription.
Import Py.

Record state := State {
  calls : list api_call;
  logged : list log_record
}.

Definition initial_state : state := State [] [].

Definition logger (lv : level) (msg : string) : M state unit :=
  modify (λ s, State (calls s) (logged s ++ [(lv, msg)])).

Definition call {A} (c : api_call) (answer : result A) : M state A :=
  λ s, (answer, State (calls s ++ [c]) (logged s)).

Definition environment_suffixes : list (string * string) :=
  [("production", "prod"); ("staging", "stage"); ("development", "dev")].

(** [os.environ[k]] *)
Definition environ_item (environ : gmap string string) (k : string) : result string :=
  match environ !! k with
  | Some v => Ok v
  | None => Raise (key_error k)
  end.

(** The three [get]s that reach [logGroupName] in the event *)
Definition log_group_name_of (event : value) : result value :=
  match method_get event "detail" (VDict []) with
  | Raise e => Raise e
  | Ok detail =>
      match method_get detail "requestParameters" (VDict []) with
      | Raise e => Raise e
      | Ok params => method_get params "logGroupName" VNone
      end
  end.

(** Truth value of what [params.get] can answer *)
Definition truthy (v : value) : bool :=
  match v with
  | VNone => false
  | VBool b => b
  | VInt n => negb (n =? 0)%Z
  | VFloat lit => negb (bool_decide (lit = "0.0") || bool_decide (lit = "-0.0"))
  | VStr s => negb (bool_decide (s = ""))
  | VList l => match l with [] => false | _ => true end
  | VDict d => dict_nonempty d
  end.

Section lambda.
Variable W : aws.
Variable C : codecs.
Variable environ : gmap string string.

(** [make_prefixes()] *)
Definition make_prefixes : result string :=
  match environ !! "ENVIRONMENT" with
  | None => Raise (Exn RuntimeError "environment is required")
  | Some environment =>
      if decide (environment = "") then
        Raise (Exn RuntimeError "environment is required")
      else
        match list_find (λ kv, kv.1 = environment) environment_suffixes with
        | None => Raise (Exn RuntimeError ("environment is invalid: " +:+ environment))
        | Some (_, (_, suffix)) => Ok ("cg-aws-broker-" +:+ suffix)
        end
  end.

(** [lambda_handler(event, context)] *)
Definition lambda_handler (event : value) : M state unit :=
  logs ← lift (boto3_client W "logs" None);
  FIREHOSE_ARN ← lift (environ_item environ "FIREHOSE_ARN");
  ROLE_ARN ← lift (environ_item environ "ROLE_ARN");
  rds_prefix ← lift make_prefixes;
  log_group_name ← lift (log_group_name_of event);
  applies ← (if truthy log_group_name then
               lift (method_startswith log_group_name
                       ("/aws/rds/instance/" +:+ rds_prefix))
             else mret false);
  match applies, log_group_name with
  | true, VStr name =>
      let request :=
        {| logGroupName := name; filterName := "firehose_for_opensearch";
           filterPattern := ""; destinationArn := FIREHOSE_ARN;
           roleArn := ROLE_ARN |} in
      try_except
        (call (PutSubscriptionFilter logs request)
              (put_subscription_filter W logs request);;
         logger INFO ("subscription filter made for " +:+ name))
        (λ e,
           if is_class ResourceAlreadyExistsException e then
             Some (logger INFO ("Subscription filter already exists for " +:+ name
                                +:+ ", error: " +:+ exn_msg e);;
                   raise (Exn RuntimeError
                            ("Subscription filter already exists for " +:+ name)))
           else None)
  | _, _ =>
      logger INFO ("log group: " +:+ str C log_group_name +:+ " does not apply")
  end.
End lambda.

End Subscription.



(** ** A development deployment, for concrete runs

    The environment, the answers of AWS and the codecs below agree with the
    deployed lambdas on the inputs the runs use: the tables of the decoders
    hold real Base64, gzip and JSON texts with what the Python library
    decodes them to. *)

Module Scenario.
Import Py.

(** JSON texts are written with ['] for the double quote. *)
Definition dq (s : string) : string :=
  String.string_of_list_ascii
    (map (λ c, if decide (c = "'"%char) then ascii_of_nat 34 else c)
         (String.list_ascii_of_string s)).

Definition bytes (l : list nat) : string :=
  String.string_of_list_ascii (map ascii_of_nat l).

Fixpoint table_get {A} (k : string) (t : list (string * A)) : option A :=
  match t with
  | [] => None
  | (k', v) :: t' => if decide (k = k') then Some v else table_get k t'
  end.

Definition environ : gmap string string :=
  list_to_map [("ENVIRONMENT", "development"); ("AWS_REGION", "us-gov-west-1");
               ("ACCOUNT_ID", "123456"); ("S3_BUCKET_NAME", "test-bucket");
               ("FIREHOSE_ARN", "arn:aws-us-gov:firehose:us-gov-west-1:123456:deliverystream/logs");
               ("ROLE_ARN", "arn:aws-us-gov:iam::123456:role/subscription")].

(** The same deployment with [S3_BUCKET_NAME] left out *)
Definition environ_no_bucket : gmap string string := delete "S3_BUCKET_NAME" environ.

Definition arn_test : string := "arn:aws-us-gov:rds:us-gov-west-1:123456:db:cg-aws-broker-dev-test".
Definition arn_gone : string := "arn:aws-us-gov:rds:us-gov-west-1:123456:db:cg-aws-broker-dev-gone".
Definition arn_untagged : string :=
  "arn:aws-us-gov:rds:us-gov-west-1:123456:db:cg-aws-broker-dev-untagged".
Definition arn_down : string := "arn:aws-us-gov:rds:us-gov-west-1:123456:db:cg-aws-broker-dev-down".

Definition s3 : client := 1.
Definition es : client := 2.
Definition rds : client := 3.
Definition logs : client := 4.

(** Three tagged databases, one of them without the organisation tag and one
    whose description cannot be read; every other tag request is refused.
    The log group of [cg-aws-broker-dev-test] already has its subscription
    filter. *)
Definition aws_dev : aws := {|
  session_region := None;
  boto3_client service region :=
    match table_get service [("s3", s3); ("es", es); ("rds", rds); ("logs", logs)] with
    | Some c => Ok c
    | None => Raise (Exn ClientError "UnknownServiceError")
    end;
  list_tags_for_resource c arn :=
    match table_get arn
            [(arn_test, [("Organization GUID", "x"); ("Owner", "team")]);
             (arn_gone, [("Organization GUID", "y")]);
             (arn_untagged, [("Owner", "team")])] with
    | Some tags => Ok {| TagList := Some tags |}
    | None => Raise (Exn ClientError "AccessDenied")
    end;
  list_tags c arn := Raise (Exn ClientError "AccessDeniedException");
  get_bucket_tagging c name := Raise (Exn ClientError "AccessDenied");
  exceptions_NoSuchTagSet c :=
    "<botocore.errorfactory.S3Exceptions object> object has no attribute NoSuchTagSet";
  describe_db_instances c name :=
    if decide (name = "cg-aws-broker-dev-test") then
      Ok {| DBInstances := Some [{| AllocatedStorage := Some 100%Z |}] |}
    else Raise (Exn ClientError "DBInstanceNotFound");
  put_object c req := Ok tt;
  put_subscription_filter c req :=
    if decide (logGroupName req = "/aws/rds/instance/cg-aws-broker-dev-test") then
      Raise (Exn ResourceAlreadyExistsException "The specified subscription filter already exists")
    else Ok tt;
  now_hour := "2026/11/04/12";
  now_epoch := 1793793600
|}.

(** Lines of the records *)
Definition line_log : string :=
  dq "{'logGroup': '/aws/rds/instance/cg-aws-broker-dev-test/postgresql', 'logStream': 'cg-aws-broker-dev-test.0', 'logEvents': [{'id': '1', 'timestamp': 1759774467000, 'message': 'This is a test'}]}".
Definition line_bad : string := "not json".
Definition line_metric : string :=
  dq "{'metric_stream_name': 's', 'account_id': '123456', 'region': 'us-gov-west-1', 'namespace': 'AWS/RDS', 'metric_name': 'FreeStorageSpace', 'dimensions': {'DBInstanceIdentifier': 'cg-aws-broker-dev-test'}, 'value': {'max': 5, 'min': 5, 'sum': 5, 'count': 1}}".
Definition line_metric_gone : string :=
  dq "{'namespace': 'AWS/RDS', 'metric_name': 'FreeStorageSpace', 'dimensions': {'DBInstanceIdentifier': 'cg-aws-broker-dev-gone'}, 'timestamp': 1759774467000}".

Definition log_event : value :=
  VDict [("logGroup", VStr "/aws/rds/instance/cg-aws-broker-dev-test/postgresql");
         ("logStream", VStr "cg-aws-broker-dev-test.0");
         ("logEvents",
          VList [VDict [("id", VStr "1"); ("timestamp", VInt 1759774467000);
                        ("message", VStr "This is a test")]])].

Definition metric : value :=
  VDict [("metric_stream_name", VStr "s"); ("account_id", VStr "123456");
         ("region", VStr "us-gov-west-1"); ("namespace", VStr "AWS/RDS");
         ("metric_name", VStr "FreeStorageSpace");
         ("dimensions", VDict [("DBInstanceIdentifier", VStr "cg-aws-broker-dev-test")]);
         ("value", VDict [("max", VInt 5); ("min", VInt 5); ("sum", VInt 5);
                          ("count", VInt 1)])].

Definition metric_gone : value :=
  VDict [("namespace", VStr "AWS/RDS"); ("metric_name", VStr "FreeStorageSpace");
         ("dimensions", VDict [("DBInstanceIdentifier", VStr "cg-aws-broker-dev-gone")]);
         ("timestamp", VInt 1759774467000)].

Definition metric_untagged : value :=
  VDict [("namespace", VStr "AWS/RDS"); ("metric_name", VStr "FreeStorageSpace");
         ("dimensions",
          VDict [("DBInstanceIdentifier", VStr "cg-aws-broker-dev-untagged")])].

(** What the two handlers set up from [environ] *)
Definition cloudwatch_cfg : Cloudwatch.config :=
  Cloudwatch.Config "us-gov-west-1" "test-bucket" "123456" "cg-aws-broker-dev" s3 rds.

Definition metrics_cfg : Metrics.config :=
  Metrics.Config (Some "us-gov-west-1") "cg-aws-broker-dev" "development-cg-"
    "cg-broker-dev-" (Some "123456") s3 es rds.

(** gzip members: of [line_bad + LF + line_log + LF] and of [line_bad + LF] *)
Definition gz_bad_then_log : string :=
  bytes [31; 139; 8; 0; 0; 0; 0; 0; 2; 3; 109; 142; 49; 14; 194; 48; 12; 69; 247;
         158; 34; 202; 76; 72; 42; 21; 34; 216; 17; 7; 128; 13; 49; 132; 214; 10;
         129; 54; 41; 177; 41; 67; 213; 187; 19; 75; 140; 72; 158; 254; 127; 255;
         201; 49; 145; 120; 96; 138; 213; 44; 251; 228; 143; 57; 189; 71; 185; 23;
         82; 187; 15; 234; 220; 161; 14; 17; 201; 197; 22; 116; 235; 85; 201; 212;
         45; 167; 39; 100; 213; 193; 164; 8; 144; 244; 152; 144; 124; 6; 124; 245;
         114; 37; 88; 113; 162; 12; 110; 96; 199; 255; 197; 218; 252; 192; 195; 4;
         145; 176; 128; 151; 89; 134; 142; 7; 53; 55; 20; 134; 66; 185; 129; 223;
         168; 237; 102; 103; 109; 211; 108; 173; 49; 166; 116; 165; 65; 231; 129;
         217; 243; 61; 160; 40; 231; 4; 75; 229; 114; 93; 170; 47; 123; 32; 21; 74;
         203; 0; 0; 0].
Definition gz_bad : string :=
  bytes [31; 139; 8; 0; 0; 0; 0; 0; 2; 3; 203; 203; 47; 81; 200; 42; 206; 207; 227;
         2; 0; 53; 78; 192; 150; 9; 0; 0; 0].

(** Firehose records: log records are Base64 of gzip, metric records Base64
    of the text. *)
Definition record_bad_then_log : record := {|
  recordId := "log-1";
  data := "H4sIAAAAAAACA22OMQ7CMAxF954iykxIKhUi2BEHgA0xhNYKgTYpsSlD1bsTS4xInv5//8kxkXhgitUs++SPOb1HuRdSuw/q3KEOEcnFFnTrVcnULacnZNXBpAiQ9JiQfAZ89XIlWHGiDG5gx//F2vzAwwSRsICXWYaOBzU3FIZCuYHfqO1mZ23TbK0xpnSlQeeB2fM9oCjnBEvlcl2qL3sgFUrLAAAA"
|}.
Definition record_bad : record := {|
  recordId := "log-2";
  data := "H4sIAAAAAAACA8vLL1HIKs7P4wIANU7AlgkAAAA="
|}.
Definition record_metric : record := {|
  recordId := "metric-1";
  data := "eyJtZXRyaWNfc3RyZWFtX25hbWUiOiAicyIsICJhY2NvdW50X2lkIjogIjEyMzQ1NiIsICJyZWdpb24iOiAidXMtZ292LXdlc3QtMSIsICJuYW1lc3BhY2UiOiAiQVdTL1JEUyIsICJtZXRyaWNfbmFtZSI6ICJGcmVlU3RvcmFnZVNwYWNlIiwgImRpbWVuc2lvbnMiOiB7IkRCSW5zdGFuY2VJZGVudGlmaWVyIjogImNnLWF3cy1icm9rZXItZGV2LXRlc3QifSwgInZhbHVlIjogeyJtYXgiOiA1LCAibWluIjogNSwgInN1bSI6IDUsICJjb3VudCI6IDF9fQo="
|}.
Definition record_metric_bad : record := {|
  recordId := "metric-2";
  data := "bm90IGpzb24K"
|}.
Definition record_metric_gone : record := {|
  recordId := "metric-3";
  data := "eyJuYW1lc3BhY2UiOiAiQVdTL1JEUyIsICJtZXRyaWNfbmFtZSI6ICJGcmVlU3RvcmFnZVNwYWNlIiwgImRpbWVuc2lvbnMiOiB7IkRCSW5zdGFuY2VJZGVudGlmaWVyIjogImNnLWF3cy1icm9rZXItZGV2LWdvbmUifSwgInRpbWVzdGFtcCI6IDE3NTk3NzQ0NjcwMDB9Cg=="
|}.

(** [json.dumps] on the values of the runs (no character needs an escape) *)
Fixpoint dumps (v : value) : string :=
  match v with
  | VNone => "null"
  | VBool b => if b then "true" else "false"
  | VInt n => pretty n
  | VFloat lit => lit
  | VStr s => dq "'" +:+ s +:+ dq "'"
  | VList l => "[" +:+ String.concat ", " (map dumps l) +:+ "]"
  | VDict d =>
      "{" +:+ String.concat ", "
                (map (λ kv, dq "'" +:+ kv.1 +:+ dq "': " +:+ dumps kv.2) d) +:+ "}"
  end.

(** The decoders are tables; the encoders of binary data are stand-ins,
    their output only travels on to AWS. *)
Definition codecs_dev : codecs := {|
  b64decode x :=
    match table_get x
            [(data record_bad_then_log, gz_bad_then_log);
             (data record_bad, gz_bad);
             (data record_metric, line_metric +:+ LF);
             (data record_metric_bad, line_bad +:+ LF);
             (data record_metric_gone, line_metric_gone +:+ LF)] with
    | Some y => Ok y
    | None => Raise (Exn BinasciiError "Incorrect padding")
    end;
  b64encode x := if decide (x = "") then "" else "base64:" +:+ x;
  gzip_decompress x :=
    match table_get x
            [(gz_bad_then_log, line_bad +:+ LF +:+ line_log +:+ LF);
             (gz_bad, line_bad +:+ LF)] with
    | Some y => Ok y
    | None => Raise (Exn OSError "Not a gzipped file")
    end;
  gzip_compress x := "gzip:" +:+ x;
  json_loads x :=
    match table_get x
            [(line_log, log_event); (line_metric, metric);
             (line_metric_gone, metric_gone)] with
    | Some v => Ok v
    | None => Raise (Exn JSONDecodeError "Expecting value: line 1 column 1 (char 0)")
    end;
  json_dumps := dumps;
  str v := match v with VStr s => s | VNone => "None" | _ => dumps v end
|}.

End Scenario.
(** * Properties *)

Import Py.

(** Unfolds the monad down to state passing. *)
Ltac unmonad :=
  unfold except_Exception, try_except, mbind, M_bind, mret, M_ret,
         raise, lift, gets, modify in *.

(** ** Vocabulary of the properties *)

Definition ids_in (event : list record) : list string := map recordId event.
Definition ids_out (out : list output_record) : list string := map out_recordId out.

(** Output and input records go in pairs, in order, with the same
    identifier. *)
Definition corresponds (out : list output_record) (event : list record) : Prop :=
  Forall2 (λ o r, out_recordId o = recordId r) out event.

(** What a miss of [Cloudwatch.get_tags_from_arn] answers and stores, and the
    requests it sends. *)
Definition cloudwatch_fetched (W : aws) (arn : string) (c : client) : dict :=
  if str_in ":db:" arn then
    match list_tags_for_resource W c arn with
    | Ok response =>
        let tags := dict_of_tags (default [] (TagList response)) in
        if dict_mem "Organization GUID" tags then tags else []
    | Raise _ => []
    end
  else [].

Definition cloudwatch_fetch_calls (arn : string) (c : client) : list api_call :=
  if str_in ":db:" arn then [ListTagsForResource c arn] else [].

(** The same for [Metrics.get_tags_from_arn]. *)
Definition metrics_fetched (W : aws) (arn : string) (c : client) : dict :=
  let tags :=
    if str_in ":domain/" arn then
      match list_tags W c arn with
      | Ok response => dict_of_tags (default [] (TagList response))
      | Raise _ => []
      end
    else [] in
  if str_in ":db:" arn then
    match list_tags_for_resource W c arn with
    | Ok response =>
        let tags := dict_of_tags (default [] (TagList response)) in
        if dict_mem "Organization GUID" tags then tags else []
    | Raise _ => tags
    end
  else tags.

Definition metrics_fetch_calls (arn : string) (c : client) : list api_call :=
  (if str_in ":domain/" arn then [ListTags c arn] else []) ++
  (if str_in ":db:" arn then [ListTagsForResource c arn] else []).

(** A line that [json.loads] rejects as not being JSON *)
Definition malformed (C : codecs) (line : string) : Prop :=
  ∃ e, json_loads C line = Raise e ∧ exn_cls e = JSONDecodeError.

(** What a miss of [Metrics.get_rds_description] answers and stores *)
Definition described (W : aws) (c : client) (db_name : string) : value :=
  match describe_db_instances W c db_name with
  | Ok size =>
      match DBInstances size with
      | Some instances =>
          match instances !! 0 with
          | Some instance =>
              match AllocatedStorage instance with
              | Some n => VInt n
              | None => VNone
              end
          | None => VNone
          end
      | None => VNone
      end
  | Raise _ => VNone
  end.

(** The metric once [lambda_handler] has popped [default_keys_to_remove] *)
Definition without_stream_keys (m : dict) : dict :=
  foldl (λ d k, dict_pop k d) m Metrics.default_keys_to_remove.

(** The locator of a database *)
Definition rds_arn (region account_id : option string) (db_name : string) : string :=
  "arn:aws-us-gov:rds:" +:+ Metrics.fmt region +:+ ":" +:+ Metrics.fmt account_id
  +:+ ":db:" +:+ db_name.

(** The locator of a search domain *)
Definition es_arn (region account_id : option string) (domain_name : string) : string :=
  "arn:aws-us-gov:es:" +:+ Metrics.fmt region +:+ ":" +:+ Metrics.fmt account_id
  +:+ ":domain/" +:+ domain_name.

(** The tag requests for a locator are refused. *)
Definition tag_fetch_fails (W : aws) (c : client) (arn : string) : Prop :=
  (∃ e, list_tags W c arn = Raise e) ∧
  (∃ e, list_tags_for_resource W c arn = Raise e).

(** The arguments of one call of [Metrics.get_resource_tags_from_metric] *)
Record lookup := Lookup {
  lk_metric : value;
  lk_region : option string;
  lk_s3_client : client;
  lk_s3_prefix : string;
  lk_es_client : client;
  lk_domain_prefix : string;
  lk_rds_client : client;
  lk_rds_prefix : string;
  lk_account_id : option string
}.

Definition run_lookup (W : aws) (a : lookup) : M Metrics.state Metrics.loc :=
  Metrics.get_resource_tags_from_metric W (lk_metric a) (lk_region a)
    (lk_s3_client a) (lk_s3_prefix a) (lk_es_client a) (lk_domain_prefix a)
    (lk_rds_client a) (lk_rds_prefix a) (lk_account_id a).

(** Every entry of the cache of [Metrics.get_tags_from_arn] refers to an
    object that holds what the lookup stored for its locator. *)
Definition cache_holds_fetched (W : aws) (s : Metrics.state) : Prop :=
  ∀ arn c l,
    cache_get (arn, c) (entries (Metrics.arn_cache s)) = Some l →
    Metrics.heap s !! l = Some (metrics_fetched W arn c).

(** A computation that only adds objects to the heap and keeps the cache
    entries in agreement with it. *)
Definition keeps (W : aws) {A} (m : M Metrics.state A) : Prop :=
  ∀ s r s',
    m s = (r, s') →
    Metrics.heap s `prefix_of` Metrics.heap s' ∧
    (cache_holds_fetched W s → cache_holds_fetched W s').

(** An [os.environ] whose [ENVIRONMENT] names one of the three deployments *)
Definition known_environment (environ : gmap string string) : Prop :=
  environ !! "ENVIRONMENT" = Some "production" ∨
  environ !! "ENVIRONMENT" = Some "staging" ∨
  environ !! "ENVIRONMENT" = Some "development".

(** The entry that [process_logs] builds for one event of a log line *)
Definition enriched (logGroup logStream : value) (tags : dict) (event entry : value) : Prop :=
  ∃ message timestamp,
    subscript event "message" = Ok message ∧
    subscript event "timestamp" = Ok timestamp ∧
    entry = VDict [("logGroup", logGroup); ("logStream", logStream);
                   ("message", message); ("timestamp", timestamp);
                   ("Tags", VDict tags)].

(** The locator that [get_resource_tags_from_log] builds *)
Definition log_arn (region account_id resource_name : string) : string :=
  "arn:aws-us-gov:rds:" +:+ region +:+ ":" +:+ account_id +:+ ":db:" +:+ resource_name.

(** A computation all of whose runs relate the state before to the state
    after, whether it returns or raises *)
Definition follows {S A} (R : relation S) (m : M S A) : Prop :=
  ∀ s r s', m s = (r, s') → R s s'.

(** Between two states of the log lambda, every request sent to AWS
    satisfies [P]. *)
Definition cloudwatch_sends (P : api_call → Prop) (s s' : Cloudwatch.state) : Prop :=
  ∃ cs, Cloudwatch.calls s' = Cloudwatch.calls s ++ cs ∧ Forall P cs.

(** A tag request for a database whose name starts with the prefix of the
    deployment *)
Definition cloudwatch_scope (c : client) (region account_id rds_prefix : string)
    (call : api_call) : Prop :=
  ∃ name,
    call = ListTagsForResource c (log_arn region account_id name) ∧
    startswith name rds_prefix = true.

(** What the log handler answers for one record: the identifier of the
    record, and either an empty payload (the logs went to S3) or the payload
    it came with. *)
Definition cloudwatch_answer (C : codecs) (o : output_record) (r : record) : Prop :=
  out_recordId o = recordId r ∧
  out_data o = match out_result o with
               | ResultOk => b64encode C ""
               | Dropped | ProcessingFailed => data r
               end.

Definition answered_ok (o : output_record) : bool :=
  match out_result o with ResultOk => true | _ => false end.

(** The request that [push_to_s3] sends *)
Definition s3_request (W : aws) (cfg : Cloudwatch.config) (body : string)
    : put_object_request :=
  {| Bucket := Cloudwatch.bucket cfg;
     Key := now_hour W +:+ "/batch-" +:+ pretty (now_epoch W) +:+ ".json.gz";
     Body := body;
     ContentType := "application/gzip"; ContentEncoding := "gzip";
     ServerSideEncryption := "AES256" |}.

(** [not x] for a value of [os.environ.get] *)
Definition unset (o : option string) : Prop := o = None ∨ o = Some "".

(** A line that [json.loads] refuses with something else than a
    [JSONDecodeError] (bytes that are not UTF-8, say) *)
Definition refused (C : codecs) (line : string) : Prop :=
  ∃ e, json_loads C line = Raise e ∧ exn_cls e ≠ JSONDecodeError.

(** A record of the log lambda that cannot be read: its data is not Base64,
    or not gzip, or one of its lines is refused. *)
Definition undecodable (C : codecs) (r : record) : Prop :=
  match b64decode C (data r) with
  | Raise _ => True
  | Ok compressed_data =>
      match gzip_decompress C compressed_data with
      | Raise _ => True
      | Ok pre_json_value => Exists (refused C) (splitlines (strip pre_json_value))
      end
  end.

(** Between two states of the metric lambda, every request sent to AWS
    satisfies [P]. *)
Definition metrics_sends (P : api_call → Prop) (s s' : Metrics.state) : Prop :=
  ∃ cs, Metrics.calls s' = Metrics.calls s ++ cs ∧ Forall P cs.

(** The requests the metric lambda may send under a configuration: reads of
    tags and of database descriptions, each with the client of its service
    and for a resource whose name starts with the prefix of the deployment. *)
Definition metrics_scope (cfg : Metrics.config) (call : api_call) : Prop :=
  match call with
  | GetBucketTagging c name =>
      c = Metrics.s3_client cfg ∧ startswith name (Metrics.s3_prefix cfg) = true
  | ListTags c arn | ListTagsForResource c arn =>
      (∃ name,
         c = Metrics.es_client cfg ∧
         arn = es_arn (Metrics.region cfg) (Metrics.account_id cfg) name ∧
         startswith name (Metrics.domain_prefix cfg) = true) ∨
      (∃ name,
         c = Metrics.rds_client cfg ∧
         arn = rds_arn (Metrics.region cfg) (Metrics.account_id cfg) name ∧
         startswith name (Metrics.rds_prefix cfg) = true)
  | DescribeDBInstances c name =>
      c = Metrics.rds_client cfg ∧ startswith name (Metrics.rds_prefix cfg) = true
  | PutObject _ _ | PutSubscriptionFilter _ _ => False
  end.




(** The development deployment once AWS answers every tag request *)
Definition aws_recovered : aws := {|
  session_region := session_region Scenario.aws_dev;
  boto3_client := boto3_client Scenario.aws_dev;
  list_tags_for_resource c arn :=
    Ok {| TagList := Some [("Organization GUID", "z")] |};
  list_tags c arn := Ok {| TagList := Some [("Organization GUID", "z")] |};
  get_bucket_tagging c name := Ok {| TagSet := Some [("Organization GUID", "z")] |};
  exceptions_NoSuchTagSet := exceptions_NoSuchTagSet Scenario.aws_dev;
  describe_db_instances := describe_db_instances Scenario.aws_dev;
  put_object := put_object Scenario.aws_dev;
  put_subscription_filter := put_subscription_filter Scenario.aws_dev;
  now_hour := now_hour Scenario.aws_dev;
  now_epoch := now_epoch Scenario.aws_dev
|}.

(** The development deployment with buckets that have no tag set *)
Definition aws_untagged_buckets : aws := {|
  session_region := session_region Scenario.aws_dev;
  boto3_client := boto3_client Scenario.aws_dev;
  list_tags_for_resource := list_tags_for_resource Scenario.aws_dev;
  list_tags := list_tags Scenario.aws_dev;
  get_bucket_tagging c name :=
    Raise (Exn ClientError
             "An error occurred (NoSuchTagSet) when calling the GetBucketTagging operation: The TagSet does not exist");
  exceptions_NoSuchTagSet := exceptions_NoSuchTagSet Scenario.aws_dev;
  describe_db_instances := describe_db_instances Scenario.aws_dev;
  put_object := put_object Scenario.aws_dev;
  put_subscription_filter := put_subscription_filter Scenario.aws_dev;
  now_hour := now_hour Scenario.aws_dev;
  now_epoch := now_epoch Scenario.aws_dev
|}.

(** The value that the last tag with key [k] gives to it *)
Fixpoint tag_value (k : string) (tag_list : list (string * string)) : option string :=
  match tag_list with
  | [] => None
  | (k', v) :: rest =>
      match tag_value k rest with
      | Some x => Some x
      | None => if decide (k = k') then Some v else None
      end
  end.

(** Text made of ASCII whitespace only *)
Definition blank (s : string) : Prop :=
  Forall (λ c, is_space c = true) (String.list_ascii_of_string s).

(** A log record and a metric record whose payload is a single line feed,
    with the codecs that read them *)
Definition gz_blank : string :=
  Scenario.bytes [31; 139; 8; 0; 0; 0; 0; 0; 2; 3; 227; 2; 0; 147; 6; 215; 50; 1;
                  0; 0; 0].
Definition record_blank_log : record := {|
  recordId := "log-3";
  data := "H4sIAAAAAAACA+MCAJMG1zIBAAAA"
|}.
Definition record_blank_metric : record := {|
  recordId := "metric-4";
  data := "Cg=="
|}.
Definition codecs_blank : codecs := {|
  b64decode x :=
    match Scenario.table_get x
            [(data record_blank_log, gz_blank); (data record_blank_metric, LF)] with
    | Some y => Ok y
    | None => b64decode Scenario.codecs_dev x
    end;
  b64encode := b64encode Scenario.codecs_dev;
  gzip_decompress x :=
    match Scenario.table_get x [(gz_blank, LF)] with
    | Some y => Ok y
    | None => gzip_decompress Scenario.codecs_dev x
    end;
  gzip_compress := gzip_compress Scenario.codecs_dev;
  json_loads := json_loads Scenario.codecs_dev;
  json_dumps := json_dumps Scenario.codecs_dev;
  str := str Scenario.codecs_dev
|}.

(** The development deployment with search domains that carry an owner tag
    and no organisation tag, and a metric of such a domain *)
Definition aws_domains : aws := {|
  session_region := session_region Scenario.aws_dev;
  boto3_client := boto3_client Scenario.aws_dev;
  list_tags_for_resource := list_tags_for_resource Scenario.aws_dev;
  list_tags c arn := Ok {| TagList := Some [("Owner", "team")] |};
  get_bucket_tagging := get_bucket_tagging Scenario.aws_dev;
  exceptions_NoSuchTagSet := exceptions_NoSuchTagSet Scenario.aws_dev;
  describe_db_instances := describe_db_instances Scenario.aws_dev;
  put_object := put_object Scenario.aws_dev;
  put_subscription_filter := put_subscription_filter Scenario.aws_dev;
  now_hour := now_hour Scenario.aws_dev;
  now_epoch := now_epoch Scenario.aws_dev
|}.

Definition metric_domain : dict :=
  [("namespace", VStr "AWS/ES"); ("metric_name", VStr "CPUUtilization");
   ("dimensions", VDict [("DomainName", VStr "cg-broker-dev-search");
                         ("ClientId", VStr "123456")])].

(** A metric of a bucket of the development deployment *)
Definition metric_bucket : dict :=
  [("namespace", VStr "AWS/S3"); ("metric_name", VStr "BucketSizeBytes");
   ("dimensions", VDict [("BucketName", VStr "development-cg-bucket");
                         ("StorageType", VStr "StandardStorage")])].

Lemma bind_run {S A B} (m : M S A) (f : A → M S B) (s : S) :
  (m ≫= f) s =
  match m s with
  | (Ok a, s') => f a s'
  | (Raise e, s') => (Raise e, s')
  end.
Proof. reflexivity. Qed.

Lemma foldM_cons {S A B} (f : B → A → M S B) (b : B) (x : A) (l : list A) :
  foldM f b (x :: l) = (f b x ≫= λ b', foldM f b' l).
Proof. reflexivity. Qed.

Lemma foldM_nil {S A B} (f : B → A → M S B) (b : B) (s : S) :
  foldM f b [] s = (Ok b, s).
Proof. reflexivity. Qed.

(** ** Dictionaries *)

Lemma dict_get_set_eq k v d : dict_get k (dict_set k v d) = Some v.
Proof.
  induction d as [|[k' v'] d IH]; simpl.
  - by rewrite decide_True.
  - destruct (decide (k = k')) as [->|Hne]; simpl.
    + by rewrite decide_True.
    + by rewrite decide_False.
Qed.

Lemma dict_get_set_ne k k' v d : k ≠ k' → dict_get k' (dict_set k v d) = dict_get k' d.
Proof.
  intros Hne. induction d as [|[k0 v0] d IH]; simpl.
  - by rewrite decide_False.
  - destruct (decide (k = k0)) as [->|Hk]; simpl.
    + by rewrite !decide_False.
    + by rewrite IH.
Qed.

Lemma dict_set_nonempty k v d : dict_nonempty (dict_set k v d) = true.
Proof. destruct d as [|[k' v'] d]; simpl; [done|]. by destruct (decide (k = k')). Qed.

Lemma dict_mem_set k v d : dict_mem k (dict_set k v d) = true.
Proof. unfold dict_mem. by rewrite dict_get_set_eq. Qed.

(** ** The [lru_cache] wrapper *)

Section lru_facts.
Context {K V : Type} `{EqDecision K}.
Implicit Types (l : list (K * V)) (k : K) (v : V).

Lemma cache_get_remove_ne k k' l :
  k ≠ k' → cache_get k' (cache_remove k l) = cache_get k' l.
Proof.
  intros Hne. induction l as [|[k0 v0] l IH]; simpl; [done|].
  destruct (decide (k = k0)) as [->|Hk]; simpl.
  - by rewrite decide_False.
  - by rewrite IH.
Qed.

(** A hit moves the entry to the front and changes no lookup. *)
Lemma cache_get_touch k v l k' :
  cache_get k l = Some v →
  cache_get k' ((k, v) :: cache_remove k l) = cache_get k' l.
Proof.
  intros Hk. simpl. destruct (decide (k' = k)) as [->|Hne]; [done|].
  by apply cache_get_remove_ne.
Qed.

(** Eviction only forgets. *)
Lemma cache_get_take n k v l :
  cache_get k (take n l) = Some v → cache_get k l = Some v.
Proof.
  revert l. induction n as [|n IH]; intros [|[k0 v0] l]; simpl; try done.
  destruct (decide (k = k0)); [done|]. apply IH.
Qed.

Lemma cache_get_take_head n k v l :
  cache_get k (take (S n) ((k, v) :: l)) = Some v.
Proof. simpl. by rewrite decide_True. Qed.
End lru_facts.

(** ** One output record per input record *)

Lemma cloudwatch_process_record_appends W C cfg outs s3 r s res s' :
  Cloudwatch.process_record W C cfg (outs, s3) r s = (res, s') →
  ∃ o s3', res = Ok (outs ++ [o], s3') ∧ out_recordId o = recordId r.
Proof.
  unfold Cloudwatch.process_record, except_Exception, try_except.
  rewrite bind_run. unfold lift at 1.
  destruct (b64decode C (data r)) as [cd|e].
  - rewrite bind_run. unfold lift at 1.
    destruct (gzip_decompress C cd) as [pj|e].
    + rewrite bind_run.
      destruct (foldM _ _ _ s) as [[[|x pl]|e] s1]; intros [= <- <-]; eauto.
    + intros [= <- <-]; eauto.
  - intros [= <- <-]; eauto.
Qed.

Lemma cloudwatch_records_loop W C cfg event : ∀ outs s3 s res s',
  foldM (Cloudwatch.process_record W C cfg) (outs, s3) event s = (res, s') →
  ∃ outs' s3', res = Ok (outs', s3') ∧ ids_out outs' = ids_out outs ++ ids_in event.
Proof.
  induction event as [|r event IH]; intros outs s3 s res s'.
  - rewrite foldM_nil. intros [= <- <-]. exists outs, s3.
    unfold ids_in. simpl. by rewrite app_nil_r.
  - rewrite foldM_cons, bind_run.
    destruct (Cloudwatch.process_record W C cfg (outs, s3) r s) as [res1 s1] eqn:H1.
    apply cloudwatch_process_record_appends in H1 as (o & s3' & -> & Hid).
    intros Hrest. apply IH in Hrest as (outs' & s3'' & -> & Hids).
    exists outs', s3''. split; [done|].
    rewrite Hids. unfold ids_out, ids_in. rewrite map_app. simpl. rewrite Hid.
    by rewrite <- app_assoc.
Qed.

Lemma metrics_process_record_appends W C cfg outs r s outs' s' :
  Metrics.process_record W C cfg outs r s = (Ok outs', s') →
  ∃ o, outs' = outs ++ [o] ∧ out_recordId o = recordId r.
Proof.
  unfold Metrics.process_record.
  rewrite bind_run. unfold lift at 1.
  destruct (b64decode C (data r)) as [pj|e]; [|done].
  rewrite bind_run.
  destruct (foldM _ _ _ s) as [[[|x pm]|e] s1]; [| |done];
    intros [= <- <-]; eauto.
Qed.

Lemma metrics_records_loop W C cfg event : ∀ outs s outs' s',
  foldM (Metrics.process_record W C cfg) outs event s = (Ok outs', s') →
  ids_out outs' = ids_out outs ++ ids_in event.
Proof.
  induction event as [|r event IH]; intros outs s outs' s'.
  - rewrite foldM_nil. intros [= <- <-]. unfold ids_in. simpl. by rewrite app_nil_r.
  - rewrite foldM_cons, bind_run.
    destruct (Metrics.process_record W C cfg outs r s) as [[outs1|e] s1] eqn:H1;
      [|done].
    apply metrics_process_record_appends in H1 as (o & -> & Hid).
    intros Hrest. apply IH in Hrest. rewrite Hrest.
    unfold ids_out, ids_in. rewrite map_app. simpl. rewrite Hid.
    by rewrite <- app_assoc.
Qed.

Lemma ids_corresponds out event : ids_out out = ids_in event → corresponds out event.
Proof.
  unfold ids_out, ids_in, corresponds.
  revert event. induction out as [|o out IH]; intros [|r event]; simpl; try done.
  intros [= Hid Hrest]. constructor; auto.
Qed.

(** When the first [try] of the log handler fails, the handler answers an
    empty list whatever the batch holds. *)
Lemma cloudwatch_failed_initialisation W C environ event s e s0 :
  Cloudwatch.initialise W environ s = (Raise e, s0) →
  ∃ s', Cloudwatch.lambda_handler W C environ event s = (Ok [], s').
Proof.
  intros Hinit. unfold Cloudwatch.lambda_handler.
  rewrite bind_run. unfold try_except. rewrite bind_run, Hinit.
  destruct (is_ValueError e); rewrite bind_run; simpl; eauto.
Qed.

(** Once initialised, the log handler returns unless the write to S3 fails. *)
Lemma cloudwatch_handler_returns W C environ event s cfg s0 :
  Cloudwatch.initialise W environ s = (Ok cfg, s0) →
  (∀ c req, put_object W c req = Ok tt) →
  ∃ out s', Cloudwatch.lambda_handler W C environ event s = (Ok out, s').
Proof.
  intros Hinit Hput. unfold Cloudwatch.lambda_handler.
  rewrite bind_run. unfold try_except. rewrite bind_run, Hinit.
  unfold mret at 1, M_ret at 1. cbn beta iota.
  rewrite bind_run.
  destruct (foldM _ _ _ s0) as [res s1] eqn:Hloop.
  apply cloudwatch_records_loop in Hloop as (outs' & s3' & -> & _).
  rewrite bind_run. unfold Cloudwatch.push_to_s3.
  destruct s3' as [|log s3']; [by eexists _, _|].
  unfold except_Exception, try_except. rewrite bind_run.
  unfold Cloudwatch.call at 1. rewrite Hput.
  unfold Cloudwatch.logger, modify. cbn beta iota.
  by eexists _, _.
Qed.

(** C1 (amended): a batch for which the metric handler returns, or for which
    the log handler has passed its initialisation and returns, gets one
    output record per input record: the same number of records, in the
    order of the input, the i-th output carrying the identifier of the i-th
    input. *)
Theorem lambda_handler_one_output_per_record W C environ event :
  (∀ s out s',
     Metrics.lambda_handler W C environ event s = (Ok out, s') →
     length out = length event ∧ corresponds out event) ∧
  (∀ s cfg s0 out s',
     Cloudwatch.initialise W environ s = (Ok cfg, s0) →
     Cloudwatch.lambda_handler W C environ event s = (Ok out, s') →
     length out = length event ∧ corresponds out event).
Proof.
  split.
  - intros s out s'. unfold Metrics.lambda_handler.
    rewrite bind_run.
    destruct (Metrics.initialise W environ s) as [[cfg|e] s0]; [|done].
    unfold except_Exception, try_except.
    destruct (foldM _ _ _ s0) as [[out'|e] s1] eqn:Hloop.
    + intros [= <- <-]. apply metrics_records_loop in Hloop.
      apply ids_corresponds in Hloop as Hcor.
      split; [by eapply Forall2_length|done].
    + rewrite bind_run. unfold Metrics.logger, modify, raise. done.
  - intros s cfg s0 out s' Hinit. unfold Cloudwatch.lambda_handler.
    rewrite bind_run. unfold try_except. rewrite bind_run, Hinit.
    unfold mret at 1, M_ret at 1. cbn beta iota.
    rewrite bind_run.
    destruct (foldM _ _ _ s0) as [res s1] eqn:Hloop.
    apply cloudwatch_records_loop in Hloop as (outs' & s3' & -> & Hids).
    rewrite bind_run.
    destruct (Cloudwatch.push_to_s3 W C cfg s3' s1) as [[[]|e] s2]; [|done].
    intros [= <- <-]. apply ids_corresponds in Hids as Hcor.
    split; [by eapply Forall2_length|done].
Qed.

Lemma lambda_handler_one_output_per_record_witness :
  (∃ out,
     (Metrics.lambda_handler Scenario.aws_dev Scenario.codecs_dev Scenario.environ
        [Scenario.record_metric; Scenario.record_metric_gone]
        Metrics.initial_state).1 = Ok out ∧
     length out = length [Scenario.record_metric; Scenario.record_metric_gone] ∧
     corresponds out [Scenario.record_metric; Scenario.record_metric_gone]) ∧
  (∃ out,
     (Cloudwatch.lambda_handler Scenario.aws_dev Scenario.codecs_dev Scenario.environ
        [Scenario.record_bad_then_log; Scenario.record_bad]
        Cloudwatch.initial_state).1 = Ok out ∧
     length out = length [Scenario.record_bad_then_log; Scenario.record_bad] ∧
     corresponds out [Scenario.record_bad_then_log; Scenario.record_bad]).
Proof.
  split.
  - destruct (Metrics.lambda_handler _ _ _ _ _) as [[out|e] s'] eqn:Hrun.
    + exists out. split; [done|].
      exact (proj1 (lambda_handler_one_output_per_record _ _ _ _) _ _ _ Hrun).
    + vm_compute in Hrun. discriminate.
  - destruct (Cloudwatch.initialise Scenario.aws_dev Scenario.environ
                Cloudwatch.initial_state) as [[cfg|e] s0] eqn:Hinit.
    + destruct (Cloudwatch.lambda_handler _ _ _ _ _) as [[out|e] s'] eqn:Hrun.
      * exists out. split; [done|].
        exact (proj2 (lambda_handler_one_output_per_record _ _ _ _)
                 _ _ _ _ _ Hinit Hrun).
      * vm_compute in Hrun. discriminate.
    + vm_compute in Hinit. discriminate.
Defined.

(** C1 as stated fails: with [S3_BUCKET_NAME] unset the log handler answers
    an empty list to a batch of one record. *)
Lemma cloudwatch_missing_bucket_drops_the_batch :
  (Cloudwatch.lambda_handler Scenario.aws_dev Scenario.codecs_dev
     Scenario.environ_no_bucket [Scenario.record_bad] Cloudwatch.initial_state).1
  = Ok [] ∧
  ¬ corresponds [] [Scenario.record_bad] ∧
  length (@nil output_record) ≠ length [Scenario.record_bad].
Proof.
  split; [vm_compute; reflexivity|]. split; [|done].
  intros H. inversion H.
Qed.

(** ** The cached tag lookups, call by call *)

(** The body of the log lambda's lookup: it answers [cloudwatch_fetched],
    sends [cloudwatch_fetch_calls] and leaves the cache alone. *)
Lemma cloudwatch_body_run W arn c s :
  ∃ lg,
    Cloudwatch.get_tags_from_arn_body W arn c s =
    (Ok (cloudwatch_fetched W arn c),
     Cloudwatch.State (Cloudwatch.tags_cache s)
       (Cloudwatch.calls s ++ cloudwatch_fetch_calls arn c)
       (Cloudwatch.logged s ++ lg)).
Proof.
  unfold Cloudwatch.get_tags_from_arn_body, cloudwatch_fetched, cloudwatch_fetch_calls.
  destruct (str_in ":db:" arn).
  - unfold except_Exception, try_except. rewrite bind_run.
    unfold Cloudwatch.call at 1.
    destruct (list_tags_for_resource W c arn) as [response|e]; simpl.
    + destruct (dict_mem _ _); simpl.
      * exists []. by rewrite app_nil_r.
      * eexists [_]. reflexivity.
    + eexists [_]. reflexivity.
  - exists []. destruct s. simpl. by rewrite !app_nil_r.
Qed.

(** A call of the log lambda's cached lookup, on a hit and on a miss. *)
Lemma cloudwatch_get_tags_run W arn c s :
  match cache_get (arn, c) (entries (Cloudwatch.tags_cache s)) with
  | Some d =>
      Cloudwatch.get_tags_from_arn W arn c s =
      (Ok d,
       Cloudwatch.State
         (Lru ((arn, c, d) :: cache_remove (arn, c) (entries (Cloudwatch.tags_cache s)))
              (S (hits (Cloudwatch.tags_cache s))) (misses (Cloudwatch.tags_cache s)))
         (Cloudwatch.calls s) (Cloudwatch.logged s))
  | None =>
      ∃ lg,
        Cloudwatch.get_tags_from_arn W arn c s =
        (Ok (cloudwatch_fetched W arn c),
         Cloudwatch.State
           (Lru (take 256 ((arn, c, cloudwatch_fetched W arn c)
                           :: entries (Cloudwatch.tags_cache s)))
                (hits (Cloudwatch.tags_cache s)) (S (misses (Cloudwatch.tags_cache s))))
           (Cloudwatch.calls s ++ cloudwatch_fetch_calls arn c)
           (Cloudwatch.logged s ++ lg))
  end.
Proof.
  unfold Cloudwatch.get_tags_from_arn, lru_cache.
  destruct (cache_get _ _) as [d|] eqn:Hget; [done|].
  destruct (cloudwatch_body_run W arn c
              (Cloudwatch.set_tags_cache
                 (Lru (entries (Cloudwatch.tags_cache s)) (hits (Cloudwatch.tags_cache s))
                      (S (misses (Cloudwatch.tags_cache s)))) s)) as [lg ->].
  cbn [Cloudwatch.set_tags_cache Cloudwatch.tags_cache Cloudwatch.calls
       Cloudwatch.logged entries hits misses].
  rewrite Hget. exists lg. reflexivity.
Qed.

(** The body of the metric lambda's lookup: a new object that holds
    [metrics_fetched]. *)
Lemma metrics_body_run W arn c s :
  ∃ lg,
    Metrics.get_tags_from_arn_body W arn c s =
    (Ok (length (Metrics.heap s)),
     Metrics.State (Metrics.heap s ++ [metrics_fetched W arn c])
       (Metrics.arn_cache s) (Metrics.name_cache s) (Metrics.rds_cache s)
       (Metrics.calls s ++ metrics_fetch_calls arn c)
       (Metrics.logged s ++ lg)).
Proof.
  unfold Metrics.get_tags_from_arn_body, metrics_fetched, metrics_fetch_calls.
  destruct s as [h ac nc rc cs lgs].
  destruct (str_in ":domain/" arn), (str_in ":db:" arn);
    unfold except_Exception, try_except; rewrite ?bind_run;
    unfold Metrics.call, Metrics.logger, Metrics.alloc, Metrics.set_heap;
    unmonad; simpl;
    repeat (match goal with
            | |- context [list_tags W c arn] => destruct (list_tags W c arn); simpl
            | |- context [list_tags_for_resource W c arn] =>
                destruct (list_tags_for_resource W c arn); simpl
            | |- context [dict_mem ?k ?d] => destruct (dict_mem k d); simpl
            end);
    rewrite <- ?app_assoc; simpl;
    first [ by exists []; rewrite !app_nil_r
          | by eexists [_]
          | by eexists [_; _] ].
Qed.

(** A call of the metric lambda's cached lookup, on a hit and on a miss. *)
Lemma metrics_get_tags_run W arn c s :
  match cache_get (arn, c) (entries (Metrics.arn_cache s)) with
  | Some l =>
      Metrics.get_tags_from_arn W arn c s =
      (Ok l,
       Metrics.set_arn_cache
         (Lru ((arn, c, l) :: cache_remove (arn, c) (entries (Metrics.arn_cache s)))
              (S (hits (Metrics.arn_cache s))) (misses (Metrics.arn_cache s))) s)
  | None =>
      ∃ lg,
        Metrics.get_tags_from_arn W arn c s =
        (Ok (length (Metrics.heap s)),
         Metrics.State (Metrics.heap s ++ [metrics_fetched W arn c])
           (Lru (take 256 ((arn, c, length (Metrics.heap s))
                           :: entries (Metrics.arn_cache s)))
                (hits (Metrics.arn_cache s)) (S (misses (Metrics.arn_cache s))))
           (Metrics.name_cache s) (Metrics.rds_cache s)
           (Metrics.calls s ++ metrics_fetch_calls arn c)
           (Metrics.logged s ++ lg))
  end.
Proof.
  unfold Metrics.get_tags_from_arn, lru_cache.
  destruct (cache_get _ _) as [l|] eqn:Hget; [done|].
  destruct (metrics_body_run W arn c
              (Metrics.set_arn_cache
                 (Lru (entries (Metrics.arn_cache s)) (hits (Metrics.arn_cache s))
                      (S (misses (Metrics.arn_cache s)))) s)) as [lg ->].
  cbn [Metrics.set_arn_cache Metrics.arn_cache Metrics.heap Metrics.name_cache
       Metrics.rds_cache Metrics.calls Metrics.logged entries hits misses].
  rewrite Hget. exists lg. reflexivity.
Qed.

(** ** The required tag *)

(** C2: for a database locator whose fetched tags lack ["Organization GUID"],
    both cached lookups answer the empty mapping and keep that empty mapping
    in the cache, whatever other tags the fetch brought back. *)
Theorem get_tags_from_arn_without_organization_guid
    W arn c response (sc : Cloudwatch.state) (sm : Metrics.state) :
  str_in ":db:" arn = true →
  list_tags_for_resource W c arn = Ok response →
  dict_mem "Organization GUID" (dict_of_tags (default [] (TagList response))) = false →
  cache_get (arn, c) (entries (Cloudwatch.tags_cache sc)) = None →
  cache_get (arn, c) (entries (Metrics.arn_cache sm)) = None →
  (∃ sc',
     Cloudwatch.get_tags_from_arn W arn c sc = (Ok [], sc') ∧
     cache_get (arn, c) (entries (Cloudwatch.tags_cache sc')) = Some []) ∧
  (∃ l sm',
     Metrics.get_tags_from_arn W arn c sm = (Ok l, sm') ∧
     Metrics.heap sm' !! l = Some [] ∧
     cache_get (arn, c) (entries (Metrics.arn_cache sm')) = Some l).
Proof.
  intros Hdb Hfetch Hguid Hmiss_c Hmiss_m. split.
  - pose proof (cloudwatch_get_tags_run W arn c sc) as Hrun.
    rewrite Hmiss_c in Hrun. destruct Hrun as [lg Hrun].
    assert (cloudwatch_fetched W arn c = []) as Hempty.
    { unfold cloudwatch_fetched. by rewrite Hdb, Hfetch, Hguid. }
    rewrite Hempty in Hrun. eexists. split; [exact Hrun|].
    cbn [Cloudwatch.tags_cache entries]. apply cache_get_take_head.
  - pose proof (metrics_get_tags_run W arn c sm) as Hrun.
    rewrite Hmiss_m in Hrun. destruct Hrun as [lg Hrun].
    assert (metrics_fetched W arn c = []) as Hempty.
    { unfold metrics_fetched. by rewrite Hdb, Hfetch, Hguid. }
    rewrite Hempty in Hrun. eexists _, _. split; [exact Hrun|].
    cbn [Metrics.heap Metrics.arn_cache entries]. split.
    + by rewrite lookup_app_r, Nat.sub_diag.
    + apply cache_get_take_head.
Qed.

Lemma get_tags_from_arn_without_organization_guid_witness :
  dict_of_tags [("Owner", "team")] ≠ [] ∧
  (∃ sc',
     Cloudwatch.get_tags_from_arn Scenario.aws_dev Scenario.arn_untagged Scenario.rds
       Cloudwatch.initial_state = (Ok [], sc') ∧
     cache_get (Scenario.arn_untagged, Scenario.rds)
       (entries (Cloudwatch.tags_cache sc')) = Some []) ∧
  (∃ l sm',
     Metrics.get_tags_from_arn Scenario.aws_dev Scenario.arn_untagged Scenario.rds
       Metrics.initial_state = (Ok l, sm') ∧
     Metrics.heap sm' !! l = Some [] ∧
     cache_get (Scenario.arn_untagged, Scenario.rds)
       (entries (Metrics.arn_cache sm')) = Some l).
Proof.
  split; [done|].
  apply (get_tags_from_arn_without_organization_guid
           Scenario.aws_dev Scenario.arn_untagged Scenario.rds
           {| TagList := Some [("Owner", "team")] |});
    vm_compute; reflexivity.
Defined.

(** ** The second call is a hit *)

(** C8: two calls of the cached lookup in a row, for the same locator and
    client, answer the same mapping; the second call finds it in the cache
    (one more hit, no more miss) and sends nothing to AWS, so that the two
    calls together send each tag request at most once. *)
Theorem get_tags_from_arn_twice W arn c :
  (∀ s, ∃ d s1 s2 news,
     Cloudwatch.get_tags_from_arn W arn c s = (Ok d, s1) ∧
     Cloudwatch.get_tags_from_arn W arn c s1 = (Ok d, s2) ∧
     Cloudwatch.calls s1 = Cloudwatch.calls s ++ news ∧
     Cloudwatch.calls s2 = Cloudwatch.calls s1 ∧
     news `sublist_of` [ListTagsForResource c arn] ∧
     hits (Cloudwatch.tags_cache s2) = S (hits (Cloudwatch.tags_cache s1)) ∧
     misses (Cloudwatch.tags_cache s2) = misses (Cloudwatch.tags_cache s1)) ∧
  (∀ s, ∃ l s1 s2 news,
     Metrics.get_tags_from_arn W arn c s = (Ok l, s1) ∧
     Metrics.get_tags_from_arn W arn c s1 = (Ok l, s2) ∧
     Metrics.heap s2 = Metrics.heap s1 ∧
     Metrics.calls s1 = Metrics.calls s ++ news ∧
     Metrics.calls s2 = Metrics.calls s1 ∧
     news `sublist_of` [ListTags c arn; ListTagsForResource c arn] ∧
     hits (Metrics.arn_cache s2) = S (hits (Metrics.arn_cache s1)) ∧
     misses (Metrics.arn_cache s2) = misses (Metrics.arn_cache s1)).
Proof.
  split; intros s.
  - pose proof (cloudwatch_get_tags_run W arn c s) as H1.
    destruct (cache_get _ _) as [d|] eqn:Hget.
    + pose proof (cloudwatch_get_tags_run W arn c
                    (Cloudwatch.State
                       (Lru ((arn, c, d) :: cache_remove (arn, c)
                                              (entries (Cloudwatch.tags_cache s)))
                            (S (hits (Cloudwatch.tags_cache s)))
                            (misses (Cloudwatch.tags_cache s)))
                       (Cloudwatch.calls s) (Cloudwatch.logged s))) as H2.
      cbn [Cloudwatch.tags_cache entries cache_get] in H2.
      rewrite decide_True in H2 by done.
      eexists d, _, _, []. rewrite H1. split; [done|]. split; [exact H2|].
      cbn. rewrite app_nil_r. repeat split. apply sublist_nil_l.
    + destruct H1 as [lg H1].
      pose proof (cloudwatch_get_tags_run W arn c
                    (Cloudwatch.State
                       (Lru (take 256 ((arn, c, cloudwatch_fetched W arn c)
                                       :: entries (Cloudwatch.tags_cache s)))
                            (hits (Cloudwatch.tags_cache s))
                            (S (misses (Cloudwatch.tags_cache s))))
                       (Cloudwatch.calls s ++ cloudwatch_fetch_calls arn c)
                       (Cloudwatch.logged s ++ lg))) as H2.
      cbn [Cloudwatch.tags_cache entries] in H2.
      rewrite cache_get_take_head in H2.
      eexists _, _, _, (cloudwatch_fetch_calls arn c). rewrite H1.
      split; [done|]. split; [exact H2|].
      cbn. repeat split.
      unfold cloudwatch_fetch_calls. destruct (str_in _ _); [done|].
      apply sublist_nil_l.
  - pose proof (metrics_get_tags_run W arn c s) as H1.
    destruct (cache_get _ _) as [l|] eqn:Hget.
    + pose proof (metrics_get_tags_run W arn c
                    (Metrics.set_arn_cache
                       (Lru ((arn, c, l) :: cache_remove (arn, c)
                                              (entries (Metrics.arn_cache s)))
                            (S (hits (Metrics.arn_cache s)))
                            (misses (Metrics.arn_cache s))) s)) as H2.
      cbn [Metrics.set_arn_cache Metrics.arn_cache entries cache_get] in H2.
      rewrite decide_True in H2 by done.
      eexists l, _, _, []. rewrite H1. split; [done|]. split; [exact H2|].
      cbn. rewrite app_nil_r. repeat split. apply sublist_nil_l.
    + destruct H1 as [lg H1].
      pose proof (metrics_get_tags_run W arn c
                    (Metrics.State (Metrics.heap s ++ [metrics_fetched W arn c])
                       (Lru (take 256 ((arn, c, length (Metrics.heap s))
                                       :: entries (Metrics.arn_cache s)))
                            (hits (Metrics.arn_cache s))
                            (S (misses (Metrics.arn_cache s))))
                       (Metrics.name_cache s) (Metrics.rds_cache s)
                       (Metrics.calls s ++ metrics_fetch_calls arn c)
                       (Metrics.logged s ++ lg))) as H2.
      cbn [Metrics.arn_cache entries] in H2.
      rewrite cache_get_take_head in H2.
      eexists _, _, _, (metrics_fetch_calls arn c). rewrite H1.
      split; [done|]. split; [exact H2|].
      cbn. repeat split.
      unfold metrics_fetch_calls.
      destruct (str_in ":domain/" arn), (str_in ":db:" arn); simpl.
      * done.
      * apply sublist_skip, sublist_nil_l.
      * by apply sublist_cons.
      * apply sublist_nil_l.
Qed.

(** ** The environment selector *)


(** The prefix resolver of the metric lambda never raises. *)
Lemma metrics_make_prefixes_total environ :
  ∃ prefixes, Metrics.make_prefixes environ = Ok prefixes.
Proof. unfold Metrics.make_prefixes. eauto. Qed.

(** C3, on the code: [transform_lambda.make_prefixes] answers the bare
    prefixes when [ENVIRONMENT] is unset and when it names no known
    environment, where the claim (and the two other resolvers) raise. *)
Theorem metrics_make_prefixes_defaults_silently :
  Metrics.make_prefixes ∅ = Ok ("cg-aws-broker-", "cg-", "cg-broker-") ∧
  Metrics.make_prefixes {["ENVIRONMENT" := "qa"]}
  = Ok ("cg-aws-broker-", "cg-", "cg-broker-").
Proof. split; vm_compute; reflexivity. Qed.

(** ** Malformed lines *)

Lemma cloudwatch_process_line_malformed W C cfg acc line e s :
  json_loads C line = Raise e →
  exn_cls e = JSONDecodeError →
  Cloudwatch.process_line W C cfg acc line s =
  (Ok acc,
   Cloudwatch.State (Cloudwatch.tags_cache s) (Cloudwatch.calls s)
     (Cloudwatch.logged s ++
        [(ERROR, "Error decoding JSON: " +:+ exn_msg e
                 +:+ ". Line: " +:+ bytes_repr line)])).
Proof.
  intros Hloads Hcls. unfold Cloudwatch.process_line, try_except.
  rewrite bind_run. unfold lift at 1. rewrite Hloads.
  unfold is_class. rewrite bool_decide_eq_true_2 by done.
  reflexivity.
Qed.

Lemma cloudwatch_all_malformed W C cfg lines : ∀ s,
  Forall (malformed C) lines →
  ∃ s', foldM (Cloudwatch.process_line W C cfg) [] lines s = (Ok [], s').
Proof.
  induction lines as [|line lines IH]; intros s Hall.
  - rewrite foldM_nil. eauto.
  - inversion Hall as [|? ? (e & Hloads & Hcls) Hrest]; subst.
    rewrite foldM_cons, bind_run.
    rewrite (cloudwatch_process_line_malformed _ _ _ _ _ e) by done.
    by apply IH.
Qed.

Lemma cloudwatch_process_logs_total W logs c region account_id rds_prefix s :
  ∃ r s', Cloudwatch.process_logs W logs c region account_id rds_prefix s = (Ok r, s').
Proof.
  unfold Cloudwatch.process_logs, except_Exception, try_except.
  match goal with |- context [match ?body ?st with _ => _ end] =>
    destruct (body st) as [[r|e] s1] end.
  - eauto.
  - rewrite bind_run. unfold Cloudwatch.logger, modify. cbn beta iota.
    unfold mret, M_ret. eauto.
Qed.

(** A line leaves the loop of its record only when [json.loads] refuses it. *)
Lemma cloudwatch_process_line_result W C cfg acc line s :
  match Cloudwatch.process_line W C cfg acc line s with
  | (Ok _, _) => ¬ refused C line
  | (Raise _, _) => refused C line
  end.
Proof.
  unfold Cloudwatch.process_line, try_except, refused.
  rewrite bind_run. unfold lift at 1.
  destruct (json_loads C line) as [logs|e] eqn:Hloads.
  - rewrite bind_run.
    destruct (cloudwatch_process_logs_total W logs (Cloudwatch.rds_client cfg)
                (Cloudwatch.region cfg) (Cloudwatch.account_id cfg)
                (Cloudwatch.rds_prefix cfg) s) as (r & s1 & ->).
    destruct r as [[|x l]|]; intros (e & [=] & _).
  - unfold is_class. destruct (bool_decide (exn_cls e = JSONDecodeError)) eqn:Hcls.
    + apply bool_decide_eq_true in Hcls. rewrite bind_run.
      unfold Cloudwatch.logger, modify. cbn beta iota.
      intros (e' & [= <-] & Hne). done.
    + apply bool_decide_eq_false in Hcls. eauto.
Qed.

Lemma cloudwatch_lines_result W C cfg lines : ∀ acc s,
  match foldM (Cloudwatch.process_line W C cfg) acc lines s with
  | (Ok _, _) => Forall (λ line, ¬ refused C line) lines
  | (Raise _, _) => Exists (refused C) lines
  end.
Proof.
  induction lines as [|line lines IH]; intros acc s.
  - rewrite foldM_nil. constructor.
  - rewrite foldM_cons, bind_run.
    pose proof (cloudwatch_process_line_result W C cfg acc line s) as Hline.
    destruct (Cloudwatch.process_line W C cfg acc line s) as [[acc'|e] s1].
    + specialize (IH acc' s1).
      destruct (foldM _ acc' lines s1) as [[acc''|e] s2].
      * by constructor.
      * by apply Exists_cons_tl.
    + by apply Exists_cons_hd.
Qed.

(** A loop over lines that are JSON or malformed does not raise. *)
Lemma cloudwatch_lines_return W C cfg lines acc s :
  Forall (λ line, (∃ logs, json_loads C line = Ok logs) ∨ malformed C line) lines →
  ∃ usable s',
    foldM (Cloudwatch.process_line W C cfg) acc lines s = (Ok usable, s').
Proof.
  intros Hall.
  pose proof (cloudwatch_lines_result W C cfg lines acc s) as Hres.
  destruct (foldM _ acc lines s) as [[usable|e] s']; [eauto|].
  exfalso. apply Exists_exists in Hres as (line & Hin & e' & Hloads & Hcls).
  eapply Forall_forall in Hall; [|exact Hin].
  destruct Hall as [[logs Hok]|(e'' & Hbad & Hcls'')]; congruence.
Qed.

(** C5 (amended): in the log lambda a line that [json.loads] rejects with
    [JSONDecodeError] is logged and skipped: the loop goes on with the lines
    that follow and with what the earlier lines gave.  Such lines never fail
    their record: a record whose payload decodes and whose lines are each
    JSON or rejected in that way is answered [Ok] when its lines gave some
    log, and [Dropped] with its own data when they gave none, as it is when
    all of its lines are rejected; it is not answered [ProcessingFailed]. *)
Theorem cloudwatch_malformed_line_is_skipped W C cfg :
  (∀ line e acc rest s,
     json_loads C line = Raise e →
     exn_cls e = JSONDecodeError →
     foldM (Cloudwatch.process_line W C cfg) acc (line :: rest) s =
     foldM (Cloudwatch.process_line W C cfg) acc rest
       (Cloudwatch.State (Cloudwatch.tags_cache s) (Cloudwatch.calls s)
          (Cloudwatch.logged s ++
             [(ERROR, "Error decoding JSON: " +:+ exn_msg e
                      +:+ ". Line: " +:+ bytes_repr line)]))) ∧
  (∀ record payload text outs s3 s,
     b64decode C (data record) = Ok payload →
     gzip_decompress C payload = Ok text →
     Forall (λ line, (∃ logs, json_loads C line = Ok logs) ∨ malformed C line)
            (splitlines (strip text)) →
     ∃ usable s',
       foldM (Cloudwatch.process_line W C cfg) [] (splitlines (strip text)) s
       = (Ok usable, s') ∧
       Cloudwatch.process_record W C cfg (outs, s3) record s =
       (Ok (outs ++
              [match usable with
               | [] => {| out_recordId := recordId record; out_result := Dropped;
                          out_data := data record |}
               | _ :: _ => {| out_recordId := recordId record; out_result := ResultOk;
                              out_data := b64encode C "" |}
               end],
            s3 ++ usable), s')) ∧
  (∀ record payload text outs s3 s,
     b64decode C (data record) = Ok payload →
     gzip_decompress C payload = Ok text →
     Forall (malformed C) (splitlines (strip text)) →
     ∃ s',
       Cloudwatch.process_record W C cfg (outs, s3) record s =
       (Ok (outs ++ [{| out_recordId := recordId record; out_result := Dropped;
                        out_data := data record |}], s3), s')).
Proof.
  split; [|split].
  - intros line e acc rest s Hloads Hcls.
    rewrite foldM_cons, bind_run.
    by rewrite (cloudwatch_process_line_malformed _ _ _ _ _ e).
  - intros record payload text outs s3 s Hb64 Hgz Hall.
    destruct (cloudwatch_lines_return W C cfg _ [] s Hall) as (usable & s' & Hloop).
    exists usable, s'. split; [exact Hloop|].
    unfold Cloudwatch.process_record, except_Exception, try_except.
    rewrite bind_run. unfold lift at 1. rewrite Hb64.
    rewrite bind_run. unfold lift at 1. rewrite Hgz.
    rewrite bind_run, Hloop.
    destruct usable; [by rewrite app_nil_r|done].
  - intros record payload text outs s3 s Hb64 Hgz Hall.
    unfold Cloudwatch.process_record, except_Exception, try_except.
    rewrite bind_run. unfold lift at 1. rewrite Hb64.
    rewrite bind_run. unfold lift at 1. rewrite Hgz.
    rewrite bind_run.
    destruct (cloudwatch_all_malformed W C cfg _ s Hall) as [s' ->].
    eauto.
Qed.

Lemma cloudwatch_malformed_line_is_skipped_witness :
  (foldM (Cloudwatch.process_line Scenario.aws_dev Scenario.codecs_dev Scenario.cloudwatch_cfg) []
     [Scenario.line_bad; Scenario.line_log] Cloudwatch.initial_state =
   foldM (Cloudwatch.process_line Scenario.aws_dev Scenario.codecs_dev Scenario.cloudwatch_cfg) []
     [Scenario.line_log]
     (Cloudwatch.State lru_empty []
        [(ERROR, "Error decoding JSON: Expecting value: line 1 column 1 (char 0). Line: b'not json'")])) ∧
  (∃ usable s',
     foldM (Cloudwatch.process_line Scenario.aws_dev Scenario.codecs_dev Scenario.cloudwatch_cfg) []
       [Scenario.line_bad; Scenario.line_log] Cloudwatch.initial_state
     = (Ok usable, s') ∧
     Cloudwatch.process_record Scenario.aws_dev Scenario.codecs_dev Scenario.cloudwatch_cfg ([], [])
       Scenario.record_bad_then_log Cloudwatch.initial_state =
     (Ok ([] ++
            [match usable with
             | [] => {| out_recordId := "log-1"; out_result := Dropped;
                        out_data := data Scenario.record_bad_then_log |}
             | _ :: _ => {| out_recordId := "log-1"; out_result := ResultOk;
                            out_data := "" |}
             end],
          [] ++ usable), s')) ∧
  (∃ s',
     Cloudwatch.process_record Scenario.aws_dev Scenario.codecs_dev Scenario.cloudwatch_cfg ([], [])
       Scenario.record_bad Cloudwatch.initial_state =
     (Ok ([{| out_recordId := "log-2"; out_result := Dropped;
              out_data := data Scenario.record_bad |}], []), s')).
Proof.
  pose proof (cloudwatch_malformed_line_is_skipped
                Scenario.aws_dev Scenario.codecs_dev Scenario.cloudwatch_cfg)
    as (Hline & Hlines & Hrecord).
  split; [|split].
  - apply (Hline Scenario.line_bad
             (Exn JSONDecodeError "Expecting value: line 1 column 1 (char 0)")).
    + vm_compute; reflexivity.
    + reflexivity.
  - apply (Hlines Scenario.record_bad_then_log Scenario.gz_bad_then_log
             (Scenario.line_bad +:+ LF +:+ Scenario.line_log +:+ LF) [] []).
    + vm_compute; reflexivity.
    + vm_compute; reflexivity.
    + match goal with |- Forall _ ?lines =>
        let lines' := eval vm_compute in lines in change lines with lines' end.
      constructor; [|constructor; [|constructor]].
      * right. exists (Exn JSONDecodeError "Expecting value: line 1 column 1 (char 0)").
        split; vm_compute; reflexivity.
      * left. eexists. vm_compute. reflexivity.
  - apply (Hrecord Scenario.record_bad Scenario.gz_bad
             (Scenario.line_bad +:+ LF) [] []).
    + vm_compute; reflexivity.
    + vm_compute; reflexivity.
    + repeat constructor.
      exists (Exn JSONDecodeError "Expecting value: line 1 column 1 (char 0)").
      split; vm_compute; reflexivity.
Defined.

(** C5 as stated fails for the metric lambda: a line that is not JSON
    raises out of the handler, after the record before it was processed. *)
Lemma metrics_malformed_line_aborts_the_batch :
  ∃ msg,
    (Metrics.lambda_handler Scenario.aws_dev Scenario.codecs_dev Scenario.environ
       [Scenario.record_metric; Scenario.record_metric_bad] Metrics.initial_state).1
    = Raise (Exn JSONDecodeError msg).
Proof. eexists. vm_compute. reflexivity. Qed.

(** ** The lookups of the metric lambda *)

Lemma rds_description_body_run W c db_name s :
  ∃ lg,
    Metrics.get_rds_description_body W c db_name s =
    (Ok (described W c db_name),
     Metrics.State (Metrics.heap s) (Metrics.arn_cache s) (Metrics.name_cache s)
       (Metrics.rds_cache s)
       (Metrics.calls s ++ [DescribeDBInstances c db_name])
       (Metrics.logged s ++ lg)).
Proof.
  unfold Metrics.get_rds_description_body, described, Metrics.call,
    Metrics.logger, index.
  unmonad.
  destruct (describe_db_instances W c db_name) as [size|e]; simpl;
    [|by eexists [_]].
  destruct (DBInstances size) as [[|instance rest]|]; simpl;
    [by eexists [_]| |by eexists [_]].
  destruct (AllocatedStorage instance); simpl; [|by eexists [_]].
  exists []. by rewrite app_nil_r.
Qed.

Lemma rds_description_run W c db_name s :
  match cache_get (c, db_name) (entries (Metrics.rds_cache s)) with
  | Some v =>
      Metrics.get_rds_description W c db_name s =
      (Ok v,
       Metrics.set_rds_cache
         (Lru ((c, db_name, v) :: cache_remove (c, db_name) (entries (Metrics.rds_cache s)))
              (S (hits (Metrics.rds_cache s))) (misses (Metrics.rds_cache s))) s)
  | None =>
      ∃ lg,
        Metrics.get_rds_description W c db_name s =
        (Ok (described W c db_name),
         Metrics.State (Metrics.heap s) (Metrics.arn_cache s) (Metrics.name_cache s)
           (Lru (take 256 ((c, db_name, described W c db_name)
                           :: entries (Metrics.rds_cache s)))
                (hits (Metrics.rds_cache s)) (S (misses (Metrics.rds_cache s))))
           (Metrics.calls s ++ [DescribeDBInstances c db_name])
           (Metrics.logged s ++ lg))
  end.
Proof.
  unfold Metrics.get_rds_description, lru_cache.
  destruct (cache_get _ _) as [v|] eqn:Hget; [done|].
  destruct (rds_description_body_run W c db_name
              (Metrics.set_rds_cache
                 (Lru (entries (Metrics.rds_cache s)) (hits (Metrics.rds_cache s))
                      (S (misses (Metrics.rds_cache s)))) s)) as [lg ->].
  cbn [Metrics.set_rds_cache Metrics.arn_cache Metrics.heap Metrics.name_cache
       Metrics.rds_cache Metrics.calls Metrics.logged entries hits misses].
  rewrite Hget. exists lg. reflexivity.
Qed.

(** The description lookup always answers, and touches neither the heap nor
    the tag caches. *)
Lemma rds_description_frame W c db_name s :
  ∃ v s',
    Metrics.get_rds_description W c db_name s = (Ok v, s') ∧
    Metrics.heap s' = Metrics.heap s ∧
    Metrics.arn_cache s' = Metrics.arn_cache s ∧
    Metrics.name_cache s' = Metrics.name_cache s.
Proof.
  pose proof (rds_description_run W c db_name s) as Hrun.
  destruct (cache_get _ _) as [v|].
  - rewrite Hrun. eauto 10.
  - destruct Hrun as [lg ->]. eauto 10.
Qed.

Lemma deref_run l d s :
  Metrics.heap s !! l = Some d → Metrics.deref l s = (Ok d, s).
Proof. intros H. unfold Metrics.deref, gets. by rewrite H. Qed.

Lemma copy_run l d s :
  Metrics.heap s !! l = Some d →
  Metrics.copy l s =
  (Ok (length (Metrics.heap s)), Metrics.set_heap (Metrics.heap s ++ [d]) s).
Proof.
  intros H. unfold Metrics.copy. rewrite bind_run, (deref_run l d) by done.
  reflexivity.
Qed.

Lemma lookup_fresh {A} (h : list A) (x : A) : (h ++ [x]) !! length h = Some x.
Proof. by rewrite lookup_app_r, Nat.sub_diag. Qed.

Lemma alter_fresh {A} (f : A → A) (h : list A) (x : A) :
  alter f (length h) (h ++ [x]) = h ++ [f x].
Proof.
  induction h as [|y h IH]; [done|]. cbn. f_equal. exact IH.
Qed.

Section rds_branch.
Context (W : aws) (metric : value) (region : option string).
Context (s3_client : client) (s3_prefix : string).
Context (es_client : client) (domain_prefix : string).
Context (rds_client : client) (rds_prefix : string) (account_id : option string).
Context (dimensions metric_name : value) (db_name : string).
Hypothesis Hns : method_get metric "namespace" VNone = Ok (VStr "AWS/RDS").
Hypothesis Hdim : method_get metric "dimensions" (VDict []) = Ok dimensions.
Hypothesis Hdb :
  method_get dimensions "DBInstanceIdentifier" VNone = Ok (VStr db_name).
Hypothesis Hpre : startswith db_name rds_prefix = true.
Hypothesis Hname : method_get metric "metric_name" VNone = Ok metric_name.

Local Abbreviation arn := (rds_arn region account_id db_name).

Local Abbreviation lookup :=
  (Metrics.get_resource_tags_from_metric W metric region s3_client s3_prefix
     es_client domain_prefix rds_client rds_prefix account_id).

(** The steps of the lookup that do not depend on the tags. *)
Ltac rds_prologue Hget :=
  unfold Metrics.get_resource_tags_from_metric;
  rewrite bind_run;
  change (Metrics.alloc [] ?s) with
    (@Ok Metrics.loc (length (Metrics.heap s)),
     Metrics.set_heap (Metrics.heap s ++ [[]]) s) in *;
  cbn [snd] in Hget; cbn beta iota;
  unfold except_Exception, try_except;
  rewrite bind_run; unfold lift at 1; rewrite Hns;
  rewrite bind_run; unfold lift at 1; rewrite Hdim;
  change (eq_str (VStr "AWS/RDS") "AWS/S3") with false;
  change (eq_str (VStr "AWS/RDS") "AWS/ES") with false;
  change (eq_str (VStr "AWS/RDS") "AWS/RDS") with true;
  cbn beta iota;
  rewrite bind_run; unfold lift at 1; rewrite Hdb;
  rewrite bind_run; unfold lift at 1; cbn [method_startswith]; rewrite Hpre;
  rewrite bind_run; fold arn; rewrite Hget.

(** The lookup when [db_size] is not merged: the answer is a copy of the
    base mapping. *)
Lemma rds_lookup_plain s cached s2 base :
  Metrics.get_tags_from_arn W arn rds_client (Metrics.alloc [] s).2 = (Ok cached, s2) →
  Metrics.heap s2 !! cached = Some base →
  dict_nonempty base && eq_str metric_name "FreeStorageSpace" = false →
  lookup s =
  (Ok (length (Metrics.heap s2)), Metrics.set_heap (Metrics.heap s2 ++ [base]) s2).
Proof.
  intros Hget Hbase Htest. rds_prologue Hget.
  rewrite bind_run, (copy_run cached base) by done.
  rewrite bind_run, (deref_run _ base) by apply lookup_fresh.
  rewrite bind_run. unfold lift at 1. rewrite Hname, Htest.
  reflexivity.
Qed.

(** The lookup when [db_size] is merged: the copy is updated. *)
Lemma rds_lookup_merged s cached s2 base size s4 :
  Metrics.get_tags_from_arn W arn rds_client (Metrics.alloc [] s).2 = (Ok cached, s2) →
  Metrics.heap s2 !! cached = Some base →
  dict_nonempty base && eq_str metric_name "FreeStorageSpace" = true →
  Metrics.get_rds_description W rds_client db_name
    (Metrics.set_heap (Metrics.heap s2 ++ [base]) s2) = (Ok size, s4) →
  lookup s =
  (Ok (length (Metrics.heap s2)),
   Metrics.set_heap (Metrics.heap s2 ++ [dict_set "db_size" size base]) s4).
Proof.
  intros Hget Hbase Htest Hsize. rds_prologue Hget.
  rewrite bind_run, (copy_run cached base) by done.
  rewrite bind_run, (deref_run _ base) by apply lookup_fresh.
  rewrite bind_run. unfold lift at 1. rewrite Hname, Htest.
  rewrite bind_run, Hsize.
  destruct (rds_description_frame W rds_client db_name
              (Metrics.set_heap (Metrics.heap s2 ++ [base]) s2))
    as (v & s' & Hrun & Hheap & _).
  rewrite Hsize in Hrun. injection Hrun as <- <-.
  cbn [Metrics.set_heap Metrics.heap] in Hheap.
  unfold Metrics.update, modify. rewrite bind_run. cbn beta iota.
  rewrite Hheap, alter_fresh. reflexivity.
Qed.
End rds_branch.

Lemma method_get_dict v k dflt x :
  method_get v k dflt = Ok x → ∃ d, v = VDict d ∧ x = default dflt (dict_get k d).
Proof. destruct v; simpl; try done. intros [= <-]. eauto. Qed.

(** The cached tag lookup always answers and leaves the two other caches
    alone. *)
Lemma arn_lookup_frame W arn c s :
  ∃ l s',
    Metrics.get_tags_from_arn W arn c s = (Ok l, s') ∧
    Metrics.rds_cache s' = Metrics.rds_cache s ∧
    Metrics.name_cache s' = Metrics.name_cache s.
Proof.
  pose proof (metrics_get_tags_run W arn c s) as Hrun.
  destruct (cache_get _ _) as [l|].
  - rewrite Hrun. eauto 10.
  - destruct Hrun as [lg ->]. eauto 10.
Qed.

(** [process_metric] on a metric of an expected namespace, from the answer
    of the tag lookup. *)
Lemma process_metric_run W C m namespace region s3c s3p esc dp rdsc rdsp acct s l s' d :
  dict_get "namespace" m = Some namespace →
  existsb (eq_str namespace) Metrics.EXPECTED_NAMESPACES = true →
  Metrics.get_resource_tags_from_metric W (VDict m) region s3c s3p esc dp rdsc rdsp acct s
  = (Ok l, s') →
  Metrics.heap s' !! l = Some d →
  Metrics.process_metric W C (VDict m) region s3c s3p esc dp rdsc rdsp acct s =
  (Ok (if dict_nonempty d then Some (VDict (dict_set "Tags" (VDict d) m)) else None), s').
Proof.
  intros Hns Hexp Hlookup Hd.
  unfold Metrics.process_metric, except_Exception, try_except.
  rewrite bind_run. unfold lift at 1. cbn [method_get]. rewrite Hns.
  cbn [default from_option]. unfold id.
  rewrite Hexp. cbn [negb]. rewrite bind_run, Hlookup.
  rewrite bind_run, (deref_run l d) by done.
  destruct (dict_nonempty d); reflexivity.
Qed.

(** ** The size of the database *)

(** C4: for a metric of namespace [AWS/RDS] whose [DBInstanceIdentifier]
    starts with the database prefix, with [base] the mapping that the cached
    tag lookup answers: if the metric is [FreeStorageSpace] and [base] is not
    empty, the mapping answered has a [db_size] key; if [base] is empty, the
    description lookup is not called (its cache counters and the calls to AWS
    stay as they were) and [process_metric] drops the metric. *)
Theorem rds_metric_db_size W C metric region s3c s3p esc dp rdsc rdsp acct
    dimensions metric_name db_name s cached s2 base :
  method_get metric "namespace" VNone = Ok (VStr "AWS/RDS") →
  method_get metric "dimensions" (VDict []) = Ok dimensions →
  method_get dimensions "DBInstanceIdentifier" VNone = Ok (VStr db_name) →
  startswith db_name rdsp = true →
  method_get metric "metric_name" VNone = Ok metric_name →
  Metrics.get_tags_from_arn W (rds_arn region acct db_name) rdsc
    (Metrics.alloc [] s).2 = (Ok cached, s2) →
  Metrics.heap s2 !! cached = Some base →
  (eq_str metric_name "FreeStorageSpace" = true →
   dict_nonempty base = true →
   ∃ l s' d,
     Metrics.get_resource_tags_from_metric W metric region s3c s3p esc dp rdsc rdsp acct s
     = (Ok l, s') ∧
     Metrics.heap s' !! l = Some d ∧
     dict_mem "db_size" d = true) ∧
  (dict_nonempty base = false →
   ∃ l s',
     Metrics.get_resource_tags_from_metric W metric region s3c s3p esc dp rdsc rdsp acct s
     = (Ok l, s') ∧
     Metrics.heap s' !! l = Some [] ∧
     Metrics.rds_cache s' = Metrics.rds_cache s ∧
     Metrics.calls s' = Metrics.calls s2 ∧
     Metrics.process_metric W C metric region s3c s3p esc dp rdsc rdsp acct s
     = (Ok None, s')).
Proof.
  unfold rds_arn. intros Hns Hdim Hdb Hpre Hname Hget Hbase. split.
  - intros Hfree Hne.
    destruct (rds_description_frame W rdsc db_name
                (Metrics.set_heap (Metrics.heap s2 ++ [base]) s2))
      as (size & s4 & Hsize & Hheap & _).
    eexists _, _, _. split.
    + eapply rds_lookup_merged; eauto. by rewrite Hne, Hfree.
    + cbn [Metrics.set_heap Metrics.heap]. split; [apply lookup_fresh|].
      apply dict_mem_set.
  - intros Hempty.
    assert (base = []) as -> by (by destruct base).
    assert (Metrics.get_resource_tags_from_metric W metric region s3c s3p esc dp
              rdsc rdsp acct s
            = (Ok (length (Metrics.heap s2)),
               Metrics.set_heap (Metrics.heap s2 ++ [[]]) s2)) as Hrun.
    { eapply rds_lookup_plain; eauto. }
    eexists _, _. split; [exact Hrun|].
    cbn [Metrics.set_heap Metrics.heap Metrics.rds_cache Metrics.calls].
    split; [apply lookup_fresh|].
    destruct (arn_lookup_frame W (rds_arn region acct db_name) rdsc
                (Metrics.alloc [] s).2) as (l0 & s0 & Hrun0 & Hrds & _).
    unfold rds_arn in Hrun0.
    rewrite Hget in Hrun0. injection Hrun0 as <- <-.
    split; [exact Hrds|]. split; [done|].
    apply method_get_dict in Hns as (m & -> & Hns).
    destruct (dict_get "namespace" m) as [namespace|] eqn:Hm; [|done].
    simpl in Hns. subst namespace.
    rewrite (process_metric_run W C m (VStr "AWS/RDS") _ _ _ _ _ _ _ _ _ _ _ []
               Hm eq_refl Hrun) by apply lookup_fresh.
    reflexivity.
Qed.

Lemma rds_metric_db_size_witness :
  (∃ l s' d,
     Metrics.get_resource_tags_from_metric Scenario.aws_dev Scenario.metric
       (Some "us-gov-west-1") Scenario.s3 "development-cg-" Scenario.es "cg-broker-dev-"
       Scenario.rds "cg-aws-broker-dev" (Some "123456") Metrics.initial_state
     = (Ok l, s') ∧
     Metrics.heap s' !! l = Some d ∧
     dict_mem "db_size" d = true) ∧
  (∃ l s',
     Metrics.get_resource_tags_from_metric Scenario.aws_dev Scenario.metric_untagged
       (Some "us-gov-west-1") Scenario.s3 "development-cg-" Scenario.es "cg-broker-dev-"
       Scenario.rds "cg-aws-broker-dev" (Some "123456") Metrics.initial_state
     = (Ok l, s') ∧
     Metrics.heap s' !! l = Some [] ∧
     Metrics.rds_cache s' = Metrics.rds_cache Metrics.initial_state ∧
     Metrics.calls s' = [ListTagsForResource Scenario.rds Scenario.arn_untagged] ∧
     Metrics.process_metric Scenario.aws_dev Scenario.codecs_dev Scenario.metric_untagged
       (Some "us-gov-west-1") Scenario.s3 "development-cg-" Scenario.es "cg-broker-dev-"
       Scenario.rds "cg-aws-broker-dev" (Some "123456") Metrics.initial_state
     = (Ok None, s')).
Proof.
  split.
  - refine (proj1 (rds_metric_db_size Scenario.aws_dev Scenario.codecs_dev
                     Scenario.metric (Some "us-gov-west-1") Scenario.s3 "development-cg-"
                     Scenario.es "cg-broker-dev-" Scenario.rds "cg-aws-broker-dev"
                     (Some "123456")
                     (VDict [("DBInstanceIdentifier", VStr "cg-aws-broker-dev-test")])
                     (VStr "FreeStorageSpace") "cg-aws-broker-dev-test"
                     Metrics.initial_state 1
                     (Metrics.get_tags_from_arn Scenario.aws_dev Scenario.arn_test
                        Scenario.rds (Metrics.alloc [] Metrics.initial_state).2).2
                     [("Organization GUID", VStr "x"); ("Owner", VStr "team")]
                     _ _ _ _ _ _ _) _ _);
      vm_compute; reflexivity.
  - refine (proj2 (rds_metric_db_size Scenario.aws_dev Scenario.codecs_dev
                     Scenario.metric_untagged (Some "us-gov-west-1") Scenario.s3
                     "development-cg-" Scenario.es "cg-broker-dev-" Scenario.rds
                     "cg-aws-broker-dev" (Some "123456")
                     (VDict [("DBInstanceIdentifier", VStr "cg-aws-broker-dev-untagged")])
                     (VStr "FreeStorageSpace") "cg-aws-broker-dev-untagged"
                     Metrics.initial_state 1
                     (Metrics.get_tags_from_arn Scenario.aws_dev Scenario.arn_untagged
                        Scenario.rds (Metrics.alloc [] Metrics.initial_state).2).2
                     [] _ _ _ _ _ _ _) _);
      vm_compute; reflexivity.
Defined.

(** ** A description that cannot be read *)

Lemma described_failure W c db_name e :
  describe_db_instances W c db_name = Raise e → described W c db_name = VNone.
Proof. intros H. unfold described. by rewrite H. Qed.

Lemma strip_stream_keys m s :
  foldM (λ metric key, lift (Metrics.method_pop metric key)) (VDict m)
    Metrics.default_keys_to_remove s
  = (Ok (VDict (without_stream_keys m)), s : Metrics.state).
Proof. reflexivity. Qed.

(** The dimensions of a metric that names its database are a dictionary
    stored under ["dimensions"]. *)
Lemma dimensions_present m dimensions db_name :
  method_get (VDict m) "dimensions" (VDict []) = Ok dimensions →
  method_get dimensions "DBInstanceIdentifier" VNone = Ok (VStr db_name) →
  ∃ dd, dimensions = VDict dd ∧ dict_get "dimensions" m = Some (VDict dd).
Proof.
  simpl. intros [= <-] Hdb.
  destruct (dict_get "dimensions" m) as [dims|]; simpl in *.
  - destruct dims; try done. eauto.
  - done.
Qed.

(** C10: when [describe_db_instances] fails for a database whose
    description is not cached yet, [get_rds_description] answers [None] and
    caches it; a [FreeStorageSpace] metric of that database with a non-empty
    base mapping gets [db_size: None] among its tags, and the record that
    holds it is answered [Ok] with the metric, tags included, as its data. *)
Theorem rds_description_failure_gives_db_size_none
    W C cfg record payload line m0 dimensions db_name e s cached s2 base outs :
  describe_db_instances W (Metrics.rds_client cfg) db_name = Raise e →
  cache_get (Metrics.rds_client cfg, db_name) (entries (Metrics.rds_cache s)) = None →
  b64decode C (data record) = Ok payload →
  splitlines (strip payload) = [line] →
  json_loads C line = Ok (VDict m0) →
  method_get (VDict (without_stream_keys m0)) "namespace" VNone = Ok (VStr "AWS/RDS") →
  method_get (VDict (without_stream_keys m0)) "dimensions" (VDict []) = Ok dimensions →
  method_get dimensions "DBInstanceIdentifier" VNone = Ok (VStr db_name) →
  startswith db_name (Metrics.rds_prefix cfg) = true →
  method_get (VDict (without_stream_keys m0)) "metric_name" VNone
  = Ok (VStr "FreeStorageSpace") →
  Metrics.get_tags_from_arn W
    (rds_arn (Metrics.region cfg) (Metrics.account_id cfg) db_name)
    (Metrics.rds_client cfg) (Metrics.alloc [] s).2 = (Ok cached, s2) →
  Metrics.heap s2 !! cached = Some base →
  dict_nonempty base = true →
  (∃ s',
     Metrics.get_rds_description W (Metrics.rds_client cfg) db_name s = (Ok VNone, s') ∧
     cache_get (Metrics.rds_client cfg, db_name) (entries (Metrics.rds_cache s'))
     = Some VNone) ∧
  (∃ l s',
     Metrics.get_resource_tags_from_metric W (VDict (without_stream_keys m0))
       (Metrics.region cfg) (Metrics.s3_client cfg) (Metrics.s3_prefix cfg)
       (Metrics.es_client cfg) (Metrics.domain_prefix cfg)
       (Metrics.rds_client cfg) (Metrics.rds_prefix cfg) (Metrics.account_id cfg) s
     = (Ok l, s') ∧
     Metrics.heap s' !! l = Some (dict_set "db_size" VNone base)) ∧
  (∃ o m s',
     Metrics.process_record W C cfg outs record s = (Ok (outs ++ [o]), s') ∧
     out_recordId o = recordId record ∧
     out_result o = ResultOk ∧
     out_data o = b64encode C (json_dumps C m +:+ LF) ∧
     subscript m "Tags" = Ok (VDict (dict_set "db_size" VNone base))).
Proof.
  intros Hfail Hmiss Hb64 Hlines Hloads Hns Hdim Hdb Hpre Hname Hget Hbase Hne.
  (* the description lookup, in the state it is called in *)
  destruct (arn_lookup_frame W
              (rds_arn (Metrics.region cfg) (Metrics.account_id cfg) db_name)
              (Metrics.rds_client cfg) (Metrics.alloc [] s).2)
    as (l0 & s0 & Hrun0 & Hrds & _).
  rewrite Hget in Hrun0. injection Hrun0 as <- <-.
  pose proof (rds_description_run W (Metrics.rds_client cfg) db_name
                (Metrics.set_heap (Metrics.heap s2 ++ [base]) s2)) as Hdesc.
  cbn [Metrics.set_heap Metrics.rds_cache] in Hdesc.
  rewrite Hrds in Hdesc. cbn [Metrics.alloc Metrics.set_heap Metrics.rds_cache snd] in Hdesc.
  rewrite Hmiss in Hdesc. destruct Hdesc as [lg Hdesc].
  rewrite (described_failure _ _ _ e) in Hdesc by done.
  (* the tag lookup *)
  assert (∃ s4,
            Metrics.get_resource_tags_from_metric W (VDict (without_stream_keys m0))
              (Metrics.region cfg) (Metrics.s3_client cfg) (Metrics.s3_prefix cfg)
              (Metrics.es_client cfg) (Metrics.domain_prefix cfg)
              (Metrics.rds_client cfg) (Metrics.rds_prefix cfg) (Metrics.account_id cfg) s
            = (Ok (length (Metrics.heap s2)),
               Metrics.set_heap (Metrics.heap s2 ++ [dict_set "db_size" VNone base]) s4))
    as [s4 Hlookup].
  { eexists. eapply rds_lookup_merged; eauto.
    rewrite Hne. reflexivity. }
  split; [|split].
  - pose proof (rds_description_run W (Metrics.rds_client cfg) db_name s) as Hfirst.
    rewrite Hmiss in Hfirst. destruct Hfirst as [lg' Hfirst].
    rewrite (described_failure _ _ _ e) in Hfirst by done.
    eexists. split; [exact Hfirst|].
    cbn [Metrics.rds_cache entries]. apply cache_get_take_head.
  - eexists _, _. split; [exact Hlookup|].
    cbn [Metrics.set_heap Metrics.heap]. apply lookup_fresh.
  - destruct (dimensions_present _ _ _ Hdim Hdb) as (dd & -> & Hdims).
    assert (dict_get "namespace" (without_stream_keys m0) = Some (VStr "AWS/RDS"))
      as Hnamespace.
    { simpl in Hns. destruct (dict_get "namespace" _); simpl in Hns; congruence. }
    eexists _, _, _. split.
    + unfold Metrics.process_record.
      rewrite bind_run. unfold lift at 1. rewrite Hb64.
      rewrite bind_run, Hlines, foldM_cons, bind_run.
      unfold Metrics.process_line.
      rewrite bind_run. unfold lift at 1. rewrite Hloads.
      rewrite bind_run, strip_stream_keys.
      rewrite bind_run.
      rewrite (process_metric_run W C _ (VStr "AWS/RDS") _ _ _ _ _ _ _ _ _ _ _
                 (dict_set "db_size" VNone base) Hnamespace eq_refl Hlookup)
        by apply lookup_fresh.
      rewrite dict_set_nonempty.
      rewrite bind_run. unfold lift at 1. cbn [subscript].
      rewrite dict_get_set_ne, Hdims by done.
      rewrite bind_run. unfold lift at 1. cbn [Metrics.method_pop].
      rewrite bind_run. unfold lift at 1. cbn [Metrics.setitem].
      unfold mret at 1, M_ret at 1. rewrite foldM_nil.
      cbn beta iota. rewrite bind_run.
      unfold Metrics.logger, modify. cbn beta iota.
      unfold mret, M_ret. reflexivity.
    + cbn [out_recordId out_result out_data]. split; [done|]. split; [done|].
      split; [reflexivity|].
      cbn [subscript]. rewrite dict_get_set_ne by done.
      by rewrite dict_get_set_eq.
Qed.

Lemma rds_description_failure_gives_db_size_none_witness :
  let cfg := Scenario.metrics_cfg in
  let base := [("Organization GUID", VStr "y")] in
  let metric :=
    VDict (without_stream_keys
             [("namespace", VStr "AWS/RDS"); ("metric_name", VStr "FreeStorageSpace");
              ("dimensions",
               VDict [("DBInstanceIdentifier", VStr "cg-aws-broker-dev-gone")]);
              ("timestamp", VInt 1759774467000)]) in
  (∃ s',
     Metrics.get_rds_description Scenario.aws_dev Scenario.rds "cg-aws-broker-dev-gone"
       Metrics.initial_state = (Ok VNone, s') ∧
     cache_get (Scenario.rds, "cg-aws-broker-dev-gone") (entries (Metrics.rds_cache s'))
     = Some VNone) ∧
  (∃ l s',
     Metrics.get_resource_tags_from_metric Scenario.aws_dev metric
       (Metrics.region cfg) (Metrics.s3_client cfg) (Metrics.s3_prefix cfg)
       (Metrics.es_client cfg) (Metrics.domain_prefix cfg)
       (Metrics.rds_client cfg) (Metrics.rds_prefix cfg) (Metrics.account_id cfg)
       Metrics.initial_state
     = (Ok l, s') ∧
     Metrics.heap s' !! l = Some (dict_set "db_size" VNone base)) ∧
  (∃ o m s',
     Metrics.process_record Scenario.aws_dev Scenario.codecs_dev cfg []
       Scenario.record_metric_gone Metrics.initial_state = (Ok ([] ++ [o]), s') ∧
     out_recordId o = recordId Scenario.record_metric_gone ∧
     out_result o = ResultOk ∧
     out_data o = b64encode Scenario.codecs_dev (json_dumps Scenario.codecs_dev m +:+ LF) ∧
     subscript m "Tags" = Ok (VDict (dict_set "db_size" VNone base))).
Proof.
  intros cfg base metric.
  refine (rds_description_failure_gives_db_size_none
            Scenario.aws_dev Scenario.codecs_dev cfg Scenario.record_metric_gone
            (Scenario.line_metric_gone +:+ LF) Scenario.line_metric_gone
            [("namespace", VStr "AWS/RDS"); ("metric_name", VStr "FreeStorageSpace");
             ("dimensions",
              VDict [("DBInstanceIdentifier", VStr "cg-aws-broker-dev-gone")]);
             ("timestamp", VInt 1759774467000)]
            (VDict [("DBInstanceIdentifier", VStr "cg-aws-broker-dev-gone")])
            "cg-aws-broker-dev-gone" (Exn ClientError "DBInstanceNotFound")
            Metrics.initial_state 1
            (Metrics.get_tags_from_arn Scenario.aws_dev Scenario.arn_gone
               Scenario.rds (Metrics.alloc [] Metrics.initial_state).2).2
            base [] _ _ _ _ _ _ _ _ _ _ _ _ _);
    vm_compute; reflexivity.
Defined.

(** ** The subscription provisioner *)

Lemma startswith_nonempty name c p :
  startswith name (String c p) = true → name ≠ "".
Proof. intros H ->. discriminate H. Qed.

Lemma method_get_raises v k dflt e :
  method_get v k dflt = Raise e → exn_cls e = AttributeError.
Proof. destruct v; simpl; by intros [= <-]. Qed.

(** C9 (amended): with its configuration in place (a [logs] client,
    [FIREHOSE_ARN], [ROLE_ARN], a known [ENVIRONMENT]), the provisioner
    raises a [RuntimeError] when the log group matches the database prefix
    and AWS answers that the subscription filter already exists.  When the
    three [get]s of the event reach no [logGroupName], or reach a false
    value (null, an empty string) or a name outside the prefix, it returns
    without raising and without calling AWS.  An event whose [detail] or
    [requestParameters] is not an object, or whose [logGroupName] is a true
    value that is not a string, makes it raise an [AttributeError], with
    nothing sent and nothing logged. *)
Theorem provisioner_conflict_raises_and_mismatch_is_noop
    W C environ event logs firehose role prefix s :
  boto3_client W "logs" None = Ok logs →
  environ !! "FIREHOSE_ARN" = Some firehose →
  environ !! "ROLE_ARN" = Some role →
  Subscription.make_prefixes environ = Ok prefix →
  (∀ name e,
     Subscription.log_group_name_of event = Ok (VStr name) →
     startswith name ("/aws/rds/instance/" +:+ prefix) = true →
     put_subscription_filter W logs
       {| logGroupName := name; filterName := "firehose_for_opensearch";
          filterPattern := ""; destinationArn := firehose; roleArn := role |}
     = Raise e →
     exn_cls e = ResourceAlreadyExistsException →
     ∃ s',
       Subscription.lambda_handler W C environ event s =
       (Raise (Exn RuntimeError ("Subscription filter already exists for " +:+ name)),
        s')) ∧
  (∀ v,
     Subscription.log_group_name_of event = Ok v →
     Subscription.truthy v = false ∨
     (∃ name, v = VStr name ∧
              startswith name ("/aws/rds/instance/" +:+ prefix) = false) →
     ∃ s',
       Subscription.lambda_handler W C environ event s = (Ok tt, s') ∧
       Subscription.calls s' = Subscription.calls s) ∧
  (∀ e,
     Subscription.log_group_name_of event = Raise e →
     exn_cls e = AttributeError ∧
     Subscription.lambda_handler W C environ event s = (Raise e, s)) ∧
  (∀ v,
     Subscription.log_group_name_of event = Ok v →
     Subscription.truthy v = true →
     (∀ name, v ≠ VStr name) →
     ∃ msg,
       Subscription.lambda_handler W C environ event s =
       (Raise (Exn AttributeError msg), s)).
Proof.
  intros Hclient Hfire Hrole Hprefix.
  assert (∀ r,
            Subscription.log_group_name_of event = r →
            Subscription.lambda_handler W C environ event s =
            (lift r ≫= λ log_group_name,
             (if Subscription.truthy log_group_name then
                lift (method_startswith log_group_name
                        ("/aws/rds/instance/" +:+ prefix))
              else mret false) ≫= λ applies,
             match applies, log_group_name with
             | true, VStr name =>
                 try_except
                   (Subscription.call
                      (PutSubscriptionFilter logs
                         {| logGroupName := name;
                            filterName := "firehose_for_opensearch";
                            filterPattern := ""; destinationArn := firehose;
                            roleArn := role |})
                      (put_subscription_filter W logs
                         {| logGroupName := name;
                            filterName := "firehose_for_opensearch";
                            filterPattern := ""; destinationArn := firehose;
                            roleArn := role |});;
                    Subscription.logger INFO ("subscription filter made for " +:+ name))
                   (λ e,
                      if is_class ResourceAlreadyExistsException e then
                        Some (Subscription.logger INFO
                                ("Subscription filter already exists for " +:+ name
                                 +:+ ", error: " +:+ exn_msg e);;
                              raise (Exn RuntimeError
                                       ("Subscription filter already exists for "
                                        +:+ name)))
                      else None)
             | _, _ =>
                 Subscription.logger INFO
                   ("log group: " +:+ str C log_group_name +:+ " does not apply")
             end) s) as Hhead.
  { intros r <-. unfold Subscription.lambda_handler.
    rewrite bind_run. unfold lift at 1. rewrite Hclient.
    rewrite bind_run. unfold lift at 1, Subscription.environ_item. rewrite Hfire.
    rewrite bind_run. unfold lift at 1. rewrite Hrole.
    rewrite bind_run. unfold lift at 1. rewrite Hprefix.
    reflexivity. }
  split; [|split; [|split]].
  - intros name e Hname Hstarts Hput Hcls.
    rewrite (Hhead _ Hname).
    rewrite bind_run. unfold lift at 1.
    rewrite bind_run. cbn [Subscription.truthy].
    rewrite bool_decide_eq_false_2 by (by eapply startswith_nonempty).
    cbn [negb]. unfold lift at 1. cbn [method_startswith]. rewrite Hstarts.
    unfold try_except. rewrite bind_run.
    unfold Subscription.call at 1. rewrite Hput.
    unfold is_class. rewrite bool_decide_eq_true_2 by done.
    rewrite bind_run. unfold Subscription.logger, modify, raise.
    eauto.
  - intros v Hv Hnot. rewrite (Hhead _ Hv).
    rewrite bind_run. unfold lift at 1. rewrite bind_run.
    destruct Hnot as [Hfalse|(name & -> & Hstarts)].
    + rewrite Hfalse. unfold mret at 1, M_ret at 1. cbn beta iota.
      unfold Subscription.logger, modify. eauto.
    + destruct (Subscription.truthy (VStr name)).
      * unfold lift at 1. cbn [method_startswith]. rewrite Hstarts.
        unfold Subscription.logger, modify. eauto.
      * unfold mret at 1, M_ret at 1. cbn beta iota.
        unfold Subscription.logger, modify. eauto.
  - intros e He. split.
    + revert He. unfold Subscription.log_group_name_of.
      destruct (method_get event "detail" (VDict [])) as [detail|e1] eqn:H1.
      2:{ intros [= <-]. by eapply method_get_raises. }
      destruct (method_get detail "requestParameters" (VDict [])) as [params|e2] eqn:H2.
      2:{ intros [= <-]. by eapply method_get_raises. }
      apply method_get_raises.
    + rewrite (Hhead _ He). rewrite bind_run. reflexivity.
  - intros v Hv Htrue Hnostr. rewrite (Hhead _ Hv).
    rewrite bind_run. unfold lift at 1. rewrite bind_run, Htrue.
    unfold lift at 1.
    destruct v; cbn [method_startswith]; eauto.
    by destruct (Hnostr s0).
Qed.

Lemma provisioner_conflict_raises_and_mismatch_is_noop_witness :
  (∃ s',
     Subscription.lambda_handler Scenario.aws_dev Scenario.codecs_dev Scenario.environ
       (VDict [("detail",
                VDict [("requestParameters",
                        VDict [("logGroupName",
                                VStr "/aws/rds/instance/cg-aws-broker-dev-test")])])])
       Subscription.initial_state =
     (Raise (Exn RuntimeError
               ("Subscription filter already exists for "
                +:+ "/aws/rds/instance/cg-aws-broker-dev-test")), s')) ∧
  (∃ s',
     Subscription.lambda_handler Scenario.aws_dev Scenario.codecs_dev Scenario.environ
       (VDict [("detail", VDict [("requestParameters", VDict [])])])
       Subscription.initial_state = (Ok tt, s') ∧
     Subscription.calls s' = Subscription.calls Subscription.initial_state) ∧
  (∃ msg,
     Subscription.lambda_handler Scenario.aws_dev Scenario.codecs_dev Scenario.environ
       (VDict [("detail", VDict [("requestParameters",
                                  VDict [("logGroupName", VInt 7)])])])
       Subscription.initial_state =
     (Raise (Exn AttributeError msg), Subscription.initial_state)).
Proof.
  pose proof (λ event,
                provisioner_conflict_raises_and_mismatch_is_noop
                  Scenario.aws_dev Scenario.codecs_dev Scenario.environ event
                  Scenario.logs
                  "arn:aws-us-gov:firehose:us-gov-west-1:123456:deliverystream/logs"
                  "arn:aws-us-gov:iam::123456:role/subscription"
                  "cg-aws-broker-dev" Subscription.initial_state
                  eq_refl eq_refl eq_refl eq_refl) as Hthm.
  split; [|split].
  - refine (proj1 (Hthm _) "/aws/rds/instance/cg-aws-broker-dev-test"
              (Exn ResourceAlreadyExistsException
                 "The specified subscription filter already exists") _ _ _ _);
      vm_compute; reflexivity.
  - refine (proj1 (proj2 (Hthm _)) VNone _ _); [vm_compute; reflexivity|].
    left. reflexivity.
  - refine (proj2 (proj2 (proj2 (Hthm _))) (VInt 7) _ _ _);
      [vm_compute; reflexivity|reflexivity|done].
Defined.

(** C9 as stated fails: an event whose [detail] is null has no
    [logGroupName], and the handler raises on it; and a provisioner without
    [FIREHOSE_ARN] raises on an event without [logGroupName]. *)
Lemma provisioner_null_detail_raises :
  Subscription.log_group_name_of (VDict [("detail", VNone)])
  = Raise (Exn AttributeError "'NoneType' object has no attribute 'get'") ∧
  (Subscription.lambda_handler Scenario.aws_dev Scenario.codecs_dev Scenario.environ
     (VDict [("detail", VNone)]) Subscription.initial_state).1
  = Raise (Exn AttributeError "'NoneType' object has no attribute 'get'") ∧
  (Subscription.lambda_handler Scenario.aws_dev Scenario.codecs_dev
     (delete "FIREHOSE_ARN" Scenario.environ) (VDict [])
     Subscription.initial_state).1
  = Raise (Exn KeyError "'FIREHOSE_ARN'").
Proof. repeat split; vm_compute; reflexivity. Qed.

(** ** A tag fetch that fails *)

Lemma metrics_fetched_failure W c arn :
  tag_fetch_fails W c arn → metrics_fetched W arn c = [].
Proof.
  intros [[e1 H1] [e2 H2]]. unfold metrics_fetched. rewrite H1, H2.
  by destruct (str_in ":domain/" arn), (str_in ":db:" arn).
Qed.

(** The tag lookup of the metric lambda never raises. *)
Lemma metrics_lookup_total W metric region s3c s3p esc dp rdsc rdsp acct s :
  ∃ l s',
    Metrics.get_resource_tags_from_metric W metric region s3c s3p esc dp rdsc rdsp acct s
    = (Ok l, s').
Proof.
  unfold Metrics.get_resource_tags_from_metric.
  rewrite bind_run. unfold Metrics.alloc at 1. cbn beta iota.
  unfold except_Exception, try_except.
  match goal with |- context [match ?body ?st with _ => _ end] =>
    destruct (body st) as [[l|e] s1] end.
  - eauto.
  - rewrite bind_run. unfold Metrics.logger, modify. cbn beta iota.
    unfold mret, M_ret. eauto.
Qed.

(** A bucket whose tags cannot be fetched: the lookup by name raises, or
    answers a new empty mapping; the heap only grows. *)
Lemma name_lookup_failure W name c e s :
  cache_get (name, "S3", c) (entries (Metrics.name_cache s)) = None →
  get_bucket_tagging W c name = Raise e →
  ∃ r s' k,
    Metrics.get_tags_from_name W name "S3" c s = (r, s') ∧
    Metrics.heap s' = Metrics.heap s ++ k ∧
    match r with
    | Ok l => Metrics.heap s' !! l = Some []
    | Raise _ => True
    end.
Proof.
  intros Hmiss Hfail. unfold Metrics.get_tags_from_name, lru_cache. rewrite Hmiss.
  unfold Metrics.get_tags_from_name_body. rewrite decide_True by done.
  unfold try_except. rewrite bind_run. unfold Metrics.call at 1. rewrite Hfail.
  unfold raise. eexists _, _, []. split; [reflexivity|].
  cbn [Metrics.set_name_cache Metrics.heap]. by rewrite app_nil_r.
Qed.

Lemma process_metric_dropped W C metric namespace region s3c s3p esc dp rdsc rdsp acct
    s l s' :
  method_get metric "namespace" VNone = Ok (VStr namespace) →
  namespace ∈ Metrics.EXPECTED_NAMESPACES →
  Metrics.get_resource_tags_from_metric W metric region s3c s3p esc dp rdsc rdsp acct s
  = (Ok l, s') →
  Metrics.heap s' !! l = Some [] →
  Metrics.process_metric W C metric region s3c s3p esc dp rdsc rdsp acct s
  = (Ok None, s').
Proof.
  intros Hns Hin Hlookup Hempty.
  apply method_get_dict in Hns as (m & -> & Hns).
  destruct (dict_get "namespace" m) as [ns|] eqn:Hm; [|done].
  simpl in Hns. subst ns.
  rewrite (process_metric_run W C m (VStr namespace) _ _ _ _ _ _ _ _ _ _ _ []
             Hm) by done || (unfold Metrics.EXPECTED_NAMESPACES in *;
                              set_unfold; destruct Hin as [->|[->|[->|[]]]];
                              reflexivity).
  reflexivity.
Qed.

Section failing_fetch.
Context (W : aws) (C : codecs) (metric : value) (region : option string).
Context (s3_client : client) (s3_prefix : string).
Context (es_client : client) (domain_prefix : string).
Context (rds_client : client) (rds_prefix : string) (account_id : option string).
Context (dimensions : value) (name : string).

Local Abbreviation lookup :=
  (Metrics.get_resource_tags_from_metric W metric region s3_client s3_prefix
     es_client domain_prefix rds_client rds_prefix account_id).

Hypothesis Hdim : method_get metric "dimensions" (VDict []) = Ok dimensions.

Lemma s3_lookup_failure e s :
  method_get metric "namespace" VNone = Ok (VStr "AWS/S3") →
  method_get dimensions "BucketName" VNone = Ok (VStr name) →
  startswith name s3_prefix = true →
  cache_get (name, "S3", s3_client) (entries (Metrics.name_cache s)) = None →
  get_bucket_tagging W s3_client name = Raise e →
  ∃ l s', lookup s = (Ok l, s') ∧ Metrics.heap s' !! l = Some [].
Proof.
  intros Hns Hname Hpre Hmiss Hfail.
  unfold Metrics.get_resource_tags_from_metric.
  rewrite bind_run. unfold Metrics.alloc at 1. cbn beta iota.
  unfold except_Exception, try_except.
  rewrite bind_run. unfold lift at 1. rewrite Hns.
  rewrite bind_run. unfold lift at 1. rewrite Hdim.
  change (eq_str (VStr "AWS/S3") "AWS/S3") with true. cbn beta iota.
  rewrite bind_run. unfold lift at 1. rewrite Hname.
  rewrite bind_run. unfold lift at 1. cbn [method_startswith]. rewrite Hpre.
  destruct (name_lookup_failure W name s3_client e
              (Metrics.set_heap (Metrics.heap s ++ [[]]) s))
    as (r & s1 & k & -> & Hheap & Hr); [done|done|].
  cbn [Metrics.set_heap Metrics.heap] in Hheap.
  destruct r as [l|e'].
  - eauto.
  - rewrite bind_run. unfold Metrics.logger, modify. cbn beta iota.
    unfold mret, M_ret. eexists _, _. split; [reflexivity|].
    cbn [Metrics.heap]. rewrite Hheap.
    rewrite lookup_app_l by (rewrite length_app; simpl; lia).
    apply lookup_fresh.
Qed.

Lemma es_lookup_failure s :
  method_get metric "namespace" VNone = Ok (VStr "AWS/ES") →
  method_get dimensions "DomainName" VNone = Ok (VStr name) →
  startswith name domain_prefix = true →
  cache_get (es_arn region account_id name, es_client)
    (entries (Metrics.arn_cache s)) = None →
  tag_fetch_fails W es_client (es_arn region account_id name) →
  ∃ l s', lookup s = (Ok l, s') ∧ Metrics.heap s' !! l = Some [].
Proof.
  intros Hns Hname Hpre Hmiss Hfail.
  unfold Metrics.get_resource_tags_from_metric.
  rewrite bind_run. unfold Metrics.alloc at 1. cbn beta iota.
  unfold except_Exception, try_except.
  rewrite bind_run. unfold lift at 1. rewrite Hns.
  rewrite bind_run. unfold lift at 1. rewrite Hdim.
  change (eq_str (VStr "AWS/ES") "AWS/S3") with false.
  change (eq_str (VStr "AWS/ES") "AWS/ES") with true. cbn beta iota.
  rewrite bind_run. unfold lift at 1. rewrite Hname.
  rewrite bind_run. unfold lift at 1. cbn [method_startswith]. rewrite Hpre.
  pose proof (metrics_get_tags_run W (es_arn region account_id name) es_client
                (Metrics.set_heap (Metrics.heap s ++ [[]]) s)) as Hrun.
  cbn [Metrics.set_heap Metrics.arn_cache] in Hrun. rewrite Hmiss in Hrun.
  destruct Hrun as [lg Hrun]. unfold es_arn in Hrun. rewrite Hrun.
  fold (es_arn region account_id name).
  rewrite (metrics_fetched_failure W _ _ Hfail).
  eexists _, _. split; [reflexivity|].
  cbn [Metrics.heap]. apply lookup_fresh.
Qed.

Lemma rds_lookup_failure s :
  method_get metric "namespace" VNone = Ok (VStr "AWS/RDS") →
  method_get dimensions "DBInstanceIdentifier" VNone = Ok (VStr name) →
  startswith name rds_prefix = true →
  cache_get (rds_arn region account_id name, rds_client)
    (entries (Metrics.arn_cache s)) = None →
  tag_fetch_fails W rds_client (rds_arn region account_id name) →
  ∃ l s', lookup s = (Ok l, s') ∧ Metrics.heap s' !! l = Some [].
Proof.
  intros Hns Hname Hpre Hmiss Hfail.
  pose proof (metrics_get_tags_run W (rds_arn region account_id name) rds_client
                (Metrics.alloc [] s).2) as Hrun.
  cbn [Metrics.alloc Metrics.set_heap Metrics.arn_cache snd] in Hrun.
  rewrite Hmiss in Hrun. destruct Hrun as [lg Hrun].
  rewrite (metrics_fetched_failure W _ _ Hfail) in Hrun.
  destruct (method_get_dict _ _ _ _ Hns) as (m & Hm & _).
  eexists _, _. split.
  - eapply (rds_lookup_plain W metric region s3_client s3_prefix es_client
              domain_prefix rds_client rds_prefix account_id dimensions
              (default VNone (dict_get "metric_name" m)) name Hns Hdim Hname Hpre).
    + by rewrite Hm.
    + exact Hrun.
    + cbn [Metrics.heap Metrics.set_heap]. apply lookup_fresh.
    + reflexivity.
  - cbn [Metrics.set_heap Metrics.heap]. apply lookup_fresh.
Qed.
End failing_fetch.

(** C7: the tag lookups never raise, and a tag fetch that fails gives the
    empty mapping: [get_tags_from_arn] of the log lambda answers [{}] when
    [list_tags_for_resource] raises; [get_resource_tags_from_metric] answers
    an empty mapping when the fetch for the bucket, the domain or the
    database of the metric raises (whatever the exception), and
    [process_metric] then drops that metric. *)
Theorem tag_fetch_failure_gives_empty_mapping W C :
  (∀ arn c s, ∃ d s', Cloudwatch.get_tags_from_arn W arn c s = (Ok d, s')) ∧
  (∀ arn c e s,
     list_tags_for_resource W c arn = Raise e →
     cache_get (arn, c) (entries (Cloudwatch.tags_cache s)) = None →
     ∃ s', Cloudwatch.get_tags_from_arn W arn c s = (Ok [], s')) ∧
  (∀ metric region s3c s3p esc dp rdsc rdsp acct s,
     ∃ l s',
       Metrics.get_resource_tags_from_metric W metric region s3c s3p esc dp
         rdsc rdsp acct s = (Ok l, s')) ∧
  (∀ metric region s3c s3p esc dp rdsc rdsp acct dimensions name s,
     method_get metric "dimensions" (VDict []) = Ok dimensions →
     (method_get metric "namespace" VNone = Ok (VStr "AWS/S3") ∧
      method_get dimensions "BucketName" VNone = Ok (VStr name) ∧
      startswith name s3p = true ∧
      cache_get (name, "S3", s3c) (entries (Metrics.name_cache s)) = None ∧
      (∃ e, get_bucket_tagging W s3c name = Raise e)) ∨
     (method_get metric "namespace" VNone = Ok (VStr "AWS/ES") ∧
      method_get dimensions "DomainName" VNone = Ok (VStr name) ∧
      startswith name dp = true ∧
      cache_get (es_arn region acct name, esc) (entries (Metrics.arn_cache s)) = None ∧
      tag_fetch_fails W esc (es_arn region acct name)) ∨
     (method_get metric "namespace" VNone = Ok (VStr "AWS/RDS") ∧
      method_get dimensions "DBInstanceIdentifier" VNone = Ok (VStr name) ∧
      startswith name rdsp = true ∧
      cache_get (rds_arn region acct name, rdsc) (entries (Metrics.arn_cache s)) = None ∧
      tag_fetch_fails W rdsc (rds_arn region acct name)) →
     ∃ l s',
       Metrics.get_resource_tags_from_metric W metric region s3c s3p esc dp
         rdsc rdsp acct s = (Ok l, s') ∧
       Metrics.heap s' !! l = Some [] ∧
       Metrics.process_metric W C metric region s3c s3p esc dp rdsc rdsp acct s
       = (Ok None, s')).
Proof.
  split; [|split; [|split]].
  - intros arn c s.
    pose proof (cloudwatch_get_tags_run W arn c s) as Hrun.
    destruct (cache_get _ _) as [d|].
    + rewrite Hrun. eauto.
    + destruct Hrun as [lg ->]. eauto.
  - intros arn c e s Hfail Hmiss.
    pose proof (cloudwatch_get_tags_run W arn c s) as Hrun.
    rewrite Hmiss in Hrun. destruct Hrun as [lg Hrun].
    assert (cloudwatch_fetched W arn c = []) as Hempty.
    { unfold cloudwatch_fetched. rewrite Hfail. by destruct (str_in _ _). }
    rewrite Hempty in Hrun. eauto.
  - intros. apply metrics_lookup_total.
  - intros metric region s3c s3p esc dp rdsc rdsp acct dimensions name s Hdim Hcase.
    assert (∃ namespace l s',
              method_get metric "namespace" VNone = Ok (VStr namespace) ∧
              namespace ∈ Metrics.EXPECTED_NAMESPACES ∧
              Metrics.get_resource_tags_from_metric W metric region s3c s3p esc dp
                rdsc rdsp acct s = (Ok l, s') ∧
              Metrics.heap s' !! l = Some [])
      as (namespace & l & s' & Hns & Hin & Hlookup & Hempty).
    { unfold Metrics.EXPECTED_NAMESPACES.
      destruct Hcase as [(Hns & Hname & Hpre & Hmiss & e & Hfail)
                        |[(Hns & Hname & Hpre & Hmiss & Hfail)
                         |(Hns & Hname & Hpre & Hmiss & Hfail)]].
      - destruct (s3_lookup_failure W metric region s3c s3p esc dp rdsc rdsp acct
                    dimensions name Hdim e s Hns Hname Hpre Hmiss Hfail)
          as (l & s' & Hlookup & Hempty).
        exists "AWS/S3", l, s'. repeat split; try done. set_solver.
      - destruct (es_lookup_failure W metric region s3c s3p esc dp rdsc rdsp acct
                    dimensions name Hdim s Hns Hname Hpre Hmiss Hfail)
          as (l & s' & Hlookup & Hempty).
        exists "AWS/ES", l, s'. repeat split; try done. set_solver.
      - destruct (rds_lookup_failure W metric region s3c s3p esc dp rdsc rdsp acct
                    dimensions name Hdim s Hns Hname Hpre Hmiss Hfail)
          as (l & s' & Hlookup & Hempty).
        exists "AWS/RDS", l, s'. repeat split; try done. set_solver. }
    exists l, s'. split; [done|]. split; [done|].
    by eapply process_metric_dropped.
Qed.

Lemma tag_fetch_failure_gives_empty_mapping_witness :
  (∃ s',
     Cloudwatch.get_tags_from_arn Scenario.aws_dev Scenario.arn_down Scenario.rds
       Cloudwatch.initial_state = (Ok [], s')) ∧
  (∃ l s',
     Metrics.get_resource_tags_from_metric Scenario.aws_dev
       (VDict [("namespace", VStr "AWS/S3");
               ("dimensions", VDict [("BucketName", VStr "development-cg-bucket")])])
       (Some "us-gov-west-1") Scenario.s3 "development-cg-" Scenario.es "cg-broker-dev-"
       Scenario.rds "cg-aws-broker-dev" (Some "123456") Metrics.initial_state
     = (Ok l, s') ∧
     Metrics.heap s' !! l = Some [] ∧
     Metrics.process_metric Scenario.aws_dev Scenario.codecs_dev
       (VDict [("namespace", VStr "AWS/S3");
               ("dimensions", VDict [("BucketName", VStr "development-cg-bucket")])])
       (Some "us-gov-west-1") Scenario.s3 "development-cg-" Scenario.es "cg-broker-dev-"
       Scenario.rds "cg-aws-broker-dev" (Some "123456") Metrics.initial_state
     = (Ok None, s')) ∧
  (∃ l s',
     Metrics.get_resource_tags_from_metric Scenario.aws_dev
       (VDict [("namespace", VStr "AWS/RDS");
               ("dimensions",
                VDict [("DBInstanceIdentifier", VStr "cg-aws-broker-dev-down")])])
       (Some "us-gov-west-1") Scenario.s3 "development-cg-" Scenario.es "cg-broker-dev-"
       Scenario.rds "cg-aws-broker-dev" (Some "123456") Metrics.initial_state
     = (Ok l, s') ∧
     Metrics.heap s' !! l = Some [] ∧
     Metrics.process_metric Scenario.aws_dev Scenario.codecs_dev
       (VDict [("namespace", VStr "AWS/RDS");
               ("dimensions",
                VDict [("DBInstanceIdentifier", VStr "cg-aws-broker-dev-down")])])
       (Some "us-gov-west-1") Scenario.s3 "development-cg-" Scenario.es "cg-broker-dev-"
       Scenario.rds "cg-aws-broker-dev" (Some "123456") Metrics.initial_state
     = (Ok None, s')).
Proof.
  destruct (tag_fetch_failure_gives_empty_mapping Scenario.aws_dev Scenario.codecs_dev)
    as (_ & Hlog & _ & Hmetric).
  split; [|split].
  - apply (Hlog Scenario.arn_down Scenario.rds (Exn ClientError "AccessDenied"));
      vm_compute; reflexivity.
  - apply (Hmetric _ _ _ _ _ _ _ _ _
             (VDict [("BucketName", VStr "development-cg-bucket")])
             "development-cg-bucket").
    + vm_compute; reflexivity.
    + left. repeat split; try (vm_compute; reflexivity).
      exists (Exn ClientError "AccessDenied"). vm_compute; reflexivity.
  - apply (Hmetric _ _ _ _ _ _ _ _ _
             (VDict [("DBInstanceIdentifier", VStr "cg-aws-broker-dev-down")])
             "cg-aws-broker-dev-down").
    + vm_compute; reflexivity.
    + right; right. repeat split; try (vm_compute; reflexivity).
      * exists (Exn ClientError "AccessDeniedException"). vm_compute; reflexivity.
      * exists (Exn ClientError "AccessDenied"). vm_compute; reflexivity.
Defined.

(** ** The cached mapping is not the one that gets [db_size] *)

Section keeps_facts.
Context (W : aws).

Lemma prefix_lookup (h h' : list dict) l d :
  h `prefix_of` h' → h !! l = Some d → h' !! l = Some d.
Proof. intros [k ->] H. by apply lookup_app_l_Some. Qed.

(** A step that extends the heap and leaves the tag cache alone *)
Lemma keeps_extension {A} (m : M Metrics.state A) :
  (∀ s r s', m s = (r, s') →
     Metrics.arn_cache s' = Metrics.arn_cache s ∧
     ∃ k, Metrics.heap s' = Metrics.heap s ++ k) →
  keeps W m.
Proof.
  intros Hm s r s' Hrun. destruct (Hm s r s' Hrun) as (Hcache & k & Hheap).
  split.
  - rewrite Hheap. by apply prefix_app_r.
  - intros Hinv arn c l. rewrite Hcache, Hheap. intros Hget.
    apply lookup_app_l_Some. by apply Hinv.
Qed.

Lemma keeps_ret {A} (a : A) : keeps W (mret a).
Proof.
  apply keeps_extension. intros s r s' [= <- <-]. split; [done|].
  exists []. by rewrite app_nil_r.
Qed.

Lemma keeps_lift {A} (r : result A) : keeps W (lift r).
Proof.
  apply keeps_extension. intros s r' s' [= <- <-]. split; [done|].
  exists []. by rewrite app_nil_r.
Qed.

Lemma keeps_raise {A} e : keeps W (raise e : M Metrics.state A).
Proof.
  apply keeps_extension. intros s r' s' [= <- <-]. split; [done|].
  exists []. by rewrite app_nil_r.
Qed.

Lemma keeps_bind {A B} (m : M Metrics.state A) (f : A → M Metrics.state B) :
  keeps W m → (∀ a, keeps W (f a)) → keeps W (m ≫= f).
Proof.
  intros Hm Hf s r s'. rewrite bind_run.
  destruct (m s) as [[a|e] s1] eqn:Hrun.
  - intros Hrest. destruct (Hm _ _ _ Hrun) as [Hp1 Hi1].
    destruct (Hf a _ _ _ Hrest) as [Hp2 Hi2].
    split; [by etrans|auto].
  - intros [= <- <-]. by apply (Hm _ _ _ Hrun).
Qed.

Lemma keeps_try_except {A} (body : M Metrics.state A) handler :
  keeps W body → (∀ e h, handler e = Some h → keeps W h) →
  keeps W (try_except body handler).
Proof.
  intros Hbody Hhandler s r s'. unfold try_except.
  destruct (body s) as [[a|e] s1] eqn:Hrun.
  - intros [= <- <-]. by apply (Hbody _ _ _ Hrun).
  - destruct (Hbody _ _ _ Hrun) as [Hp1 Hi1].
    destruct (handler e) as [h|] eqn:Hh.
    + intros Hrest. destruct (Hhandler e h Hh _ _ _ Hrest) as [Hp2 Hi2].
      split; [by etrans|auto].
    + intros [= <- <-]. auto.
Qed.

Lemma keeps_except_Exception {A} (body : M Metrics.state A) h :
  keeps W body → (∀ e, keeps W (h e)) → keeps W (except_Exception body h).
Proof.
  intros Hbody Hh. apply keeps_try_except; [done|].
  intros e h' [= <-]. apply Hh.
Qed.

Lemma keeps_logger lv msg : keeps W (Metrics.logger lv msg).
Proof.
  apply keeps_extension. intros s r s' [= <- <-]. split; [done|].
  exists []. by rewrite app_nil_r.
Qed.

Lemma keeps_call {A} c (answer : result A) : keeps W (Metrics.call c answer).
Proof.
  apply keeps_extension. intros s r s' [= <- <-]. split; [done|].
  exists []. by rewrite app_nil_r.
Qed.

Lemma keeps_alloc d : keeps W (Metrics.alloc d).
Proof.
  apply keeps_extension. intros s r s' [= <- <-]. split; [done|]. by exists [d].
Qed.

Lemma keeps_deref l : keeps W (Metrics.deref l).
Proof.
  apply keeps_extension. intros s r s' [= <- <-]. split; [done|].
  exists []. by rewrite app_nil_r.
Qed.

Lemma keeps_get_rds_description c db_name :
  keeps W (Metrics.get_rds_description W c db_name).
Proof.
  apply keeps_extension. intros s r s' Hrun.
  destruct (rds_description_frame W c db_name s) as (v & s1 & Hrun1 & Hheap & Hcache & _).
  rewrite Hrun in Hrun1. injection Hrun1 as -> <-.
  split; [done|]. exists []. by rewrite app_nil_r.
Qed.

Lemma keeps_get_tags_from_name name type c :
  keeps W (Metrics.get_tags_from_name W name type c).
Proof.
  apply keeps_extension. intros s r s'.
  unfold Metrics.get_tags_from_name, lru_cache.
  destruct (cache_get _ (entries (Metrics.name_cache s))) as [l|].
  { intros [= <- <-]. split; [done|]. exists []. by rewrite app_nil_r. }
  unfold Metrics.get_tags_from_name_body.
  destruct (decide (type = "S3")) as [Htype|Htype].
  - unfold try_except. rewrite bind_run. unfold Metrics.call at 1.
    destruct (get_bucket_tagging W c name) as [response|e]; cbn beta iota.
    + unfold Metrics.alloc.
      cbn [Metrics.set_heap Metrics.set_name_cache Metrics.heap Metrics.name_cache
           Metrics.arn_cache Metrics.rds_cache Metrics.calls Metrics.logged entries].
      destruct (cache_get _ _); intros [= <- <-];
        (split; [done|]); by eexists [_].
    + unfold raise. intros [= <- <-]. split; [done|]. exists []. by rewrite app_nil_r.
  - unfold Metrics.alloc.
    cbn [Metrics.set_heap Metrics.set_name_cache Metrics.heap Metrics.name_cache
         Metrics.arn_cache Metrics.rds_cache Metrics.calls Metrics.logged entries].
    destruct (cache_get _ _); intros [= <- <-];
      (split; [done|]); by eexists [_].
Qed.

(** The cached tag lookup: a hit reorders the entries, a miss stores a new
    object that holds what was fetched. *)
Lemma keeps_get_tags_from_arn arn c : keeps W (Metrics.get_tags_from_arn W arn c).
Proof.
  intros s r s' Hrun.
  pose proof (metrics_get_tags_run W arn c s) as Hspec.
  destruct (cache_get (arn, c) _) as [l|] eqn:Hget.
  - rewrite Hrun in Hspec. injection Hspec as -> ->.
    cbn [Metrics.set_arn_cache Metrics.heap]. split; [done|].
    intros Hinv arn' c' l'. cbn [Metrics.arn_cache Metrics.heap entries].
    rewrite (cache_get_touch _ _ _ _ Hget). apply Hinv.
  - destruct Hspec as [lg Hspec]. rewrite Hrun in Hspec. injection Hspec as -> ->.
    cbn [Metrics.heap]. split; [by apply prefix_app_r|].
    intros Hinv arn' c' l'. cbn [Metrics.arn_cache Metrics.heap entries].
    intros Hget'.
    change (cache_get (arn', c')
              (take 256 ((arn, c, length (Metrics.heap s))
                         :: entries (Metrics.arn_cache s))) = Some l') in Hget'.
    apply cache_get_take in Hget'. simpl in Hget'.
    destruct (decide ((arn', c') = (arn, c))) as [[= -> ->]|Hne].
    + injection Hget' as <-. apply lookup_fresh.
    + apply lookup_app_l_Some. by apply Hinv.
Qed.

(** The copy and the merge of [db_size], taken together: the object that
    [update] changes is the copy made just before. *)
Lemma keeps_copy_and_merge cached (metric : value) rdsc db_name :
  keeps W
    (Metrics.copy cached ≫= λ result_tags,
     Metrics.deref result_tags ≫= λ d,
     lift (method_get metric "metric_name" VNone) ≫= λ metric_name,
     if dict_nonempty d && eq_str metric_name "FreeStorageSpace" then
       Metrics.get_rds_description W rdsc db_name ≫= λ size,
       Metrics.update result_tags "db_size" size ≫= λ _, mret result_tags
     else mret result_tags).
Proof.
  apply keeps_extension. intros s r s'.
  rewrite bind_run. unfold Metrics.copy. rewrite bind_run.
  unfold Metrics.deref at 1, gets. cbn beta iota.
  unfold Metrics.alloc. cbn beta iota.
  rewrite bind_run. unfold Metrics.deref, gets.
  cbn [Metrics.set_heap Metrics.heap]. rewrite lookup_fresh. cbn [default from_option].
  unfold id. rewrite bind_run. unfold lift at 1.
  destruct (method_get metric "metric_name" VNone) as [metric_name|e].
  2:{ intros [= <- <-]. cbn [Metrics.arn_cache Metrics.heap]. split; [done|]. by eexists [_]. }
  destruct (dict_nonempty _ && eq_str metric_name "FreeStorageSpace").
  2:{ intros [= <- <-]. cbn [Metrics.arn_cache Metrics.heap]. split; [done|]. by eexists [_]. }
  rewrite bind_run.
  match goal with |- context [Metrics.get_rds_description W rdsc db_name ?st] =>
    destruct (rds_description_frame W rdsc db_name st)
      as (size & s4 & -> & Hheap & Hcache & _) end.
  cbn [Metrics.set_heap Metrics.heap Metrics.arn_cache] in Hheap, Hcache.
  rewrite bind_run. unfold Metrics.update, modify. cbn beta iota.
  intros [= <- <-]. cbn [Metrics.set_heap Metrics.arn_cache Metrics.heap].
  rewrite Hheap, alter_fresh. split; [done|]. by eexists [_].
Qed.

Lemma keeps_lookup metric region s3c s3p esc dp rdsc rdsp acct :
  keeps W (Metrics.get_resource_tags_from_metric W metric region s3c s3p esc dp
             rdsc rdsp acct).
Proof.
  unfold Metrics.get_resource_tags_from_metric.
  apply keeps_bind; [apply keeps_alloc|]. intros tags.
  apply keeps_except_Exception.
  2:{ intros e. apply keeps_bind; [apply keeps_logger|]. intros _. apply keeps_ret. }
  apply keeps_bind; [apply keeps_lift|]. intros namespace.
  apply keeps_bind; [apply keeps_lift|]. intros dimensions.
  destruct (eq_str namespace "AWS/S3").
  { apply keeps_bind; [apply keeps_lift|]. intros bucket_name.
    apply keeps_bind; [apply keeps_lift|]. intros [|]; [|apply keeps_ret].
    destruct bucket_name; try apply keeps_ret. apply keeps_get_tags_from_name. }
  destruct (eq_str namespace "AWS/ES").
  { apply keeps_bind; [apply keeps_lift|]. intros domain_name.
    apply keeps_bind; [apply keeps_lift|]. intros [|]; [|apply keeps_ret].
    destruct domain_name; try apply keeps_ret. apply keeps_get_tags_from_arn. }
  destruct (eq_str namespace "AWS/RDS"); [|apply keeps_ret].
  apply keeps_bind; [apply keeps_lift|]. intros db_name.
  destruct db_name; try apply keeps_ret;
    (apply keeps_bind; [apply keeps_lift|]; intros [|]; [|apply keeps_ret]);
    try apply keeps_ret.
  apply keeps_bind; [apply keeps_get_tags_from_arn|]. intros cached.
  apply keeps_copy_and_merge.
Qed.

Lemma keeps_lookups (lookups : list lookup) : keeps W (mapM (run_lookup W) lookups).
Proof.
  induction lookups as [|a lookups IH]; simpl.
  - apply keeps_ret.
  - apply keeps_bind; [apply keeps_lookup|]. intros l.
    apply keeps_bind; [exact IH|]. intros ls. apply keeps_ret.
Qed.
End keeps_facts.

(** C6: from a state whose cache entries hold what was fetched (the cold
    cache is one), after any sequence of calls of
    [get_resource_tags_from_metric] every dictionary that existed before is
    unchanged, and a later call of [get_tags_from_arn] that hits the cache
    answers the very mapping that was fetched for that ARN: the merge of
    [db_size] went to a copy, so the mapping has no [db_size] key unless the
    resource carries a tag of that name. *)
Theorem db_size_merge_spares_the_cached_mapping W (lookups : list lookup) s r s' :
  cache_holds_fetched W s →
  mapM (run_lookup W) lookups s = (r, s') →
  (∀ l d, Metrics.heap s !! l = Some d → Metrics.heap s' !! l = Some d) ∧
  (∀ arn c l,
     cache_get (arn, c) (entries (Metrics.arn_cache s')) = Some l →
     ∃ s'',
       Metrics.get_tags_from_arn W arn c s' = (Ok l, s'') ∧
       Metrics.heap s'' !! l = Some (metrics_fetched W arn c) ∧
       (dict_mem "db_size" (metrics_fetched W arn c) = false →
        ∀ d, Metrics.heap s'' !! l = Some d → dict_mem "db_size" d = false)).
Proof.
  intros Hinv Hrun.
  destruct (keeps_lookups W lookups s r s' Hrun) as [Hprefix Hinv'].
  specialize (Hinv' Hinv). split.
  - intros l d Hl. by eapply prefix_lookup.
  - intros arn c l Hget.
    pose proof (metrics_get_tags_run W arn c s') as Hhit. rewrite Hget in Hhit.
    eexists. split; [exact Hhit|].
    cbn [Metrics.set_arn_cache Metrics.heap].
    pose proof (Hinv' arn c l Hget) as Hl. split; [exact Hl|].
    intros Hno d Hd. rewrite Hl in Hd. by injection Hd as <-.
Qed.

Lemma db_size_merge_spares_the_cached_mapping_witness :
  let lk := Lookup Scenario.metric (Some "us-gov-west-1") Scenario.s3 "development-cg-"
              Scenario.es "cg-broker-dev-" Scenario.rds "cg-aws-broker-dev"
              (Some "123456") in
  let run := mapM (run_lookup Scenario.aws_dev) [lk; lk] Metrics.initial_state in
  (run.1 = Ok [2; 4] ∧
   Metrics.heap run.2 !! 2 =
   Some [("Organization GUID", VStr "x"); ("Owner", VStr "team"); ("db_size", VInt 100)]) ∧
  (∃ s'',
     Metrics.get_tags_from_arn Scenario.aws_dev Scenario.arn_test Scenario.rds run.2
     = (Ok 1, s'') ∧
     Metrics.heap s'' !! 1 = Some (metrics_fetched Scenario.aws_dev Scenario.arn_test
                                     Scenario.rds) ∧
     (dict_mem "db_size" (metrics_fetched Scenario.aws_dev Scenario.arn_test Scenario.rds)
      = false →
      ∀ d, Metrics.heap s'' !! 1 = Some d → dict_mem "db_size" d = false)) ∧
  dict_mem "db_size" (metrics_fetched Scenario.aws_dev Scenario.arn_test Scenario.rds)
  = false.
Proof.
  intros lk run. split; [|split].
  - split; vm_compute; reflexivity.
  - assert (cache_holds_fetched Scenario.aws_dev Metrics.initial_state) as Hcold.
    { intros arn c l Hget. discriminate Hget. }
    apply (proj2 (db_size_merge_spares_the_cached_mapping Scenario.aws_dev [lk; lk]
                    Metrics.initial_state run.1 run.2 Hcold (surjective_pairing run))).
    vm_compute. reflexivity.
  - vm_compute. reflexivity.
Defined.

(** * Further properties of the three lambdas *)

(** ** The prefix resolvers *)

(** A prefix from the log lambda's resolver names its environment. *)
Lemma cloudwatch_prefix_known environ p :
  Cloudwatch.make_prefixes environ = Ok p →
  (environ !! "ENVIRONMENT" = Some "production" ∧ p = "cg-aws-broker-prod") ∨
  (environ !! "ENVIRONMENT" = Some "staging" ∧ p = "cg-aws-broker-stage") ∨
  (environ !! "ENVIRONMENT" = Some "development" ∧ p = "cg-aws-broker-dev").
Proof.
  unfold Cloudwatch.make_prefixes, Cloudwatch.environment_suffixes.
  destruct (environ !! "ENVIRONMENT") as [e|]; [|done].
  destruct (decide (e = "")) as [->|Hne]; [done|]. simpl.
  destruct (decide ("production" = e)) as [<-|Hp]; simpl.
  { intros [= <-]. auto. }
  destruct (decide ("staging" = e)) as [<-|Hs]; simpl.
  { intros [= <-]. auto. }
  destruct (decide ("development" = e)) as [<-|Hd]; simpl; [|done].
  intros [= <-]. auto.
Qed.

(** X1: the prefix resolvers of the log lambda and of the subscription lambda
    succeed for the three environments only, and then give
    [cg-aws-broker-prod], [cg-aws-broker-stage] or [cg-aws-broker-dev]. *)
Theorem make_prefixes_known_environments environ p :
  (Cloudwatch.make_prefixes environ = Ok p ↔
   (environ !! "ENVIRONMENT" = Some "production" ∧ p = "cg-aws-broker-prod") ∨
   (environ !! "ENVIRONMENT" = Some "staging" ∧ p = "cg-aws-broker-stage") ∨
   (environ !! "ENVIRONMENT" = Some "development" ∧ p = "cg-aws-broker-dev")) ∧
  (Subscription.make_prefixes environ = Ok p ↔ Cloudwatch.make_prefixes environ = Ok p).
Proof.
  unfold Cloudwatch.make_prefixes, Subscription.make_prefixes,
    Cloudwatch.environment_suffixes, Subscription.environment_suffixes.
  destruct (environ !! "ENVIRONMENT") as [e|].
  2:{ split; [split; [done|]|split; intros [=]].
      intros [[[=] _]|[[[=] _]|[[=] _]]]. }
  destruct (decide (e = "")) as [->|Hne].
  { split; [split; [done|]|split; intros [=]].
    intros [[[=] _]|[[[=] _]|[[=] _]]]. }
  simpl.
  destruct (decide ("production" = e)) as [<-|Hp]; simpl.
  { split; [split|done].
    - intros [= <-]. auto.
    - intros [[_ ->]|[[[=] _]|[[=] _]]]. reflexivity. }
  destruct (decide ("staging" = e)) as [<-|Hs]; simpl.
  { split; [split|done].
    - intros [= <-]. auto.
    - intros [[[=] _]|[[_ ->]|[[=] _]]]. reflexivity. }
  destruct (decide ("development" = e)) as [<-|Hd]; simpl.
  { split; [split|done].
    - intros [= <-]. auto.
    - intros [[[=] _]|[[[=] _]|[_ ->]]]. reflexivity. }
  split; [split; [done|]|split; intros [=]].
  intros [[[= ->] _]|[[[= ->] _]|[[= ->] _]]]; done.
Qed.

(** X2: for a known environment the three resolvers give the same database
    prefix; the metric lambda adds the bucket prefix and the domain prefix of
    that environment. *)
Theorem make_prefixes_agree environ p :
  Cloudwatch.make_prefixes environ = Ok p →
  Subscription.make_prefixes environ = Ok p ∧
  ∃ s3_prefix domain_prefix,
    Metrics.make_prefixes environ = Ok (p, s3_prefix, domain_prefix) ∧
    ((environ !! "ENVIRONMENT" = Some "production" ∧
      s3_prefix = "cg-" ∧ domain_prefix = "cg-broker-prd-") ∨
     (environ !! "ENVIRONMENT" = Some "staging" ∧
      s3_prefix = "staging-cg-" ∧ domain_prefix = "cg-broker-stg-") ∨
     (environ !! "ENVIRONMENT" = Some "development" ∧
      s3_prefix = "development-cg-" ∧ domain_prefix = "cg-broker-dev-")).
Proof.
  intros Hlog. apply cloudwatch_prefix_known in Hlog.
  unfold Subscription.make_prefixes, Metrics.make_prefixes.
  destruct Hlog as [[-> ->]|[[-> ->]|[-> ->]]];
    (split; [reflexivity|]); eexists _, _;
    (split; [vm_compute; reflexivity|]); auto 10.
Qed.

Lemma make_prefixes_agree_witness :
  Subscription.make_prefixes Scenario.environ = Ok "cg-aws-broker-dev" ∧
  ∃ s3_prefix domain_prefix,
    Metrics.make_prefixes Scenario.environ
    = Ok ("cg-aws-broker-dev", s3_prefix, domain_prefix) ∧
    ((Scenario.environ !! "ENVIRONMENT" = Some "production" ∧
      s3_prefix = "cg-" ∧ domain_prefix = "cg-broker-prd-") ∨
     (Scenario.environ !! "ENVIRONMENT" = Some "staging" ∧
      s3_prefix = "staging-cg-" ∧ domain_prefix = "cg-broker-stg-") ∨
     (Scenario.environ !! "ENVIRONMENT" = Some "development" ∧
      s3_prefix = "development-cg-" ∧ domain_prefix = "cg-broker-dev-")).
Proof.
  apply (make_prefixes_agree Scenario.environ "cg-aws-broker-dev").
  vm_compute. reflexivity.
Defined.

(** Two prefixes of one name are prefixes of each other, one way or the
    other. *)
Lemma startswith_comparable name : ∀ p1 p2,
  startswith name p1 = true → startswith name p2 = true →
  String.prefix p1 p2 = true ∨ String.prefix p2 p1 = true.
Proof.
  unfold startswith.
  induction name as [|c name IH]; intros [|a p1] [|b p2]; simpl; auto; try done.
  destruct (ascii_dec a c) as [->|]; [|done].
  destruct (ascii_dec b c) as [->|]; [|done].
  destruct (ascii_dec c c); [|done]. apply IH.
Qed.

(** X3: the prefixes of two different known environments never fit the same
    name, for databases, buckets and domains alike: a resource of one
    environment is out of scope in the others. *)
Theorem prefixes_keep_environments_apart env1 env2 rds1 s31 dom1 rds2 s32 dom2 name :
  known_environment env1 → known_environment env2 →
  env1 !! "ENVIRONMENT" ≠ env2 !! "ENVIRONMENT" →
  Metrics.make_prefixes env1 = Ok (rds1, s31, dom1) →
  Metrics.make_prefixes env2 = Ok (rds2, s32, dom2) →
  (startswith name rds1 = true → startswith name rds2 = false) ∧
  (startswith name s31 = true → startswith name s32 = false) ∧
  (startswith name dom1 = true → startswith name dom2 = false).
Proof.
  intros H1 H2 Hne. unfold Metrics.make_prefixes.
  assert (∀ p1 p2, String.prefix p1 p2 = false → String.prefix p2 p1 = false →
                   startswith name p1 = true → startswith name p2 = false) as Hapart.
  { intros p1 p2 H12 H21 Hp1. destruct (startswith name p2) eqn:Hp2; [|done].
    destruct (startswith_comparable name p1 p2 Hp1 Hp2); congruence. }
  destruct H1 as [E1|[E1|E1]], H2 as [E2|[E2|E2]]; rewrite E1, E2 in *;
    try done; vm_compute bool_decide; cbn beta iota zeta;
    intros [= <- <- <-] [= <- <- <-];
    repeat split; apply Hapart; reflexivity.
Qed.

Lemma prefixes_keep_environments_apart_witness :
  (startswith "cg-aws-broker-dev-test" "cg-aws-broker-dev" = true →
   startswith "cg-aws-broker-dev-test" "cg-aws-broker-prod" = false) ∧
  (startswith "cg-aws-broker-dev-test" "development-cg-" = true →
   startswith "cg-aws-broker-dev-test" "cg-" = false) ∧
  (startswith "cg-aws-broker-dev-test" "cg-broker-dev-" = true →
   startswith "cg-aws-broker-dev-test" "cg-broker-prd-" = false).
Proof.
  apply (prefixes_keep_environments_apart Scenario.environ
           (<["ENVIRONMENT" := "production"]> Scenario.environ)).
  - right; right. vm_compute. reflexivity.
  - left. vm_compute. reflexivity.
  - vm_compute. discriminate.
  - vm_compute. reflexivity.
  - vm_compute. reflexivity.
Defined.

(** ** Log lines *)

Lemma str_in_slash_cons c name :
  str_in "/" (String c name) = false → c ≠ "/"%char ∧ str_in "/" name = false.
Proof.
  change (str_in "/" (String c name))
    with (String.prefix "/" (String c name) || str_in "/" name).
  intros [Hp Hs]%orb_false_elim. split; [|done].
  intros ->. by destruct name.
Qed.

Lemma append_cons a (s t : string) : String a s +:+ t = String a (s +:+ t).
Proof. reflexivity. Qed.

Lemma append_empty_r (s : string) : s +:+ "" = s.
Proof. induction s as [|a s IH]; [done|]. by rewrite append_cons, IH. Qed.

Lemma append_snoc (s : string) c t : (s +:+ String c "") +:+ t = s +:+ String c t.
Proof. induction s as [|a s IH]; [done|]. by rewrite !append_cons, IH. Qed.

Lemma split_aux_segment name : ∀ cur rest,
  str_in "/" name = false →
  split_aux "/" cur (name +:+ String "/" rest)
  = (cur +:+ name) :: split_aux "/" "" rest.
Proof.
  induction name as [|c name IH]; intros cur rest Hno.
  - change ("" +:+ String "/" rest) with (String "/" rest).
    cbn [split_aux]. rewrite decide_True by done.
    by rewrite append_empty_r.
  - apply str_in_slash_cons in Hno as [Hc Hno].
    rewrite append_cons. cbn [split_aux].
    rewrite decide_False by done. rewrite IH by done.
    by rewrite append_snoc.
Qed.

(** X4: the resource name that the log lambda reads off a log group is its
    fifth segment: for [/aws/rds/instance/<name>/<kind>], with no [/] in the
    name, it is [<name>]. *)
Theorem resource_name_of_log_group name kind :
  str_in "/" name = false →
  index (split "/" ("/aws/rds/instance/" +:+ name +:+ "/" +:+ kind)) 4 = Ok name.
Proof.
  intros Hno. unfold split.
  change ("/aws/rds/instance/" +:+ name +:+ "/" +:+ kind)
    with ("" +:+ String "/" ("aws" +:+ String "/" ("rds" +:+ String "/"
           ("instance" +:+ String "/" (name +:+ String "/" kind))))).
  rewrite !split_aux_segment by (done || reflexivity).
  reflexivity.
Qed.

Lemma resource_name_of_log_group_witness :
  index (split "/" ("/aws/rds/instance/" +:+ "cg-aws-broker-dev-test" +:+ "/"
                    +:+ "postgresql")) 4 = Ok "cg-aws-broker-dev-test".
Proof.
  apply (resource_name_of_log_group "cg-aws-broker-dev-test" "postgresql").
  vm_compute. reflexivity.
Defined.

(** X5: a log line whose resource name does not start with the database
    prefix contributes nothing: [process_logs] answers [None] and leaves the
    state as it was (no call to AWS, no cache entry, no log record). *)
Theorem process_logs_out_of_scope W logs logGroup parts resource_name
    client region account_id rds_prefix s :
  subscript logs "logGroup" = Ok logGroup →
  method_split logGroup = Ok parts →
  index parts 4 = Ok resource_name →
  startswith resource_name rds_prefix = false →
  Cloudwatch.process_logs W logs client region account_id rds_prefix s = (Ok None, s).
Proof.
  intros Hlg Hsplit Hindex Hpre.
  unfold Cloudwatch.process_logs, except_Exception, try_except.
  rewrite bind_run. unfold lift at 1. rewrite Hlg.
  rewrite bind_run. unfold lift at 1. rewrite Hsplit.
  rewrite bind_run. unfold lift at 1. rewrite Hindex.
  rewrite bind_run.
  unfold Cloudwatch.get_resource_tags_from_log, except_Exception, try_except.
  rewrite Hpre. reflexivity.
Qed.

Lemma process_logs_out_of_scope_witness :
  Cloudwatch.process_logs Scenario.aws_dev Scenario.log_event Scenario.rds
    "us-gov-west-1" "123456" "cg-aws-broker-prod" Cloudwatch.initial_state
  = (Ok None, Cloudwatch.initial_state).
Proof.
  apply (process_logs_out_of_scope Scenario.aws_dev Scenario.log_event
           (VStr "/aws/rds/instance/cg-aws-broker-dev-test/postgresql")
           [""; "aws"; "rds"; "instance"; "cg-aws-broker-dev-test"; "postgresql"]
           "cg-aws-broker-dev-test");
    vm_compute; reflexivity.
Defined.

(** X6: a log line that is not an object with a [logGroup] string of at
    least five segments is answered [None]: the error is logged, nothing is
    raised and AWS is not called. *)
Theorem process_logs_malformed W logs client region account_id rds_prefix s :
  (∃ e, subscript logs "logGroup" = Raise e) ∨
  (∃ logGroup e,
     subscript logs "logGroup" = Ok logGroup ∧ method_split logGroup = Raise e) ∨
  (∃ logGroup parts,
     subscript logs "logGroup" = Ok logGroup ∧ method_split logGroup = Ok parts ∧
     (length parts ≤ 4)%nat) →
  ∃ msg,
    Cloudwatch.process_logs W logs client region account_id rds_prefix s =
    (Ok None,
     Cloudwatch.State (Cloudwatch.tags_cache s) (Cloudwatch.calls s)
       (Cloudwatch.logged s ++ [(ERROR, msg)])).
Proof.
  intros Hbad.
  unfold Cloudwatch.process_logs, except_Exception, try_except.
  rewrite bind_run. unfold lift at 1.
  destruct Hbad as [[e ->]|[(lg & e & -> & Hsplit)|(lg & parts & -> & Hsplit & Hlen)]].
  - eexists. reflexivity.
  - rewrite bind_run. unfold lift at 1. rewrite Hsplit. eexists. reflexivity.
  - rewrite bind_run. unfold lift at 1. rewrite Hsplit.
    rewrite bind_run. unfold lift at 1, index.
    rewrite (lookup_ge_None_2 parts 4) by lia. eexists. reflexivity.
Qed.

Lemma process_logs_malformed_witness :
  ∃ msg,
    Cloudwatch.process_logs Scenario.aws_dev
      (VDict [("logGroup", VStr "/aws/lambda/transform")]) Scenario.rds
      "us-gov-west-1" "123456" "cg-aws-broker-dev" Cloudwatch.initial_state =
    (Ok None, Cloudwatch.State lru_empty [] ([] ++ [(ERROR, msg)])).
Proof.
  apply (process_logs_malformed Scenario.aws_dev
           (VDict [("logGroup", VStr "/aws/lambda/transform")])).
  right; right.
  exists (VStr "/aws/lambda/transform"), [""; "aws"; "lambda"; "transform"].
  repeat split; vm_compute; (reflexivity || lia).
Defined.

(** The loop over the events of a log line leaves the state alone: either
    every event has its message and timestamp and the entries pair up with
    the events, or the first event that lacks one raises. *)
Lemma log_entries_loop logs logGroup logStream tags events (s : Cloudwatch.state) :
  subscript logs "logGroup" = Ok logGroup →
  subscript logs "logStream" = Ok logStream →
  ∃ r,
    mapM (λ event : value,
        lg ← lift (subscript logs "logGroup");
        ls ← lift (subscript logs "logStream");
        message ← lift (subscript event "message");
        timestamp ← lift (subscript event "timestamp");
        mret (VDict [("logGroup", lg); ("logStream", ls);
                     ("message", message); ("timestamp", timestamp);
                     ("Tags", VDict tags)])) events s = (r, s) ∧
    match r with
    | Ok entries => Forall2 (enriched logGroup logStream tags) events entries
    | Raise _ =>
        Exists (λ event, ∃ e, subscript event "message" = Raise e ∨
                              subscript event "timestamp" = Raise e) events
    end.
Proof.
  intros Hlg Hls. rewrite Hlg, Hls. induction events as [|event events IH].
  - exists (Ok []). split; [done|]. constructor.
  - destruct IH as (r & Hrun & Hr). cbn [mapM].
    rewrite bind_run, bind_run. unfold lift at 1.
    rewrite bind_run. unfold lift at 1.
    rewrite bind_run. unfold lift at 1.
    destruct (subscript event "message") as [message|e] eqn:Hmsg.
    2:{ exists (Raise e). split; [done|]. left. eauto. }
    rewrite bind_run. unfold lift at 1.
    destruct (subscript event "timestamp") as [timestamp|e] eqn:Hts.
    2:{ exists (Raise e). split; [done|]. left. eauto. }
    unfold mret at 1, M_ret at 1. cbn beta iota.
    rewrite bind_run, Hrun. destruct r as [entries|e].
    + eexists (Ok _). split; [reflexivity|].
      constructor; [|done]. exists message, timestamp. auto.
    + exists (Raise e). split; [done|]. by right.
Qed.

(** X7: for a log line in scope whose tags are not empty, [process_logs]
    answers one entry per event, in order, each with the log group, the log
    stream, the message and timestamp of its event and the tags; if one
    event lacks its message or timestamp the whole line is answered [None]. *)
Theorem process_logs_enriches W logs logGroup logStream logEvents events parts
    resource_name client region account_id rds_prefix s tags s' :
  subscript logs "logGroup" = Ok logGroup →
  method_split logGroup = Ok parts →
  index parts 4 = Ok resource_name →
  startswith resource_name rds_prefix = true →
  Cloudwatch.get_tags_from_arn W (log_arn region account_id resource_name) client s
  = (Ok tags, s') →
  dict_nonempty tags = true →
  subscript logs "logStream" = Ok logStream →
  subscript logs "logEvents" = Ok logEvents →
  iterate logEvents = Ok events →
  (∃ entries,
     Cloudwatch.process_logs W logs client region account_id rds_prefix s
     = (Ok (Some entries), s') ∧
     Forall2 (enriched logGroup logStream tags) events entries) ∨
  (∃ s'',
     Cloudwatch.process_logs W logs client region account_id rds_prefix s
     = (Ok None, s'') ∧
     Exists (λ event, ∃ e, subscript event "message" = Raise e ∨
                           subscript event "timestamp" = Raise e) events).
Proof.
  intros Hlg Hsplit Hindex Hpre Htags Hne Hls Hevs Hiter.
  destruct (Cloudwatch.process_logs W logs client region account_id rds_prefix s)
    as [res s1] eqn:Hrun.
  revert Hrun.
  unfold Cloudwatch.process_logs, except_Exception, try_except.
  rewrite bind_run. unfold lift at 1. rewrite Hlg.
  rewrite bind_run. unfold lift at 1. rewrite Hsplit.
  rewrite bind_run. unfold lift at 1. rewrite Hindex.
  rewrite bind_run.
  unfold Cloudwatch.get_resource_tags_from_log, except_Exception, try_except.
  rewrite Hpre. fold (log_arn region account_id resource_name). rewrite Htags, Hne.
  rewrite bind_run. unfold lift at 1. rewrite Hevs.
  rewrite bind_run. unfold lift at 1. rewrite Hiter.
  rewrite bind_run.
  pose proof (log_entries_loop logs logGroup logStream tags events s' Hlg Hls)
    as Hloop.
  rewrite Hlg, Hls in Hloop. rewrite ?Hls.
  destruct Hloop as ([entries|e] & -> & Hr); intros [= <- <-].
  - left. eauto.
  - right. eauto.
Qed.

Lemma process_logs_enriches_witness :
  ∃ entries,
    Cloudwatch.process_logs Scenario.aws_dev Scenario.log_event Scenario.rds
      "us-gov-west-1" "123456" "cg-aws-broker-dev" Cloudwatch.initial_state
    = (Ok (Some entries),
       (Cloudwatch.get_tags_from_arn Scenario.aws_dev Scenario.arn_test Scenario.rds
          Cloudwatch.initial_state).2) ∧
    length entries = 1.
Proof.
  destruct (process_logs_enriches Scenario.aws_dev Scenario.log_event
              (VStr "/aws/rds/instance/cg-aws-broker-dev-test/postgresql")
              (VStr "cg-aws-broker-dev-test.0")
              (VList [VDict [("id", VStr "1"); ("timestamp", VInt 1759774467000);
                             ("message", VStr "This is a test")]])
              [VDict [("id", VStr "1"); ("timestamp", VInt 1759774467000);
                      ("message", VStr "This is a test")]]
              [""; "aws"; "rds"; "instance"; "cg-aws-broker-dev-test"; "postgresql"]
              "cg-aws-broker-dev-test" Scenario.rds "us-gov-west-1" "123456"
              "cg-aws-broker-dev" Cloudwatch.initial_state
              [("Organization GUID", VStr "x"); ("Owner", VStr "team")]
              (Cloudwatch.get_tags_from_arn Scenario.aws_dev Scenario.arn_test
                 Scenario.rds Cloudwatch.initial_state).2)
    as [(entries & Hrun & Hall)|(s'' & Hrun & Hbad)];
    try (vm_compute; reflexivity).
  - exists entries. split; [exact Hrun|].
    apply Forall2_length in Hall. by rewrite <- Hall.
  - exfalso. vm_compute in Hrun. discriminate Hrun.
Defined.

(** ** What a run may change *)

Section follows_facts.
Context {S : Type} (R : relation S) `{!PreOrder R}.

Lemma follows_ret {A} (a : A) : follows R (mret a : M S A).
Proof. intros s r s' [= <- <-]. reflexivity. Qed.

Lemma follows_lift {A} (x : result A) : follows R (lift x : M S A).
Proof. intros s r s' [= <- <-]. reflexivity. Qed.

Lemma follows_raise {A} e : follows R (raise e : M S A).
Proof. intros s r s' [= <- <-]. reflexivity. Qed.

Lemma follows_gets {A} (f : S → A) : follows R (gets f).
Proof. intros s r s' [= <- <-]. reflexivity. Qed.

Lemma follows_modify (f : S → S) : (∀ s, R s (f s)) → follows R (modify f).
Proof. intros Hf s r s' [= <- <-]. apply Hf. Qed.

Lemma follows_bind {A B} (m : M S A) (f : A → M S B) :
  follows R m → (∀ a, follows R (f a)) → follows R (m ≫= f).
Proof.
  intros Hm Hf s r s'. rewrite bind_run.
  destruct (m s) as [[a|e] s1] eqn:Hrun.
  - intros Hrest. etrans; [by eapply Hm|by eapply Hf].
  - intros [= <- <-]. by eapply Hm.
Qed.

Lemma follows_bind_lift {A B} (x : result A) (f : A → M S B) :
  (∀ a, x = Ok a → follows R (f a)) → follows R (lift x ≫= f).
Proof.
  intros Hf s r s'. rewrite bind_run. unfold lift at 1.
  destruct x as [a|e].
  - by apply Hf.
  - intros [= <- <-]. reflexivity.
Qed.

Lemma follows_try_except {A} (body : M S A) handler :
  follows R body → (∀ e h, handler e = Some h → follows R h) →
  follows R (try_except body handler).
Proof.
  intros Hbody Hhandler s r s'. unfold try_except.
  destruct (body s) as [[a|e] s1] eqn:Hrun.
  - intros [= <- <-]. by eapply Hbody.
  - destruct (handler e) as [h|] eqn:Hh.
    + intros Hrest. etrans; [by eapply Hbody|by eapply Hhandler].
    + intros [= <- <-]. by eapply Hbody.
Qed.

Lemma follows_except_Exception {A} (body : M S A) h :
  follows R body → (∀ e, follows R (h e)) → follows R (except_Exception body h).
Proof.
  intros Hbody Hh. apply follows_try_except; [done|].
  intros e h' [= <-]. apply Hh.
Qed.

Lemma follows_foldM {A B} (f : B → A → M S B) (l : list A) :
  (∀ b x, follows R (f b x)) → ∀ b, follows R (foldM f b l).
Proof.
  intros Hf. induction l as [|x l IH]; intros b; cbn [foldM].
  - apply follows_ret.
  - apply follows_bind; [apply Hf|]. intros b'. apply IH.
Qed.

Lemma follows_mapM {A B} (f : A → M S B) (l : list A) :
  (∀ x, follows R (f x)) → follows R (mapM f l).
Proof.
  intros Hf. induction l as [|x l IH]; cbn [mapM].
  - apply follows_ret.
  - apply follows_bind; [apply Hf|]. intros y.
    apply follows_bind; [exact IH|]. intros ys. apply follows_ret.
Qed.

Lemma follows_lru_cache {K V} `{EqDecision K} maxsize
    (get : S → lru K V) (set : lru K V → S → S) key (body : M S V) :
  (∀ c s, R s (set c s)) → follows R body →
  follows R (lru_cache maxsize get set key body).
Proof.
  intros Hset Hbody s r s'. unfold lru_cache.
  destruct (cache_get key (entries (get s))) as [v|].
  - intros [= <- <-]. apply Hset.
  - destruct (body _) as [[v|e] s2] eqn:Hrun.
    + destruct (cache_get key (entries (get s2))); intros [= <- <-].
      * etrans; [apply Hset|by eapply Hbody].
      * etrans; [apply Hset|]. etrans; [by eapply Hbody|apply Hset].
    + intros [= <- <-]. etrans; [apply Hset|by eapply Hbody].
Qed.
End follows_facts.

(** ** The requests of the log lambda *)

Global Instance cloudwatch_sends_preorder P : PreOrder (cloudwatch_sends P).
Proof.
  split.
  - intros s. exists []. by rewrite app_nil_r.
  - intros s1 s2 s3 (cs1 & H1 & HP1) (cs2 & H2 & HP2).
    exists (cs1 ++ cs2). rewrite H2, H1, app_assoc. split; [done|].
    by apply Forall_app.
Qed.

Lemma cloudwatch_sends_weaken (P Q : api_call → Prop) s s' :
  (∀ c, P c → Q c) → cloudwatch_sends P s s' → cloudwatch_sends Q s s'.
Proof.
  intros HPQ (cs & H & HP). exists cs. split; [done|].
  eapply Forall_impl; eauto.
Qed.

Lemma cloudwatch_logger_quiet P lv msg :
  follows (cloudwatch_sends P) (Cloudwatch.logger lv msg).
Proof. intros s r s' [= <- <-]. exists []. by rewrite app_nil_r. Qed.

Lemma cloudwatch_call_sends {A} (P : api_call → Prop) c (answer : result A) :
  P c → follows (cloudwatch_sends P) (Cloudwatch.call c answer).
Proof. intros Hc s r s' [= <- <-]. exists [c]. split; [done|]. by constructor. Qed.

Lemma cloudwatch_get_tags_sends (P : api_call → Prop) W arn c :
  P (ListTagsForResource c arn) →
  follows (cloudwatch_sends P) (Cloudwatch.get_tags_from_arn W arn c).
Proof.
  intros HP. apply follows_lru_cache; [apply _| |].
  - intros ch s. exists []. by rewrite app_nil_r.
  - unfold Cloudwatch.get_tags_from_arn_body.
    destruct (str_in ":db:" arn); [|apply follows_ret; apply _].
    apply follows_except_Exception; [apply _| |].
    + apply follows_bind; [apply _|by apply cloudwatch_call_sends|].
      intros response. cbn zeta.
      destruct (dict_mem _ _); [apply follows_ret; apply _|].
      apply follows_bind; [apply _|apply cloudwatch_logger_quiet|].
      intros _. apply follows_ret; apply _.
    + intros e. apply follows_bind; [apply _|apply cloudwatch_logger_quiet|].
      intros _. apply follows_ret; apply _.
Qed.

Lemma cloudwatch_process_logs_sends W logs c region account_id rds_prefix :
  follows (cloudwatch_sends (cloudwatch_scope c region account_id rds_prefix))
    (Cloudwatch.process_logs W logs c region account_id rds_prefix).
Proof.
  unfold Cloudwatch.process_logs.
  apply follows_except_Exception; [apply _| |].
  2:{ intros e. apply follows_bind; [apply _|apply cloudwatch_logger_quiet|].
      intros _. apply follows_ret; apply _. }
  apply follows_bind; [apply _|apply follows_lift; apply _|]. intros logGroup.
  apply follows_bind; [apply _|apply follows_lift; apply _|]. intros parts.
  apply follows_bind; [apply _|apply follows_lift; apply _|]. intros resource_name.
  apply follows_bind; [apply _| |].
  - unfold Cloudwatch.get_resource_tags_from_log.
    apply follows_except_Exception; [apply _| |].
    + destruct (startswith resource_name rds_prefix) eqn:Hpre;
        [|apply follows_ret; apply _].
      apply cloudwatch_get_tags_sends. by exists resource_name.
    + intros e. apply follows_bind; [apply _|apply cloudwatch_logger_quiet|].
      intros _. apply follows_ret; apply _.
  - intros tags. destruct (dict_nonempty tags); [|apply follows_ret; apply _].
    apply follows_bind; [apply _|apply follows_lift; apply _|]. intros logEvents.
    apply follows_bind; [apply _|apply follows_lift; apply _|]. intros events.
    apply follows_bind; [apply _| |].
    + apply follows_mapM; [apply _|]. intros event.
      apply follows_bind; [apply _|apply follows_lift; apply _|]. intros lg.
      apply follows_bind; [apply _|apply follows_lift; apply _|]. intros ls.
      apply follows_bind; [apply _|apply follows_lift; apply _|]. intros message.
      apply follows_bind; [apply _|apply follows_lift; apply _|]. intros timestamp.
      apply follows_ret; apply _.
    + intros return_logs. apply follows_ret; apply _.
Qed.

Lemma cloudwatch_process_line_sends W C cfg acc line :
  follows (cloudwatch_sends
             (cloudwatch_scope (Cloudwatch.rds_client cfg) (Cloudwatch.region cfg)
                (Cloudwatch.account_id cfg) (Cloudwatch.rds_prefix cfg)))
    (Cloudwatch.process_line W C cfg acc line).
Proof.
  unfold Cloudwatch.process_line.
  apply follows_try_except; [apply _| |].
  - apply follows_bind; [apply _|apply follows_lift; apply _|]. intros logs.
    apply follows_bind; [apply _|apply cloudwatch_process_logs_sends|].
    intros [[|x l]|]; apply follows_ret; apply _.
  - intros e h. destruct (is_class JSONDecodeError e); [|done].
    intros [= <-]. apply follows_bind; [apply _|apply cloudwatch_logger_quiet|].
    intros _. apply follows_ret; apply _.
Qed.

Lemma cloudwatch_process_record_sends W C cfg acc r :
  follows (cloudwatch_sends
             (cloudwatch_scope (Cloudwatch.rds_client cfg) (Cloudwatch.region cfg)
                (Cloudwatch.account_id cfg) (Cloudwatch.rds_prefix cfg)))
    (Cloudwatch.process_record W C cfg acc r).
Proof.
  unfold Cloudwatch.process_record. destruct acc as [outs s3].
  apply follows_except_Exception; [apply _| |].
  2:{ intros e. apply follows_bind; [apply _|apply cloudwatch_logger_quiet|].
      intros _. apply follows_ret; apply _. }
  apply follows_bind; [apply _|apply follows_lift; apply _|]. intros cd.
  apply follows_bind; [apply _|apply follows_lift; apply _|]. intros pj.
  apply follows_bind; [apply _| |].
  - apply follows_foldM; [apply _|]. intros b x. apply cloudwatch_process_line_sends.
  - intros [|x l]; apply follows_ret; apply _.
Qed.

(** ** The records of the log lambda, one by one *)

(** One record: the answer appended, what goes to S3, and when the record
    counts as failed. *)
Lemma cloudwatch_process_record_answer W C cfg outs s3 r s :
  ∃ o logs s',
    Cloudwatch.process_record W C cfg (outs, s3) r s = (Ok (outs ++ [o], s3 ++ logs), s') ∧
    cloudwatch_answer C o r ∧
    answered_ok o = match logs with [] => false | _ => true end ∧
    (out_result o = ProcessingFailed ↔ undecodable C r).
Proof.
  unfold Cloudwatch.process_record, except_Exception, try_except, undecodable.
  rewrite bind_run. unfold lift at 1.
  destruct (b64decode C (data r)) as [cd|e].
  2:{ rewrite bind_run. unfold Cloudwatch.logger, modify. cbn beta iota.
      eexists _, [], _. rewrite app_nil_r. split; [reflexivity|]. by repeat split. }
  rewrite bind_run. unfold lift at 1.
  destruct (gzip_decompress C cd) as [pj|e].
  2:{ rewrite bind_run. unfold Cloudwatch.logger, modify. cbn beta iota.
      eexists _, [], _. rewrite app_nil_r. split; [reflexivity|]. by repeat split. }
  rewrite bind_run.
  pose proof (cloudwatch_lines_result W C cfg (splitlines (strip pj)) [] s) as Hlines.
  destruct (foldM _ _ _ s) as [[[|x pl]|e] s1].
  - eexists _, [], _. rewrite app_nil_r. split; [reflexivity|].
    repeat split; try done. intros Hex. exfalso.
    apply Exists_exists in Hex as (line & Hin & Href).
    by eapply Forall_forall in Hlines.
  - eexists _, (x :: pl), _. split; [reflexivity|].
    repeat split; try done. intros Hex. exfalso.
    apply Exists_exists in Hex as (line & Hin & Href).
    by eapply Forall_forall in Hlines.
  - rewrite bind_run. unfold Cloudwatch.logger, modify. cbn beta iota.
    eexists _, [], _. rewrite app_nil_r. split; [reflexivity|]. by repeat split.
Qed.

Lemma cloudwatch_records_answer W C cfg event : ∀ outs s3 s,
  ∃ outs2 logs s',
    foldM (Cloudwatch.process_record W C cfg) (outs, s3) event s
    = (Ok (outs ++ outs2, s3 ++ logs), s') ∧
    Forall2 (cloudwatch_answer C) outs2 event ∧
    existsb answered_ok outs2 = match logs with [] => false | _ => true end ∧
    Forall2 (λ o r, out_result o = ProcessingFailed ↔ undecodable C r) outs2 event.
Proof.
  induction event as [|r event IH]; intros outs s3 s.
  - rewrite foldM_nil. exists [], [], s. rewrite !app_nil_r.
    split; [done|]. repeat split; constructor.
  - rewrite foldM_cons, bind_run.
    destruct (cloudwatch_process_record_answer W C cfg outs s3 r s)
      as (o & logs & s1 & -> & Hans & Hok & Hfail).
    destruct (IH (outs ++ [o]) (s3 ++ logs) s1)
      as (outs2 & logs2 & s2 & -> & Hall & Hok2 & Hfail2).
    exists (o :: outs2), (logs ++ logs2), s2.
    rewrite <- !app_assoc. split; [done|]. split; [by constructor|].
    split; [|by constructor].
    cbn [existsb]. rewrite Hok, Hok2. by destruct logs, logs2.
Qed.

(** X8: when the log handler returns, either its configuration was refused
    and it answers no record at all, or it answers the records one for one:
    each answer carries the identifier of its record, an empty payload when
    the result is [Ok] (the logs went to S3) and the payload the record came
    with when the result is [Dropped] or [ProcessingFailed]; and the result
    is [ProcessingFailed] exactly for the records that cannot be read. *)
Theorem cloudwatch_handler_answers W C environ event s out s' :
  Cloudwatch.lambda_handler W C environ event s = (Ok out, s') →
  (∃ e s0, Cloudwatch.initialise W environ s = (Raise e, s0) ∧ out = []) ∨
  (Forall2 (cloudwatch_answer C) out event ∧
   Forall2 (λ o r, out_result o = ProcessingFailed ↔ undecodable C r) out event).
Proof.
  unfold Cloudwatch.lambda_handler.
  rewrite bind_run. unfold try_except at 1. rewrite bind_run.
  destruct (Cloudwatch.initialise W environ s) as [[cfg|e] s0].
  - unfold mret at 1, M_ret at 1. cbn beta iota.
    rewrite bind_run.
    destruct (cloudwatch_records_answer W C cfg event [] [] s0)
      as (outs2 & logs & s1 & -> & Hall & _ & Hfail).
    rewrite bind_run.
    destruct (Cloudwatch.push_to_s3 W C cfg _ s1) as [[[]|e] s2]; [|done].
    intros [= <- <-]. by right.
  - destruct (is_ValueError e); rewrite bind_run;
      unfold Cloudwatch.logger, modify; cbn beta iota;
      intros [= <- <-]; left; eauto.
Qed.

Lemma cloudwatch_handler_answers_witness :
  ∃ out,
    (Cloudwatch.lambda_handler Scenario.aws_dev Scenario.codecs_dev Scenario.environ
       [Scenario.record_bad_then_log; Scenario.record_bad]
       Cloudwatch.initial_state).1 = Ok out ∧
    Forall2 (cloudwatch_answer Scenario.codecs_dev) out
      [Scenario.record_bad_then_log; Scenario.record_bad].
Proof.
  destruct (Cloudwatch.lambda_handler Scenario.aws_dev Scenario.codecs_dev
              Scenario.environ [Scenario.record_bad_then_log; Scenario.record_bad]
              Cloudwatch.initial_state) as [[out|e] s'] eqn:Hrun.
  - exists out. split; [done|].
    destruct (cloudwatch_handler_answers _ _ _ _ _ _ _ Hrun)
      as [(e & s0 & Hinit & _)|[Hall _]]; [|exact Hall].
    vm_compute in Hinit. discriminate Hinit.
  - vm_compute in Hrun. discriminate Hrun.
Defined.

(** ** What the log handler sends to AWS *)

(** The configuration step of the log handler sends nothing and keeps the
    cache; when it succeeds it has logged nothing either. *)
Lemma cloudwatch_initialise_frame W environ s r s0 :
  Cloudwatch.initialise W environ s = (r, s0) →
  Cloudwatch.tags_cache s0 = Cloudwatch.tags_cache s ∧
  Cloudwatch.calls s0 = Cloudwatch.calls s ∧
  (∀ cfg, r = Ok cfg → s0 = s) ∧
  ∃ lg, Cloudwatch.logged s0 = Cloudwatch.logged s ++ lg.
Proof.
  assert (∃ lg, Cloudwatch.logged s = Cloudwatch.logged s ++ lg) as Hsame.
  { exists []. by rewrite app_nil_r. }
  unfold Cloudwatch.initialise. cbv zeta beta.
  repeat match goal with
         | |- (match ?x with Some _ => _ | None => _ end) _ = _ → _ =>
             destruct x as [?|]
         end;
    try (intros [= <- <-]; repeat split; (done || by eexists [_])).
  rewrite bind_run. unfold lift at 1.
  destruct (Cloudwatch.make_prefixes environ) as [rds_prefix|e];
    [|intros [= <- <-]; by repeat split].
  rewrite bind_run. unfold lift at 1.
  destruct (boto3_client W "s3" _) as [s3_client|e];
    [|intros [= <- <-]; by repeat split].
  rewrite bind_run. unfold lift at 1.
  destruct (boto3_client W "rds" _) as [rds_client|e];
    intros [= <- <-]; by repeat split.
Qed.

(** X9: once configured, the log handler sends to AWS only tag requests for
    databases whose name starts with the prefix of its environment, with its
    RDS client and under its own region and account, followed by at most one
    [put_object]: into the configured bucket, encrypted with AES256, under
    the key of the hour, and sent exactly when some record is answered
    [Ok].  The handler raises only when that [put_object] is refused, and
    then with the exception of the refusal. *)
Theorem cloudwatch_handler_requests W C environ event s cfg s0 r s' :
  Cloudwatch.initialise W environ s = (Ok cfg, s0) →
  Cloudwatch.lambda_handler W C environ event s = (r, s') →
  ∃ cs body,
    Forall (cloudwatch_scope (Cloudwatch.rds_client cfg) (Cloudwatch.region cfg)
              (Cloudwatch.account_id cfg) (Cloudwatch.rds_prefix cfg)) cs ∧
    match r with
    | Ok out =>
        Cloudwatch.calls s' =
        Cloudwatch.calls s ++ cs ++
          (if existsb answered_ok out
           then [PutObject (Cloudwatch.s3_client cfg) (s3_request W cfg body)]
           else []) ∧
        (existsb answered_ok out = true →
         put_object W (Cloudwatch.s3_client cfg) (s3_request W cfg body) = Ok tt)
    | Raise e =>
        Cloudwatch.calls s' =
        Cloudwatch.calls s ++ cs ++
          [PutObject (Cloudwatch.s3_client cfg) (s3_request W cfg body)] ∧
        put_object W (Cloudwatch.s3_client cfg) (s3_request W cfg body) = Raise e
    end.
Proof.
  intros Hinit.
  destruct (cloudwatch_initialise_frame _ _ _ _ _ Hinit) as (_ & _ & Hs0 & _).
  rewrite (Hs0 cfg eq_refl) in Hinit. clear Hs0 s0.
  unfold Cloudwatch.lambda_handler.
  rewrite bind_run. unfold try_except at 1. rewrite bind_run, Hinit.
  unfold mret at 1, M_ret at 1. cbn beta iota.
  rewrite bind_run.
  destruct (cloudwatch_records_answer W C cfg event [] [] s)
    as (outs2 & logs & s1 & Hloop & _ & Hok & _).
  pose proof (follows_foldM _ _ event
                (λ acc r, cloudwatch_process_record_sends W C cfg acc r)
                _ _ _ _ Hloop) as (cs & Hcalls & Hcs).
  rewrite Hloop. cbn [app]. rewrite bind_run.
  unfold Cloudwatch.push_to_s3.
  destruct logs as [|log logs].
  - unfold mret, M_ret. intros [= <- <-]. exists cs, "".
    split; [done|]. rewrite Hok, app_nil_r. split; [done|]. done.
  - unfold except_Exception, try_except. rewrite bind_run.
    unfold Cloudwatch.call at 1.
    fold (s3_request W cfg
            (gzip_compress C
               (String.concat "" (map (λ log0, json_dumps C log0 +:+ LF) (log :: logs))))).
    destruct (put_object W (Cloudwatch.s3_client cfg) _) as [[]|e] eqn:Hput.
    + unfold Cloudwatch.logger, modify. cbn beta iota.
      unfold mret, M_ret. intros [= <- <-].
      eexists cs, _. split; [done|]. rewrite Hok.
      cbn [Cloudwatch.calls]. rewrite Hcalls, <- app_assoc. split; [done|].
      intros _. exact Hput.
    + rewrite bind_run. unfold Cloudwatch.logger, modify, raise. cbn beta iota.
      intros [= <- <-].
      eexists cs, _. split; [done|].
      cbn [Cloudwatch.calls]. rewrite Hcalls, <- app_assoc. split; [done|].
      exact Hput.
Qed.

Lemma cloudwatch_handler_requests_witness :
  ∃ out s' cs body,
    Cloudwatch.lambda_handler Scenario.aws_dev Scenario.codecs_dev Scenario.environ
      [Scenario.record_bad_then_log; Scenario.record_bad] Cloudwatch.initial_state
    = (Ok out, s') ∧
    Forall (cloudwatch_scope Scenario.rds "us-gov-west-1" "123456" "cg-aws-broker-dev") cs ∧
    Cloudwatch.calls s' =
    [] ++ cs ++
      (if existsb answered_ok out
       then [PutObject Scenario.s3
               (s3_request Scenario.aws_dev Scenario.cloudwatch_cfg body)]
       else []).
Proof.
  destruct (Cloudwatch.lambda_handler Scenario.aws_dev Scenario.codecs_dev
              Scenario.environ [Scenario.record_bad_then_log; Scenario.record_bad]
              Cloudwatch.initial_state) as [[out|e] s'] eqn:Hrun.
  - destruct (cloudwatch_handler_requests Scenario.aws_dev Scenario.codecs_dev
                Scenario.environ [Scenario.record_bad_then_log; Scenario.record_bad]
                Cloudwatch.initial_state Scenario.cloudwatch_cfg
                Cloudwatch.initial_state (Ok out) s')
      as (cs & body & Hcs & Hcalls & _); [vm_compute; reflexivity|exact Hrun|].
    exists out, s', cs, body. split; [reflexivity|]. split; [exact Hcs|exact Hcalls].
  - vm_compute in Hrun. discriminate Hrun.
Defined.

(** ** A log handler that is not configured *)

(** What a configuration that the log handler accepts looks like. *)
Lemma cloudwatch_initialise_requires W environ s cfg s0 :
  Cloudwatch.initialise W environ s = (Ok cfg, s0) →
  (session_region W = Some (Cloudwatch.region cfg) ∨
   environ !! "AWS_REGION" = Some (Cloudwatch.region cfg)) ∧
  Cloudwatch.region cfg ≠ "" ∧
  environ !! "S3_BUCKET_NAME" = Some (Cloudwatch.bucket cfg) ∧
  Cloudwatch.bucket cfg ≠ "" ∧
  environ !! "ACCOUNT_ID" = Some (Cloudwatch.account_id cfg) ∧
  Cloudwatch.account_id cfg ≠ "" ∧
  Cloudwatch.make_prefixes environ = Ok (Cloudwatch.rds_prefix cfg) ∧
  boto3_client W "s3" (Some (Cloudwatch.region cfg)) = Ok (Cloudwatch.s3_client cfg) ∧
  boto3_client W "rds" (Some (Cloudwatch.region cfg)) = Ok (Cloudwatch.rds_client cfg).
Proof.
  unfold Cloudwatch.initialise. cbv zeta beta.
  set (region := match session_region W with
                 | Some r => if decide (r = "") then environ !! "AWS_REGION" else Some r
                 | None => environ !! "AWS_REGION"
                 end).
  assert (∀ x, region = Some x →
               session_region W = Some x ∨ environ !! "AWS_REGION" = Some x) as Hregion.
  { subst region. intros x. destruct (session_region W) as [r|]; [|auto].
    destruct (decide (r = "")); [auto|]. intros [= ->]. auto. }
  clearbody region.
  destruct region as [reg|]; [|done].
  destruct (decide (reg = "")) as [|Hreg]; [done|].
  destruct (environ !! "S3_BUCKET_NAME") as [b|]; [|done].
  destruct (decide (b = "")) as [|Hb]; [done|].
  destruct (environ !! "ACCOUNT_ID") as [a|]; [|done].
  destruct (decide (a = "")) as [|Ha]; [done|].
  rewrite bind_run. unfold lift at 1.
  destruct (Cloudwatch.make_prefixes environ) as [rds_prefix|e]; [|done].
  rewrite bind_run. unfold lift at 1.
  destruct (boto3_client W "s3" (Some reg)) as [s3_client|e] eqn:Hs3; [|done].
  rewrite bind_run. unfold lift at 1.
  destruct (boto3_client W "rds" (Some reg)) as [rds_client|e] eqn:Hrds; [|done].
  intros [= <- <-]. cbn. repeat split; auto.
Qed.

(** X10: a log handler without a region, without [S3_BUCKET_NAME], without
    [ACCOUNT_ID] or without a known [ENVIRONMENT] answers no record at all,
    whatever the batch holds: it logs an error and returns the empty list,
    having sent nothing to AWS and fetched no tag. *)
Theorem cloudwatch_unconfigured_answers_nothing W C environ event s :
  ((session_region W = None ∨ session_region W = Some "") ∧
   unset (environ !! "AWS_REGION")) ∨
  unset (environ !! "S3_BUCKET_NAME") ∨
  unset (environ !! "ACCOUNT_ID") ∨
  ¬ known_environment environ →
  ∃ lg msg,
    Cloudwatch.lambda_handler W C environ event s =
    (Ok [], Cloudwatch.State (Cloudwatch.tags_cache s) (Cloudwatch.calls s)
              (Cloudwatch.logged s ++ lg ++ [(ERROR, msg)])).
Proof.
  intros Hbad.
  destruct (Cloudwatch.initialise W environ s) as [[cfg|e] s0] eqn:Hinit.
  { exfalso.
    apply cloudwatch_initialise_requires in Hinit
      as (Hregion & Hreg & Hbucket & Hb & Haccount & Ha & Hprefix & _).
    destruct Hbad as [[Hsession Henv]|[Hbad|[Hbad|Hbad]]].
    - destruct Hregion as [Hr|Hr].
      + rewrite Hr in Hsession. destruct Hsession as [[=]|[= Heq]]. done.
      + rewrite Hr in Henv. destruct Henv as [[=]|[= Heq]]. done.
    - rewrite Hbucket in Hbad. destruct Hbad as [[=]|[= Heq]]. done.
    - rewrite Haccount in Hbad. destruct Hbad as [[=]|[= Heq]]. done.
    - apply Hbad. unfold known_environment.
      apply cloudwatch_prefix_known in Hprefix. tauto. }
  destruct (cloudwatch_initialise_frame _ _ _ _ _ Hinit)
    as (Hcache & Hcalls & _ & lg & Hlogged).
  unfold Cloudwatch.lambda_handler.
  rewrite bind_run. unfold try_except at 1. rewrite bind_run, Hinit.
  destruct s0 as [cache0 calls0 logged0].
  cbn [Cloudwatch.tags_cache Cloudwatch.calls Cloudwatch.logged] in Hcache, Hcalls, Hlogged.
  subst cache0 calls0 logged0.
  destruct (is_ValueError e); rewrite bind_run;
    unfold Cloudwatch.logger, modify; cbn beta iota;
    cbn [Cloudwatch.tags_cache Cloudwatch.calls Cloudwatch.logged];
    rewrite <- app_assoc; eexists lg, _; reflexivity.
Qed.

Lemma cloudwatch_unconfigured_answers_nothing_witness :
  ∃ lg msg,
    Cloudwatch.lambda_handler Scenario.aws_dev Scenario.codecs_dev
      Scenario.environ_no_bucket [Scenario.record_bad_then_log; Scenario.record_bad]
      Cloudwatch.initial_state =
    (Ok [], Cloudwatch.State lru_empty [] ([] ++ lg ++ [(ERROR, msg)])).
Proof.
  apply (cloudwatch_unconfigured_answers_nothing Scenario.aws_dev Scenario.codecs_dev
           Scenario.environ_no_bucket
           [Scenario.record_bad_then_log; Scenario.record_bad]
           Cloudwatch.initial_state).
  right; left. left. vm_compute. reflexivity.
Defined.

(** ** The requests of the metric lambda *)

Global Instance metrics_sends_preorder P : PreOrder (metrics_sends P).
Proof.
  split.
  - intros s. exists []. by rewrite app_nil_r.
  - intros s1 s2 s3 (cs1 & H1 & HP1) (cs2 & H2 & HP2).
    exists (cs1 ++ cs2). rewrite H2, H1, app_assoc. split; [done|].
    by apply Forall_app.
Qed.

Section metrics_requests.
Context (W : aws) (P : api_call → Prop).

Local Abbreviation sends := (follows (metrics_sends P)).

Lemma metrics_quiet {A} (m : M Metrics.state A) :
  (∀ s r s', m s = (r, s') → Metrics.calls s' = Metrics.calls s) → sends m.
Proof. intros Hm s r s' Hrun. exists []. rewrite app_nil_r. eauto. Qed.

Lemma metrics_logger_quiet lv msg : sends (Metrics.logger lv msg).
Proof. apply metrics_quiet. by intros s r s' [= <- <-]. Qed.

Lemma metrics_alloc_quiet d : sends (Metrics.alloc d).
Proof. apply metrics_quiet. by intros s r s' [= <- <-]. Qed.

Lemma metrics_deref_quiet l : sends (Metrics.deref l).
Proof. apply metrics_quiet. by intros s r s' [= <- <-]. Qed.

Lemma metrics_update_quiet l k v : sends (Metrics.update l k v).
Proof. apply metrics_quiet. by intros s r s' [= <- <-]. Qed.

Lemma metrics_copy_quiet l : sends (Metrics.copy l).
Proof.
  unfold Metrics.copy. apply follows_bind; [apply _|apply metrics_deref_quiet|].
  intros d. apply metrics_alloc_quiet.
Qed.

Lemma metrics_call_sends {A} c (answer : result A) :
  P c → sends (Metrics.call c answer).
Proof. intros Hc s r s' [= <- <-]. exists [c]. split; [done|]. by constructor. Qed.

Lemma metrics_get_rds_description_sends c db_name :
  P (DescribeDBInstances c db_name) → sends (Metrics.get_rds_description W c db_name).
Proof.
  intros HP. apply follows_lru_cache; [apply _| |].
  { intros ch s. exists []. by rewrite app_nil_r. }
  unfold Metrics.get_rds_description_body.
  apply follows_except_Exception; [apply _| |].
  - apply follows_bind; [apply _|by apply metrics_call_sends|]. intros size.
    apply follows_bind; [apply _|apply follows_lift; apply _|]. intros instances.
    apply follows_bind; [apply _|apply follows_lift; apply _|]. intros instance.
    destruct (AllocatedStorage instance);
      [apply follows_ret|apply follows_raise]; apply _.
  - intros e. apply follows_bind; [apply _|apply metrics_logger_quiet|].
    intros _. apply follows_ret; apply _.
Qed.

Lemma metrics_get_tags_from_name_sends name type c :
  P (GetBucketTagging c name) → sends (Metrics.get_tags_from_name W name type c).
Proof.
  intros HP. apply follows_lru_cache; [apply _| |].
  { intros ch s. exists []. by rewrite app_nil_r. }
  unfold Metrics.get_tags_from_name_body.
  destruct (decide (type = "S3")) as [Htype|Htype]; [|apply metrics_alloc_quiet].
  apply follows_try_except; [apply _| |].
  - apply follows_bind; [apply _|by apply metrics_call_sends|]. intros response.
    apply metrics_alloc_quiet.
  - intros e h [= <-]. apply follows_raise; apply _.
Qed.

Lemma metrics_get_tags_from_arn_sends arn c :
  P (ListTags c arn) → P (ListTagsForResource c arn) →
  sends (Metrics.get_tags_from_arn W arn c).
Proof.
  intros HP1 HP2. apply follows_lru_cache; [apply _| |].
  { intros ch s. exists []. by rewrite app_nil_r. }
  unfold Metrics.get_tags_from_arn_body.
  apply follows_bind; [apply _| |].
  { destruct (str_in ":domain/" arn); [|apply follows_ret; apply _].
    apply follows_except_Exception; [apply _| |].
    - apply follows_bind; [apply _|by apply metrics_call_sends|]. intros response.
      apply follows_ret; apply _.
    - intros e. apply follows_bind; [apply _|apply metrics_logger_quiet|].
      intros _. apply follows_ret; apply _. }
  intros tags. apply follows_bind; [apply _| |].
  { destruct (str_in ":db:" arn); [|apply follows_ret; apply _].
    apply follows_except_Exception; [apply _| |].
    - apply follows_bind; [apply _|by apply metrics_call_sends|]. intros response.
      cbn zeta. destruct (dict_mem _ _); apply follows_ret; apply _.
    - intros e. apply follows_bind; [apply _|apply metrics_logger_quiet|].
      intros _. apply follows_ret; apply _. }
  intros tags'. apply metrics_alloc_quiet.
Qed.
End metrics_requests.

Lemma metrics_lookup_sends W cfg metric :
  follows (metrics_sends (metrics_scope cfg))
    (Metrics.get_resource_tags_from_metric W metric (Metrics.region cfg)
       (Metrics.s3_client cfg) (Metrics.s3_prefix cfg)
       (Metrics.es_client cfg) (Metrics.domain_prefix cfg)
       (Metrics.rds_client cfg) (Metrics.rds_prefix cfg) (Metrics.account_id cfg)).
Proof.
  unfold Metrics.get_resource_tags_from_metric.
  apply follows_bind; [apply _|apply metrics_alloc_quiet|]. intros tags.
  apply follows_except_Exception; [apply _| |].
  2:{ intros e. apply follows_bind; [apply _|apply metrics_logger_quiet|].
      intros _. apply follows_ret; apply _. }
  apply follows_bind; [apply _|apply follows_lift; apply _|]. intros namespace.
  apply follows_bind; [apply _|apply follows_lift; apply _|]. intros dimensions.
  destruct (eq_str namespace "AWS/S3").
  { apply follows_bind; [apply _|apply follows_lift; apply _|]. intros bucket_name.
    apply follows_bind_lift; [apply _|].
    intros [|] Hpre; [|apply follows_ret; apply _].
    destruct bucket_name as [| | | |name| |]; try (apply follows_ret; apply _).
    injection Hpre as Hpre.
    apply metrics_get_tags_from_name_sends. by split. }
  destruct (eq_str namespace "AWS/ES").
  { apply follows_bind; [apply _|apply follows_lift; apply _|]. intros domain_name.
    apply follows_bind_lift; [apply _|].
    intros [|] Hpre; [|apply follows_ret; apply _].
    destruct domain_name as [| | | |name| |]; try (apply follows_ret; apply _).
    injection Hpre as Hpre.
    apply metrics_get_tags_from_arn_sends; left; by exists name. }
  destruct (eq_str namespace "AWS/RDS"); [|apply follows_ret; apply _].
  apply follows_bind; [apply _|apply follows_lift; apply _|]. intros db_name.
  destruct db_name as [| | | |name| |]; try (apply follows_ret; apply _);
    (apply follows_bind_lift; [apply _|];
     intros [|] Hpre; [|apply follows_ret; apply _]);
    try (apply follows_ret; apply _).
  injection Hpre as Hpre.
  apply follows_bind; [apply _| |].
  { apply metrics_get_tags_from_arn_sends; right; by exists name. }
  intros cached.
  apply follows_bind; [apply _|apply metrics_copy_quiet|]. intros result_tags.
  apply follows_bind; [apply _|apply metrics_deref_quiet|]. intros d.
  apply follows_bind; [apply _|apply follows_lift; apply _|]. intros metric_name.
  destruct (dict_nonempty d && eq_str metric_name "FreeStorageSpace");
    [|apply follows_ret; apply _].
  apply follows_bind; [apply _| |].
  { apply metrics_get_rds_description_sends. by split. }
  intros size.
  apply follows_bind; [apply _|apply metrics_update_quiet|].
  intros _. apply follows_ret; apply _.
Qed.

Lemma metrics_process_metric_sends W C cfg metric :
  follows (metrics_sends (metrics_scope cfg))
    (Metrics.process_metric W C metric (Metrics.region cfg)
       (Metrics.s3_client cfg) (Metrics.s3_prefix cfg)
       (Metrics.es_client cfg) (Metrics.domain_prefix cfg)
       (Metrics.rds_client cfg) (Metrics.rds_prefix cfg) (Metrics.account_id cfg)).
Proof.
  unfold Metrics.process_metric.
  apply follows_except_Exception; [apply _| |].
  2:{ intros e. apply follows_bind; [apply _|apply metrics_logger_quiet|].
      intros _. apply follows_ret; apply _. }
  apply follows_bind; [apply _|apply follows_lift; apply _|]. intros namespace.
  destruct (negb _).
  { apply follows_bind; [apply _|apply metrics_logger_quiet|].
    intros _. apply follows_ret; apply _. }
  apply follows_bind; [apply _|apply metrics_lookup_sends|]. intros tags.
  apply follows_bind; [apply _|apply metrics_deref_quiet|]. intros d.
  destruct (dict_nonempty d); [|apply follows_ret; apply _].
  apply follows_bind; [apply _|apply follows_lift; apply _|]. intros m.
  apply follows_ret; apply _.
Qed.

Lemma metrics_process_line_sends W C cfg acc line :
  follows (metrics_sends (metrics_scope cfg)) (Metrics.process_line W C cfg acc line).
Proof.
  unfold Metrics.process_line.
  apply follows_bind; [apply _|apply follows_lift; apply _|]. intros metric.
  apply follows_bind; [apply _| |].
  { apply follows_foldM; [apply _|]. intros b x. apply follows_lift; apply _. }
  intros metric'.
  apply follows_bind; [apply _|apply metrics_process_metric_sends|].
  intros [metric_results|]; [|apply follows_ret; apply _].
  apply follows_bind; [apply _|apply follows_lift; apply _|]. intros dimensions.
  apply follows_bind; [apply _|apply follows_lift; apply _|]. intros dimensions'.
  apply follows_bind; [apply _|apply follows_lift; apply _|]. intros metric''.
  apply follows_ret; apply _.
Qed.

Lemma metrics_process_record_sends W C cfg outs r :
  follows (metrics_sends (metrics_scope cfg)) (Metrics.process_record W C cfg outs r).
Proof.
  unfold Metrics.process_record.
  apply follows_bind; [apply _|apply follows_lift; apply _|]. intros pj.
  apply follows_bind; [apply _| |].
  { apply follows_foldM; [apply _|]. intros b x. apply metrics_process_line_sends. }
  intros pm. cbn zeta.
  apply follows_bind; [apply _|apply metrics_logger_quiet|].
  intros _. apply follows_ret; apply _.
Qed.

(** The head of the metric handler touches nothing. *)
Lemma metrics_initialise_frame W environ s r s0 :
  Metrics.initialise W environ s = (r, s0) → s0 = s.
Proof.
  unfold Metrics.initialise. cbv zeta.
  rewrite bind_run. unfold lift at 1.
  destruct (Metrics.make_prefixes environ) as [[[rdsp s3p] dp]|e];
    [|by intros [= <- <-]].
  rewrite bind_run. unfold lift at 1.
  destruct (boto3_client W "s3" _) as [c1|e]; [|by intros [= <- <-]].
  rewrite bind_run. unfold lift at 1.
  destruct (boto3_client W "es" _) as [c2|e]; [|by intros [= <- <-]].
  rewrite bind_run. unfold lift at 1.
  destruct (boto3_client W "rds" _) as [c3|e]; by intros [= <- <-].
Qed.

(** X11: the metric handler only reads.  Whatever the batch holds and
    whether the handler returns or raises, every request it sends to AWS is
    a read of bucket tags, of domain or database tags, or of a database
    description, made with the client of that service for a resource whose
    name starts with the prefix of the deployment; it never writes. *)
Theorem metrics_handler_requests W C environ event s cfg s0 r s' :
  Metrics.initialise W environ s = (Ok cfg, s0) →
  Metrics.lambda_handler W C environ event s = (r, s') →
  ∃ cs, Metrics.calls s' = Metrics.calls s ++ cs ∧ Forall (metrics_scope cfg) cs.
Proof.
  intros Hinit. pose proof (metrics_initialise_frame _ _ _ _ _ Hinit) as ->.
  unfold Metrics.lambda_handler. rewrite bind_run, Hinit.
  assert (follows (metrics_sends (metrics_scope cfg))
            (except_Exception (foldM (Metrics.process_record W C cfg) [] event)
               (λ e, Metrics.logger ERROR ("Error processing metrics: " +:+ exn_msg e);;
                     raise e))) as Hsends.
  { apply follows_except_Exception; [apply _| |].
    - apply follows_foldM; [apply _|]. intros b x. apply metrics_process_record_sends.
    - intros e. apply follows_bind; [apply _|apply metrics_logger_quiet|].
      intros _. apply follows_raise; apply _. }
  intros Hrun. exact (Hsends _ _ _ Hrun).
Qed.

Lemma metrics_handler_requests_witness :
  ∃ cs,
    Metrics.calls
      (Metrics.lambda_handler Scenario.aws_dev Scenario.codecs_dev Scenario.environ
         [Scenario.record_metric; Scenario.record_metric_gone]
         Metrics.initial_state).2
    = Metrics.calls Metrics.initial_state ++ cs ∧
    Forall (metrics_scope Scenario.metrics_cfg) cs.
Proof.
  apply (metrics_handler_requests Scenario.aws_dev Scenario.codecs_dev Scenario.environ
           [Scenario.record_metric; Scenario.record_metric_gone]
           Metrics.initial_state Scenario.metrics_cfg Metrics.initial_state
           (Metrics.lambda_handler Scenario.aws_dev Scenario.codecs_dev Scenario.environ
              [Scenario.record_metric; Scenario.record_metric_gone]
              Metrics.initial_state).1).
  - vm_compute. reflexivity.
  - apply surjective_pairing.
Defined.

(** ** The records of the metric lambda, one by one *)

(** A metric that [process_metric] keeps is the metric it was given, with a
    non-empty mapping stored under ["Tags"]. *)
Lemma process_metric_some W C metric region s3c s3p esc dp rdsc rdsp acct s kept s' :
  Metrics.process_metric W C metric region s3c s3p esc dp rdsc rdsp acct s
  = (Ok (Some kept), s') →
  ∃ m d, metric = VDict m ∧ d ≠ [] ∧ kept = VDict (dict_set "Tags" (VDict d) m).
Proof.
  unfold Metrics.process_metric, except_Exception, try_except.
  rewrite bind_run. unfold lift at 1.
  destruct (method_get metric "namespace" VNone) as [ns|e].
  2:{ rewrite bind_run. unfold Metrics.logger, modify. cbn beta iota. intros [=]. }
  destruct (negb _).
  { rewrite bind_run. unfold Metrics.logger, modify. cbn beta iota. intros [=]. }
  rewrite bind_run.
  destruct (Metrics.get_resource_tags_from_metric _ _ _ _ _ _ _ _ _ _ s) as [[l|e] s1].
  2:{ rewrite bind_run. unfold Metrics.logger, modify. cbn beta iota. intros [=]. }
  rewrite bind_run. unfold Metrics.deref at 1, gets. cbn beta iota.
  destruct (default [] (Metrics.heap s1 !! l)) as [|kv d] eqn:Hd;
    cbn [dict_nonempty]; [intros [=]|].
  rewrite bind_run. unfold lift at 1.
  destruct metric as [| | | | | |m]; cbn [Metrics.setitem];
    try (rewrite bind_run; unfold Metrics.logger, modify; cbn beta iota; intros [=]).
  intros [= <- <-]. by exists m, (kv :: d).
Qed.







(** ** The metric that is emitted *)

Lemma dict_get_pop_ne k k' d : k ≠ k' → dict_get k' (dict_pop k d) = dict_get k' d.
Proof.
  intros Hne. induction d as [|[k0 v0] d IH]; [done|]. cbn [dict_pop].
  destruct (decide (k = k0)) as [->|Hk0]; cbn [dict_get].
  - by rewrite decide_False by done.
  - by rewrite IH.
Qed.

Lemma dict_get_None k d : k ∉ d.*1 → dict_get k d = None.
Proof.
  induction d as [|[k0 v0] d IH]; [done|]. cbn [dict_get fmap list_fmap fst].
  intros Hnot. apply not_elem_of_cons in Hnot as [Hne Hnot].
  rewrite decide_False by done. by apply IH.
Qed.

Lemma dict_get_pop_eq k d : NoDup d.*1 → dict_get k (dict_pop k d) = None.
Proof.
  induction d as [|[k0 v0] d IH]; [done|]. cbn [dict_pop fmap list_fmap fst].
  intros [Hnot Hd]%NoDup_cons.
  destruct (decide (k = k0)) as [->|Hk0].
  - by apply dict_get_None.
  - cbn [dict_get]. rewrite decide_False by done. by apply IH.
Qed.

Lemma dict_pop_keys k d x : x ∈ (dict_pop k d).*1 → x ∈ d.*1.
Proof.
  induction d as [|[k0 v0] d IH]; [done|]. cbn [dict_pop].
  destruct (decide (k = k0)); cbn [fmap list_fmap fst].
  - intros Hin. apply elem_of_cons. auto.
  - intros [->|Hin]%elem_of_cons; apply elem_of_cons; auto.
Qed.

Lemma dict_pop_NoDup k d : NoDup d.*1 → NoDup (dict_pop k d).*1.
Proof.
  induction d as [|[k0 v0] d IH]; [done|]. cbn [dict_pop fmap list_fmap fst].
  intros [Hnot Hd]%NoDup_cons.
  destruct (decide (k = k0)); [done|]. cbn [fmap list_fmap fst].
  apply NoDup_cons. split; [|by apply IH].
  intros Hin. apply Hnot. by apply (dict_pop_keys k d).
Qed.

Lemma stream_key k :
  k ∈ Metrics.default_keys_to_remove ↔
  k = "metric_stream_name" ∨ k = "account_id" ∨ k = "region".
Proof.
  unfold Metrics.default_keys_to_remove.
  rewrite !elem_of_cons, elem_of_nil. tauto.
Qed.

(** The keys of the metric stream are gone from a metric once they are
    popped; the other keys are as they were. *)
Lemma without_stream_keys_get m k :
  NoDup m.*1 →
  dict_get k (without_stream_keys m) =
  if bool_decide (k ∈ Metrics.default_keys_to_remove) then None else dict_get k m.
Proof.
  intros Hm. unfold without_stream_keys.
  change (foldl (λ d k0, dict_pop k0 d) m Metrics.default_keys_to_remove)
    with (dict_pop "region" (dict_pop "account_id" (dict_pop "metric_stream_name" m))).
  destruct (decide (k = "region")) as [->|H1].
  { rewrite bool_decide_eq_true_2 by (apply stream_key; auto).
    apply dict_get_pop_eq. by do 2 apply dict_pop_NoDup. }
  rewrite dict_get_pop_ne by done.
  destruct (decide (k = "account_id")) as [->|H2].
  { rewrite bool_decide_eq_true_2 by (apply stream_key; auto).
    apply dict_get_pop_eq. by apply dict_pop_NoDup. }
  rewrite dict_get_pop_ne by done.
  destruct (decide (k = "metric_stream_name")) as [->|H3].
  { rewrite bool_decide_eq_true_2 by (apply stream_key; auto).
    by apply dict_get_pop_eq. }
  rewrite dict_get_pop_ne by done.
  rewrite bool_decide_eq_false_2; [done|]. rewrite stream_key. tauto.
Qed.

(** X13: what the metric handler emits for a line that holds a JSON object
    with distinct keys.  The line adds nothing, or it adds the metric with
    the three keys of the metric stream removed, a non-empty mapping under
    ["Tags"], its dimensions without [ClientId], and every other key as it
    came. *)
Theorem metrics_emitted_metric W C cfg acc line m s acc' s' :
  json_loads C line = Ok (VDict m) →
  NoDup m.*1 →
  (∀ dims, dict_get "dimensions" m = Some (VDict dims) → NoDup dims.*1) →
  Metrics.process_line W C cfg acc line s = (Ok acc', s') →
  acc' = acc ∨
  ∃ m' tags dims dims',
    acc' = acc ++ [VDict m'] ∧
    dict_get "Tags" m' = Some (VDict tags) ∧ tags ≠ [] ∧
    dict_get "dimensions" m = Some (VDict dims) ∧
    dict_get "dimensions" m' = Some (VDict dims') ∧
    dict_get "ClientId" dims' = None ∧
    (∀ k, k ≠ "ClientId" → dict_get k dims' = dict_get k dims) ∧
    (∀ k, k ∈ Metrics.default_keys_to_remove → dict_get k m' = None) ∧
    (∀ k, k ∉ Metrics.default_keys_to_remove → k ≠ "Tags" → k ≠ "dimensions" →
          dict_get k m' = dict_get k m).
Proof.
  intros Hjson Hm Hdims. unfold Metrics.process_line.
  rewrite bind_run. unfold lift at 1. rewrite Hjson.
  rewrite bind_run, strip_stream_keys. rewrite bind_run.
  destruct (Metrics.process_metric _ _ _ _ _ _ _ _ _ _ _ s)
    as [[[kept|]|e] s2] eqn:Hkept; [| |done].
  2:{ intros [= <- <-]. by left. }
  apply process_metric_some in Hkept as (m0 & d & [= <-] & Hd & ->).
  rewrite bind_run. unfold lift at 1. cbn [subscript].
  rewrite dict_get_set_ne by done.
  rewrite without_stream_keys_get by done.
  rewrite bool_decide_eq_false_2
    by (rewrite stream_key; intros [[=]|[[=]|[=]]]).
  destruct (dict_get "dimensions" m) as [dims|] eqn:Hdim; [|done].
  rewrite bind_run. unfold lift at 1.
  destruct dims as [| | | | | |dd]; try done. cbn [Metrics.method_pop].
  rewrite bind_run. unfold lift at 1. cbn [Metrics.setitem].
  intros [= <- <-]. right. eexists _, d, dd, _. split; [reflexivity|].
  split. { rewrite dict_get_set_ne by done. apply dict_get_set_eq. }
  split; [done|]. split; [done|].
  split. { apply dict_get_set_eq. }
  split. { apply dict_get_pop_eq. by apply Hdims. }
  split. { intros k Hk. by apply dict_get_pop_ne. }
  split.
  - intros k Hk.
    rewrite !dict_get_set_ne
      by (intros <-; apply stream_key in Hk as [[=]|[[=]|[=]]]).
    rewrite without_stream_keys_get by done. by rewrite bool_decide_eq_true_2.
  - intros k Hk HT HD. rewrite !dict_get_set_ne by done.
    rewrite without_stream_keys_get by done. by rewrite bool_decide_eq_false_2.
Qed.

Lemma metrics_emitted_metric_witness :
  ∃ m' tags,
    (Metrics.process_line Scenario.aws_dev Scenario.codecs_dev Scenario.metrics_cfg []
       Scenario.line_metric Metrics.initial_state).1 = Ok ([] ++ [VDict m']) ∧
    dict_get "Tags" m' = Some (VDict tags) ∧ tags ≠ [] ∧
    (∀ k, k ∈ Metrics.default_keys_to_remove → dict_get k m' = None).
Proof.
  destruct (Metrics.process_line Scenario.aws_dev Scenario.codecs_dev
              Scenario.metrics_cfg [] Scenario.line_metric Metrics.initial_state)
    as [[acc'|e] s'] eqn:Hrun.
  - destruct (metrics_emitted_metric Scenario.aws_dev Scenario.codecs_dev
                Scenario.metrics_cfg [] Scenario.line_metric
                [("metric_stream_name", VStr "s"); ("account_id", VStr "123456");
                 ("region", VStr "us-gov-west-1"); ("namespace", VStr "AWS/RDS");
                 ("metric_name", VStr "FreeStorageSpace");
                 ("dimensions",
                  VDict [("DBInstanceIdentifier", VStr "cg-aws-broker-dev-test")]);
                 ("value", VDict [("max", VInt 5); ("min", VInt 5); ("sum", VInt 5);
                                  ("count", VInt 1)])]
                Metrics.initial_state acc' s')
      as [Hsame|(m' & tags & dims & dims' & Hacc & Htags & Hne & _ & _ & _ & _ & Hgone & _)].
    + vm_compute. reflexivity.
    + apply (bool_decide_unpack _). vm_compute. reflexivity.
    + intros dims [= <-]. apply (bool_decide_unpack _). vm_compute. reflexivity.
    + exact Hrun.
    + exfalso. subst acc'. vm_compute in Hrun. discriminate Hrun.
    + exists m', tags. cbn [fst]. by rewrite Hacc.
  - vm_compute in Hrun. discriminate Hrun.
Defined.

(** ** What the caches remember *)

(** X14: a tag fetch that fails is remembered as the empty mapping.  When
    the request for a locator that is not cached is refused, the cached
    lookup of either lambda answers the empty mapping, and the next call for
    the same locator and client answers it again without asking AWS, even
    when AWS would by then answer the tags. *)
Theorem failed_fetch_is_remembered W1 W2 arn c
    (sc : Cloudwatch.state) (sm : Metrics.state) :
  tag_fetch_fails W1 c arn →
  cache_get (arn, c) (entries (Cloudwatch.tags_cache sc)) = None →
  cache_get (arn, c) (entries (Metrics.arn_cache sm)) = None →
  (∃ s1 s2,
     Cloudwatch.get_tags_from_arn W1 arn c sc = (Ok [], s1) ∧
     Cloudwatch.get_tags_from_arn W2 arn c s1 = (Ok [], s2) ∧
     Cloudwatch.calls s2 = Cloudwatch.calls s1) ∧
  (∃ l s1 s2,
     Metrics.get_tags_from_arn W1 arn c sm = (Ok l, s1) ∧
     Metrics.get_tags_from_arn W2 arn c s1 = (Ok l, s2) ∧
     Metrics.heap s2 !! l = Some [] ∧
     Metrics.calls s2 = Metrics.calls s1).
Proof.
  intros Hfail Hmiss_c Hmiss_m. split.
  - pose proof (cloudwatch_get_tags_run W1 arn c sc) as H1.
    rewrite Hmiss_c in H1. destruct H1 as [lg H1].
    assert (cloudwatch_fetched W1 arn c = []) as Hempty.
    { unfold cloudwatch_fetched. destruct Hfail as [_ [e ->]].
      by destruct (str_in ":db:" arn). }
    rewrite Hempty in H1. rewrite H1.
    match goal with |- context [(Ok [], ?st)] => set (s1 := st) end.
    pose proof (cloudwatch_get_tags_run W2 arn c s1) as H2.
    subst s1. cbn [Cloudwatch.tags_cache entries] in H2.
    rewrite cache_get_take_head in H2.
    eexists _, _. split; [reflexivity|]. split; [exact H2|]. reflexivity.
  - pose proof (metrics_get_tags_run W1 arn c sm) as H1.
    rewrite Hmiss_m in H1. destruct H1 as [lg H1].
    rewrite (metrics_fetched_failure W1 c arn Hfail) in H1. rewrite H1.
    match goal with |- context [(Ok (length (Metrics.heap sm)), ?st)] =>
      set (s1 := st) end.
    pose proof (metrics_get_tags_run W2 arn c s1) as H2.
    subst s1. cbn [Metrics.arn_cache entries] in H2.
    rewrite cache_get_take_head in H2.
    eexists _, _, _. split; [reflexivity|]. split; [exact H2|].
    cbn [Metrics.set_arn_cache Metrics.heap Metrics.calls]. split; [|done].
    apply lookup_fresh.
Qed.

Lemma failed_fetch_is_remembered_witness :
  (∃ s1 s2,
     Cloudwatch.get_tags_from_arn Scenario.aws_dev Scenario.arn_down Scenario.rds
       Cloudwatch.initial_state = (Ok [], s1) ∧
     Cloudwatch.get_tags_from_arn aws_recovered Scenario.arn_down Scenario.rds s1
     = (Ok [], s2) ∧
     Cloudwatch.calls s2 = Cloudwatch.calls s1) ∧
  (∃ l s1 s2,
     Metrics.get_tags_from_arn Scenario.aws_dev Scenario.arn_down Scenario.rds
       Metrics.initial_state = (Ok l, s1) ∧
     Metrics.get_tags_from_arn aws_recovered Scenario.arn_down Scenario.rds s1
     = (Ok l, s2) ∧
     Metrics.heap s2 !! l = Some [] ∧
     Metrics.calls s2 = Metrics.calls s1).
Proof.
  apply (failed_fetch_is_remembered Scenario.aws_dev aws_recovered
           Scenario.arn_down Scenario.rds).
  - split; eexists; vm_compute; reflexivity.
  - vm_compute. reflexivity.
  - vm_compute. reflexivity.
Defined.

(** X15: the lookup of bucket tags cannot catch a failure.  Its [except]
    clause names [client.exceptions.NoSuchTagSet], which the S3 client does
    not have: whatever exception [get_bucket_tagging] raises for a bucket
    that is not cached, also the error of a bucket without a tag set, the
    lookup raises the [AttributeError] of that name in its place, logs
    nothing and stores nothing, so that the next call sends the request
    again.  The tag lookup of a metric of such a bucket catches that
    [AttributeError], logs it and answers the empty mapping. *)
Theorem bucket_failure_is_never_cached W1 W2 name c e s :
  cache_get (name, "S3", c) (entries (Metrics.name_cache s)) = None →
  get_bucket_tagging W1 c name = Raise e →
  (∃ s1 r s2,
     Metrics.get_tags_from_name W1 name "S3" c s =
     (Raise (Exn AttributeError (exceptions_NoSuchTagSet W1 c)), s1) ∧
     Metrics.calls s1 = Metrics.calls s ++ [GetBucketTagging c name] ∧
     Metrics.logged s1 = Metrics.logged s ∧
     Metrics.heap s1 = Metrics.heap s ∧
     entries (Metrics.name_cache s1) = entries (Metrics.name_cache s) ∧
     Metrics.get_tags_from_name W2 name "S3" c s1 = (r, s2) ∧
     Metrics.calls s2 = Metrics.calls s1 ++ [GetBucketTagging c name]) ∧
  (∀ metric dimensions region s3_prefix es_client domain_prefix rds_client rds_prefix
     account_id,
     method_get metric "namespace" VNone = Ok (VStr "AWS/S3") →
     method_get metric "dimensions" (VDict []) = Ok dimensions →
     method_get dimensions "BucketName" VNone = Ok (VStr name) →
     startswith name s3_prefix = true →
     ∃ l s',
       Metrics.get_resource_tags_from_metric W1 metric region c s3_prefix
         es_client domain_prefix rds_client rds_prefix account_id s = (Ok l, s') ∧
       Metrics.heap s' !! l = Some [] ∧
       Metrics.calls s' = Metrics.calls s ++ [GetBucketTagging c name] ∧
       Metrics.logged s' =
       Metrics.logged s ++
         [(ERROR, "Error with getting tags for resource: "
                  +:+ exceptions_NoSuchTagSet W1 c)]).
Proof.
  intros Hmiss Hfail.
  assert (∀ s0,
            cache_get (name, "S3", c) (entries (Metrics.name_cache s0)) = None →
            Metrics.get_tags_from_name W1 name "S3" c s0 =
            (Raise (Exn AttributeError (exceptions_NoSuchTagSet W1 c)),
             Metrics.State (Metrics.heap s0) (Metrics.arn_cache s0)
               (Lru (entries (Metrics.name_cache s0)) (hits (Metrics.name_cache s0))
                    (S (misses (Metrics.name_cache s0))))
               (Metrics.rds_cache s0)
               (Metrics.calls s0 ++ [GetBucketTagging c name])
               (Metrics.logged s0))) as Hrun.
  { intros s0 Hmiss0.
    unfold Metrics.get_tags_from_name, lru_cache. rewrite Hmiss0.
    unfold Metrics.get_tags_from_name_body. rewrite decide_True by done.
    unfold try_except. rewrite bind_run. unfold Metrics.call at 1.
    rewrite Hfail. reflexivity. }
  split.
  - eexists _, _, _. split; [by apply Hrun|].
    cbn [Metrics.heap Metrics.name_cache Metrics.calls Metrics.logged entries].
    do 4 (split; [done|]). split; [apply surjective_pairing|].
    unfold Metrics.get_tags_from_name, lru_cache.
    cbn [Metrics.name_cache entries hits misses]. rewrite Hmiss.
    unfold Metrics.get_tags_from_name_body. rewrite decide_True by done.
    unfold try_except. rewrite bind_run. unfold Metrics.call at 1.
    cbn [Metrics.set_name_cache Metrics.heap Metrics.name_cache
         Metrics.arn_cache Metrics.rds_cache Metrics.calls Metrics.logged entries].
    destruct (get_bucket_tagging W2 c name) as [response|e2]; [|done].
    unfold Metrics.alloc.
    cbn [Metrics.set_heap Metrics.set_name_cache Metrics.heap Metrics.name_cache
         Metrics.arn_cache Metrics.rds_cache Metrics.calls Metrics.logged entries].
    by rewrite Hmiss.
  - intros metric dimensions region s3_prefix es_client domain_prefix rds_client
      rds_prefix account_id Hns Hdim Hname Hpre.
    unfold Metrics.get_resource_tags_from_metric.
    rewrite bind_run. unfold Metrics.alloc at 1. cbn beta iota.
    unfold except_Exception, try_except.
    rewrite bind_run. unfold lift at 1. rewrite Hns.
    rewrite bind_run. unfold lift at 1. rewrite Hdim.
    change (eq_str (VStr "AWS/S3") "AWS/S3") with true. cbn beta iota.
    rewrite bind_run. unfold lift at 1. rewrite Hname.
    rewrite bind_run. unfold lift at 1. cbn [method_startswith]. rewrite Hpre.
    rewrite Hrun by done.
    rewrite bind_run. unfold Metrics.logger, modify. cbn beta iota.
    unfold mret, M_ret. eexists _, _. split; [reflexivity|].
    cbn [Metrics.set_heap Metrics.heap Metrics.name_cache Metrics.arn_cache
         Metrics.rds_cache Metrics.calls Metrics.logged exn_msg].
    split; [apply lookup_fresh|]. done.
Qed.

Lemma bucket_failure_is_never_cached_witness :
  (∃ s1 r s2,
     Metrics.get_tags_from_name aws_untagged_buckets "development-cg-bucket" "S3"
       Scenario.s3 Metrics.initial_state =
     (Raise (Exn AttributeError
               (exceptions_NoSuchTagSet aws_untagged_buckets Scenario.s3)), s1) ∧
     Metrics.calls s1 = [] ++ [GetBucketTagging Scenario.s3 "development-cg-bucket"] ∧
     Metrics.logged s1 = [] ∧
     Metrics.heap s1 = [] ∧
     entries (Metrics.name_cache s1) = [] ∧
     Metrics.get_tags_from_name aws_recovered "development-cg-bucket" "S3"
       Scenario.s3 s1 = (r, s2) ∧
     Metrics.calls s2
     = Metrics.calls s1 ++ [GetBucketTagging Scenario.s3 "development-cg-bucket"]) ∧
  (∃ l s',
     Metrics.get_resource_tags_from_metric aws_untagged_buckets (VDict metric_bucket)
       (Some "us-gov-west-1") Scenario.s3 "development-cg-" Scenario.es
       "cg-broker-dev-" Scenario.rds "cg-aws-broker-dev" (Some "123456")
       Metrics.initial_state = (Ok l, s') ∧
     Metrics.heap s' !! l = Some [] ∧
     Metrics.calls s' = [] ++ [GetBucketTagging Scenario.s3 "development-cg-bucket"] ∧
     Metrics.logged s' =
     [] ++ [(ERROR, "Error with getting tags for resource: "
                    +:+ exceptions_NoSuchTagSet aws_untagged_buckets Scenario.s3)]).
Proof.
  pose proof (bucket_failure_is_never_cached aws_untagged_buckets aws_recovered
                "development-cg-bucket" Scenario.s3
                (Exn ClientError
                   "An error occurred (NoSuchTagSet) when calling the GetBucketTagging operation: The TagSet does not exist")
                Metrics.initial_state eq_refl eq_refl) as [Hlookup Hmetric].
  split; [exact Hlookup|].
  apply (Hmetric (VDict metric_bucket)
           (VDict [("BucketName", VStr "development-cg-bucket");
                   ("StorageType", VStr "StandardStorage")]));
    vm_compute; reflexivity.
Defined.

(** ** The subscription provisioner, beyond the conflict *)

(** X16: with its configuration in place and a log group under the database
    prefix, the provisioner sends one [put_subscription_filter], for that
    log group, with the filter name [firehose_for_opensearch], an empty
    pattern and the two configured locators.  When AWS accepts it, the
    handler logs the success and returns; when AWS refuses with anything but
    [ResourceAlreadyExistsException], the handler raises that very exception
    and logs nothing. *)
Theorem provisioner_subscribes W C environ event logs firehose role prefix name s :
  boto3_client W "logs" None = Ok logs →
  environ !! "FIREHOSE_ARN" = Some firehose →
  environ !! "ROLE_ARN" = Some role →
  Subscription.make_prefixes environ = Ok prefix →
  Subscription.log_group_name_of event = Ok (VStr name) →
  startswith name ("/aws/rds/instance/" +:+ prefix) = true →
  let request :=
    {| logGroupName := name; filterName := "firehose_for_opensearch";
       filterPattern := ""; destinationArn := firehose; roleArn := role |} in
  match put_subscription_filter W logs request with
  | Ok _ =>
      Subscription.lambda_handler W C environ event s =
      (Ok tt,
       Subscription.State
         (Subscription.calls s ++ [PutSubscriptionFilter logs request])
         (Subscription.logged s ++ [(INFO, "subscription filter made for " +:+ name)]))
  | Raise e =>
      exn_cls e ≠ ResourceAlreadyExistsException →
      Subscription.lambda_handler W C environ event s =
      (Raise e,
       Subscription.State
         (Subscription.calls s ++ [PutSubscriptionFilter logs request])
         (Subscription.logged s))
  end.
Proof.
  intros Hclient Hfire Hrole Hprefix Hname Hstarts request.
  destruct (put_subscription_filter W logs request) as [[]|e] eqn:Hput;
    [|intros Hcls];
    unfold Subscription.lambda_handler;
    rewrite bind_run; unfold lift at 1; rewrite Hclient;
    rewrite bind_run; unfold lift at 1, Subscription.environ_item; rewrite Hfire;
    rewrite bind_run; unfold lift at 1; rewrite Hrole;
    rewrite bind_run; unfold lift at 1; rewrite Hprefix;
    rewrite bind_run; unfold lift at 1; rewrite Hname;
    rewrite bind_run; cbn [Subscription.truthy];
    rewrite bool_decide_eq_false_2 by (by eapply startswith_nonempty);
    cbn [negb]; unfold lift at 1; cbn [method_startswith]; rewrite Hstarts;
    unfold try_except; rewrite bind_run;
    unfold Subscription.call at 1; fold request; rewrite Hput.
  - reflexivity.
  - unfold is_class. by rewrite bool_decide_eq_false_2.
Qed.

Lemma provisioner_subscribes_witness :
  Subscription.lambda_handler Scenario.aws_dev Scenario.codecs_dev Scenario.environ
    (VDict [("detail",
             VDict [("requestParameters",
                     VDict [("logGroupName",
                             VStr "/aws/rds/instance/cg-aws-broker-dev-new")])])])
    Subscription.initial_state =
  (Ok tt,
   Subscription.State
     ([] ++ [PutSubscriptionFilter Scenario.logs
               {| logGroupName := "/aws/rds/instance/cg-aws-broker-dev-new";
                  filterName := "firehose_for_opensearch"; filterPattern := "";
                  destinationArn :=
                    "arn:aws-us-gov:firehose:us-gov-west-1:123456:deliverystream/logs";
                  roleArn := "arn:aws-us-gov:iam::123456:role/subscription" |}])
     ([] ++ [(INFO, "subscription filter made for "
                    +:+ "/aws/rds/instance/cg-aws-broker-dev-new")])).
Proof.
  refine (provisioner_subscribes Scenario.aws_dev Scenario.codecs_dev Scenario.environ _
            Scenario.logs
            "arn:aws-us-gov:firehose:us-gov-west-1:123456:deliverystream/logs"
            "arn:aws-us-gov:iam::123456:role/subscription"
            "cg-aws-broker-dev" "/aws/rds/instance/cg-aws-broker-dev-new"
            Subscription.initial_state _ _ _ _ _ _);
    vm_compute; reflexivity.
Defined.



(** ** Tag lists *)

Lemma dict_set_keys k v d x : x ∈ (dict_set k v d).*1 ↔ x = k ∨ x ∈ d.*1.
Proof.
  induction d as [|[k0 v0] d IH]; cbn [dict_set fmap list_fmap fst].
  - rewrite elem_of_cons. tauto.
  - destruct (decide (k = k0)) as [->|Hne]; cbn [fmap list_fmap fst].
    + rewrite !elem_of_cons. tauto.
    + rewrite !elem_of_cons, IH. tauto.
Qed.

Lemma dict_set_NoDup k v d : NoDup d.*1 → NoDup (dict_set k v d).*1.
Proof.
  induction d as [|[k0 v0] d IH]; cbn [dict_set fmap list_fmap fst].
  - intros _. apply NoDup_singleton.
  - intros [Hnot Hd]%NoDup_cons.
    destruct (decide (k = k0)) as [->|Hne]; cbn [fmap list_fmap fst].
    + by apply NoDup_cons.
    + apply NoDup_cons. split; [|by apply IH].
      rewrite dict_set_keys. intros [->|Hin]; done.
Qed.

Lemma tags_fold_get k tag_list : ∀ d,
  dict_get k (foldl (λ d kv, dict_set kv.1 (VStr kv.2) d) d tag_list) =
  match tag_value k tag_list with
  | Some v => Some (VStr v)
  | None => dict_get k d
  end.
Proof.
  induction tag_list as [|[k0 v0] rest IH]; intros d; [done|].
  cbn [foldl tag_value fst snd]. rewrite IH.
  destruct (tag_value k rest) as [x|]; [done|].
  destruct (decide (k = k0)) as [->|Hne].
  - apply dict_get_set_eq.
  - by apply dict_get_set_ne.
Qed.

Lemma tags_fold_NoDup tag_list : ∀ d,
  NoDup d.*1 → NoDup (foldl (λ d kv, dict_set kv.1 (VStr kv.2) d) d tag_list).*1.
Proof.
  induction tag_list as [|[k0 v0] rest IH]; intros d Hd; [done|].
  cbn [foldl]. apply IH. by apply dict_set_NoDup.
Qed.

Lemma tag_value_None k tag_list : tag_value k tag_list = None ↔ k ∉ tag_list.*1.
Proof.
  induction tag_list as [|[k0 v0] rest IH]; cbn [tag_value fmap list_fmap fst].
  - split; [intros _; apply not_elem_of_nil|done].
  - rewrite not_elem_of_cons, <- IH.
    destruct (tag_value k rest) as [x|].
    + split; [done|]. by intros [_ [=]].
    + destruct (decide (k = k0)) as [->|Hne]; split; try done.
      by intros [? _].
Qed.

(** X18: the mapping built from a tag list has distinct keys, holds a key
    exactly when some tag of the list has it, and gives to each key the
    value of the last tag that has it. *)
Theorem dict_of_tags_lookup (tag_list : list (string * string)) (k : string) :
  NoDup (dict_of_tags tag_list).*1 ∧
  dict_get k (dict_of_tags tag_list) = VStr <$> tag_value k tag_list ∧
  (dict_mem k (dict_of_tags tag_list) = true ↔ k ∈ tag_list.*1).
Proof.
  unfold dict_of_tags, dict_mem.
  split; [apply tags_fold_NoDup, NoDup_nil_2|].
  rewrite tags_fold_get. cbn [dict_get].
  destruct (tag_value k tag_list) as [v|] eqn:Hv; cbn [fmap option_fmap option_map].
  - split; [done|]. split; [intros _|done].
    destruct (decide (k ∈ tag_list.*1)) as [|Hnot]; [done|].
    apply tag_value_None in Hnot. congruence.
  - split; [done|]. split; [done|]. intros Hin.
    apply tag_value_None in Hv. done.
Qed.

(** ** Blank payloads *)

Lemma lstrip_blank s : blank s → lstrip s = "".
Proof.
  unfold blank. induction s as [|c s IH]; [intros _; reflexivity|].
  cbn [String.list_ascii_of_string lstrip].
  intros [Hc Hs]%Forall_cons. rewrite Hc. by apply IH.
Qed.

Lemma strip_blank s : blank s → strip s = "".
Proof. intros Hs. unfold strip. rewrite (lstrip_blank s) by done. reflexivity. Qed.

(** X19: a record whose payload is blank once decoded is answered
    [Dropped], with the payload it came with, by both handlers; nothing is
    logged about its lines, nothing is sent to AWS and nothing reaches
    S3. *)
Theorem blank_record_is_dropped W C (ccfg : Cloudwatch.config) (mcfg : Metrics.config)
    outs s3 r (sc : Cloudwatch.state) (sm : Metrics.state) :
  (∀ compressed_data pre_json_value,
     b64decode C (data r) = Ok compressed_data →
     gzip_decompress C compressed_data = Ok pre_json_value →
     blank pre_json_value →
     Cloudwatch.process_record W C ccfg (outs, s3) r sc =
     (Ok (outs ++ [{| out_recordId := recordId r; out_result := Dropped;
                      out_data := data r |}], s3), sc)) ∧
  (∀ pre_json_value,
     b64decode C (data r) = Ok pre_json_value →
     blank pre_json_value →
     ∃ sm',
       Metrics.process_record W C mcfg outs r sm =
       (Ok (outs ++ [{| out_recordId := recordId r; out_result := Dropped;
                        out_data := data r |}]), sm') ∧
       Metrics.calls sm' = Metrics.calls sm ∧
       Metrics.logged sm' =
       Metrics.logged sm ++ [(INFO, "Processed record with 0 metrics")]).
Proof.
  split.
  - intros cd pj Hb64 Hgz Hblank.
    unfold Cloudwatch.process_record, except_Exception, try_except.
    rewrite bind_run. unfold lift at 1. rewrite Hb64.
    rewrite bind_run. unfold lift at 1. rewrite Hgz.
    rewrite bind_run, strip_blank by done. reflexivity.
  - intros pj Hb64 Hblank.
    unfold Metrics.process_record.
    rewrite bind_run. unfold lift at 1. rewrite Hb64.
    rewrite bind_run, strip_blank by done.
    eexists. split; [reflexivity|]. split; reflexivity.
Qed.

Lemma blank_record_is_dropped_witness :
  Cloudwatch.process_record Scenario.aws_dev codecs_blank Scenario.cloudwatch_cfg
    ([], []) record_blank_log Cloudwatch.initial_state =
  (Ok ([] ++ [{| out_recordId := "log-3"; out_result := Dropped;
                 out_data := "H4sIAAAAAAACA+MCAJMG1zIBAAAA" |}], []),
   Cloudwatch.initial_state) ∧
  ∃ sm',
    Metrics.process_record Scenario.aws_dev codecs_blank Scenario.metrics_cfg
      [] record_blank_metric Metrics.initial_state =
    (Ok ([] ++ [{| out_recordId := "metric-4"; out_result := Dropped;
                   out_data := "Cg==" |}]), sm') ∧
    Metrics.calls sm' = Metrics.calls Metrics.initial_state ∧
    Metrics.logged sm' =
    Metrics.logged Metrics.initial_state ++ [(INFO, "Processed record with 0 metrics")].
Proof.
  split.
  - apply (proj1 (blank_record_is_dropped Scenario.aws_dev codecs_blank
                    Scenario.cloudwatch_cfg Scenario.metrics_cfg [] []
                    record_blank_log Cloudwatch.initial_state Metrics.initial_state)
             gz_blank LF).
    + vm_compute. reflexivity.
    + vm_compute. reflexivity.
    + repeat constructor.
  - apply (proj2 (blank_record_is_dropped Scenario.aws_dev codecs_blank
                    Scenario.cloudwatch_cfg Scenario.metrics_cfg [] []
                    record_blank_metric Cloudwatch.initial_state Metrics.initial_state)
             LF).
    + vm_compute. reflexivity.
    + repeat constructor.
Defined.

(** ** Search domains *)

Lemma prefix_append sub s : String.prefix sub (sub +:+ s) = true.
Proof.
  induction sub as [|a sub IH]; [by destruct s|].
  rewrite append_cons. cbn [String.prefix].
  by destruct (ascii_dec a a).
Qed.

Lemma str_in_here sub s : str_in sub (sub +:+ s) = true.
Proof.
  destruct (sub +:+ s) as [|c rest] eqn:Heq; cbn [str_in];
    by rewrite <- Heq, prefix_append.
Qed.

Lemma str_in_later sub p s : str_in sub s = true → str_in sub (p +:+ s) = true.
Proof.
  intros Hs. induction p as [|c p IH]; [done|].
  rewrite append_cons. cbn [str_in]. rewrite IH. apply orb_true_r.
Qed.

Lemma es_arn_is_domain region account_id name :
  str_in ":domain/" (es_arn region account_id name) = true.
Proof. unfold es_arn. do 4 apply str_in_later. apply str_in_here. Qed.

(** X20: the tags of a search domain are taken as AWS gives them: the
    requirement of an ["Organization GUID"] tag applies to database
    locators only.  A metric of namespace [AWS/ES] whose domain starts with
    the domain prefix, is not cached yet and has some tags is emitted with
    exactly those tags, whether or not the organisation tag is among
    them. *)
Theorem es_metric_needs_no_organization_guid W C metric dimensions name response
    region s3c s3p esc dp rdsc rdsp acct s :
  method_get metric "namespace" VNone = Ok (VStr "AWS/ES") →
  method_get metric "dimensions" (VDict []) = Ok dimensions →
  method_get dimensions "DomainName" VNone = Ok (VStr name) →
  startswith name dp = true →
  str_in ":db:" (es_arn region acct name) = false →
  cache_get (es_arn region acct name, esc) (entries (Metrics.arn_cache s)) = None →
  list_tags W esc (es_arn region acct name) = Ok response →
  dict_of_tags (default [] (TagList response)) ≠ [] →
  ∃ m s',
    metric = VDict m ∧
    Metrics.process_metric W C metric region s3c s3p esc dp rdsc rdsp acct s =
    (Ok (Some (VDict (dict_set "Tags"
                        (VDict (dict_of_tags (default [] (TagList response)))) m))),
     s').
Proof.
  intros Hns Hdim Hname Hpre Hnodb Hmiss Hlist Htags.
  destruct (method_get_dict _ _ _ _ Hns) as (m & -> & Hm).
  assert (dict_get "namespace" m = Some (VStr "AWS/ES")) as Hget.
  { destruct (dict_get "namespace" m) as [ns|]; [|done]. simpl in Hm. by subst. }
  assert (metrics_fetched W (es_arn region acct name) esc
          = dict_of_tags (default [] (TagList response))) as Hfetched.
  { unfold metrics_fetched. by rewrite es_arn_is_domain, Hnodb, Hlist. }
  assert (∃ l s',
            Metrics.get_resource_tags_from_metric W (VDict m) region s3c s3p esc dp
              rdsc rdsp acct s = (Ok l, s') ∧
            Metrics.heap s' !! l = Some (dict_of_tags (default [] (TagList response))))
    as (l & s' & Hlookup & Hheap).
  { unfold Metrics.get_resource_tags_from_metric.
    rewrite bind_run. unfold Metrics.alloc at 1. cbn beta iota.
    unfold except_Exception, try_except.
    rewrite bind_run. unfold lift at 1. rewrite Hns.
    rewrite bind_run. unfold lift at 1. rewrite Hdim.
    change (eq_str (VStr "AWS/ES") "AWS/S3") with false.
    change (eq_str (VStr "AWS/ES") "AWS/ES") with true. cbn beta iota.
    rewrite bind_run. unfold lift at 1. rewrite Hname.
    rewrite bind_run. unfold lift at 1. cbn [method_startswith]. rewrite Hpre.
    pose proof (metrics_get_tags_run W (es_arn region acct name) esc
                  (Metrics.set_heap (Metrics.heap s ++ [[]]) s)) as Hrun.
    cbn [Metrics.set_heap Metrics.arn_cache] in Hrun. rewrite Hmiss in Hrun.
    destruct Hrun as [lg Hrun]. unfold es_arn in Hrun. rewrite Hrun.
    fold (es_arn region acct name). rewrite Hfetched.
    eexists _, _. split; [reflexivity|].
    cbn [Metrics.heap]. apply lookup_fresh. }
  exists m, s'. split; [done|].
  rewrite (process_metric_run W C m (VStr "AWS/ES") _ _ _ _ _ _ _ _ _ _ _
             (dict_of_tags (default [] (TagList response))) Hget eq_refl Hlookup Hheap).
  destruct (dict_of_tags (default [] (TagList response))); [done|]. reflexivity.
Qed.

Lemma es_metric_needs_no_organization_guid_witness :
  dict_mem "Organization GUID" (dict_of_tags [("Owner", "team")]) = false ∧
  ∃ m s',
    VDict metric_domain = VDict m ∧
    Metrics.process_metric aws_domains Scenario.codecs_dev (VDict metric_domain)
      (Some "us-gov-west-1") Scenario.s3 "development-cg-" Scenario.es "cg-broker-dev-"
      Scenario.rds "cg-aws-broker-dev" (Some "123456") Metrics.initial_state =
    (Ok (Some (VDict (dict_set "Tags" (VDict (dict_of_tags [("Owner", "team")])) m))),
     s').
Proof.
  split; [reflexivity|].
  refine (es_metric_needs_no_organization_guid aws_domains Scenario.codecs_dev
            (VDict metric_domain)
            (VDict [("DomainName", VStr "cg-broker-dev-search");
                    ("ClientId", VStr "123456")])
            "cg-broker-dev-search" {| TagList := Some [("Owner", "team")] |}
            (Some "us-gov-west-1") Scenario.s3 "development-cg-" Scenario.es
            "cg-broker-dev-" Scenario.rds "cg-aws-broker-dev" (Some "123456")
            Metrics.initial_state _ _ _ _ _ _ _ _);
    vm_compute; (reflexivity || discriminate).
Defined.
